(** * CloudStack modules: resource resolution, diffing, job polling, tags

    A shallow embedding of the shared [AnsibleCloudStack] base class and of
    the account, cluster, NIC and instance facts modules built on it
    ([cs_account.py], [cs_cluster.py], [cs_nic.py], [cs_facts.py]).  Python
    values are embedded as a small
    JSON-like universe, instance attributes as a finite map from attribute
    names to values, and every method as a function in a state-and-error
    monad whose state records the calls made to the remote API. *)

From Stdlib Require Import ZArith String Ascii List Bool Lia PrimFloat SpecFloat FloatOps.
From Stdlib Require Import DecimalString.
From stdpp Require Import base option list gmap strings.

Local Set Warnings "-register-all".
Local Open Scope string_scope.
Local Open Scope Z_scope.

(** ** Python values *)

Module Py.

(** The values the modules handle: module parameters parsed from YAML and
    responses decoded from JSON.  Byte strings and unicode strings are not
    told apart; dictionaries have string keys and keep their entries in a
    list (first entry wins on lookup). *)
Inductive value : Type :=
  | VNone
  | VBool (b : bool)
  | VInt (n : Z)
  | VLong (n : Z)
  | VFloat (x : float)
  | VComplex (re im : float)
  | VStr (s : string)
  | VList (l : list value)
  | VDict (d : list (string * value)).

Definition dict := list (string * value).

(** Python exceptions that the modelled code can raise. *)
Inductive exn : Type :=
  | KeyError (k : value)
  | IndexError
  | TypeError
  | AttributeError
  | ValueError
  | CloudStackException (msg : string).

(** Result of running a piece of code: a value, [module.fail_json] (which
    exits the process) with its message template and arguments, an uncaught
    exception, or a polling loop that is still running when the fuel given
    to it is used up. *)
Inductive outcome (A : Type) : Type :=
  | Ok (a : A)
  | Failed (msg : string) (args : list value)
  | Raised (e : exn)
  | OutOfFuel.

Arguments Ok {A} a.
Arguments Failed {A} msg args.
Arguments Raised {A} e.
Arguments OutOfFuel {A}.

Definition obind {A B} (o : outcome A) (f : A -> outcome B) : outcome B :=
  match o with
  | Ok a => f a
  | Failed m l => Failed m l
  | Raised e => Raised e
  | OutOfFuel => OutOfFuel
  end.

(** *** Dictionaries *)

Fixpoint dict_get (k : string) (d : dict) : option value :=
  match d with
  | [] => None
  | (k', v) :: d' => if String.eqb k k' then Some v else dict_get k d'
  end.

Definition has_key (k : string) (d : dict) : bool :=
  match dict_get k d with Some _ => true | None => false end.

(** [d[k] = v]: replaces the entry in place, or adds one. *)
Fixpoint dict_set (k : string) (v : value) (d : dict) : dict :=
  match d with
  | [] => [(k, v)]
  | (k', v') :: d' =>
      if String.eqb k k' then (k, v) :: d' else (k', v') :: dict_set k v d'
  end.

(** *** Truth value *)

Definition truthy (v : value) : bool :=
  match v with
  | VNone => false
  | VBool b => b
  | VInt n | VLong n => negb (n =? 0)
  | VFloat x => negb (PrimFloat.eqb x 0%float)
  | VComplex re im =>
      negb (PrimFloat.eqb re 0%float && PrimFloat.eqb im 0%float)
  | VStr s => negb (String.eqb s "")
  | VList l => match l with [] => false | _ => true end
  | VDict d => match d with [] => false | _ => true end
  end.

(** *** Equality ([==]) *)

(** The integer a float denotes, when it denotes one. *)
Definition float_exact_Z (x : float) : option Z :=
  match Prim2SF x with
  | S754_zero _ => Some 0
  | S754_finite s m e =>
      let sign := if s then (-1) else 1 in
      if 0 <=? e then Some (sign * (Z.pos m * 2 ^ e))
      else if (Z.pos m mod 2 ^ (- e)) =? 0
           then Some (sign * (Z.pos m / 2 ^ (- e)))
           else None
  | _ => None
  end.

Inductive number : Type :=
  | NInt (n : Z)
  | NFloat (x : float)
  | NComplex (re im : float).

Definition as_number (v : value) : option number :=
  match v with
  | VBool b => Some (NInt (if b then 1 else 0))
  | VInt n | VLong n => Some (NInt n)
  | VFloat x => Some (NFloat x)
  | VComplex re im => Some (NComplex re im)
  | _ => None
  end.

Definition int_eq_float (n : Z) (x : float) : bool :=
  match float_exact_Z x with
  | Some m => n =? m
  | None => false
  end.

Definition number_eq (a b : number) : bool :=
  match a, b with
  | NInt n, NInt m => n =? m
  | NInt n, NFloat x | NFloat x, NInt n => int_eq_float n x
  | NFloat x, NFloat y => PrimFloat.eqb x y
  | NComplex re im, NComplex re' im' =>
      PrimFloat.eqb re re' && PrimFloat.eqb im im'
  | NComplex re im, NInt n | NInt n, NComplex re im =>
      PrimFloat.eqb im 0%float && int_eq_float n re
  | NComplex re im, NFloat x | NFloat x, NComplex re im =>
      PrimFloat.eqb im 0%float && PrimFloat.eqb re x
  end.

Fixpoint py_eq (a b : value) : bool :=
  match a, b with
  | VNone, VNone => true
  | VStr s, VStr t => String.eqb s t
  | VList l, VList m =>
      (fix all2 (l m : list value) : bool :=
         match l, m with
         | [], [] => true
         | x :: l', y :: m' => py_eq x y && all2 l' m'
         | _, _ => false
         end) l m
  | VDict d, VDict e =>
      Nat.eqb (length d) (length e) &&
      (fix sub (d : dict) : bool :=
         match d with
         | [] => true
         | (k, v) :: d' =>
             match dict_get k e with
             | Some w => py_eq v w
             | None => false
             end && sub d'
         end) d
  | _, _ =>
      match as_number a, as_number b with
      | Some x, Some y => number_eq x y
      | _, _ => false
      end
  end.

Definition py_ne (a b : value) : bool := negb (py_eq a b).

(** *** Membership ([in]), indexing, methods *)

Definition is_substring (t s : string) : bool :=
  match String.index 0 t s with Some _ => true | None => false end.

Definition py_in (x c : value) : outcome bool :=
  match c with
  | VDict d =>
      match x with
      | VStr k => Ok (has_key k d)
      | VList _ | VDict _ => Raised TypeError
      | _ => Ok false
      end
  | VList l => Ok (existsb (py_eq x) l)
  | VStr s =>
      match x with
      | VStr t => Ok (is_substring t s)
      | _ => Raised TypeError
      end
  | _ => Raised TypeError
  end.

Definition as_index (v : value) : option Z :=
  match v with
  | VBool b => Some (if b then 1 else 0)
  | VInt n | VLong n => Some n
  | _ => None
  end.

(** Position [i] of a sequence of length [n], counting from the end when
    [i] is negative. *)
Definition norm_index (i : Z) (n : nat) : option nat :=
  let j := if i <? 0 then Z.of_nat n + i else i in
  if (0 <=? j) && (j <? Z.of_nat n) then Some (Z.to_nat j) else None.

Definition py_getitem (c k : value) : outcome value :=
  match c with
  | VDict d =>
      match k with
      | VStr s =>
          match dict_get s d with
          | Some v => Ok v
          | None => Raised (KeyError k)
          end
      | VList _ | VDict _ => Raised TypeError
      | _ => Raised (KeyError k)
      end
  | VList l =>
      match as_index k with
      | Some i =>
          match norm_index i (length l) with
          | Some j =>
              match nth_error l j with
              | Some v => Ok v
              | None => Raised IndexError
              end
          | None => Raised IndexError
          end
      | None => Raised TypeError
      end
  | VStr s =>
      match as_index k with
      | Some i =>
          match norm_index i (String.length s) with
          | Some j =>
              match String.get j s with
              | Some c => Ok (VStr (String c EmptyString))
              | None => Raised IndexError
              end
          | None => Raised IndexError
          end
      | None => Raised TypeError
      end
  | _ => Raised TypeError
  end.

(** [c[k]] for a string literal [k]. *)
Definition item (c : value) (k : string) : outcome value :=
  py_getitem c (VStr k).

(** [c.get(k, dflt)]. *)
Definition py_get (c : value) (k : string) (dflt : value) : outcome value :=
  match c with
  | VDict d => Ok (match dict_get k d with Some v => v | None => dflt end)
  | _ => Raised AttributeError
  end.

Definition lower_ascii (c : ascii) : ascii :=
  let n := nat_of_ascii c in
  if (Nat.leb 65 n && Nat.leb n 90)%bool then ascii_of_nat (n + 32) else c.

Fixpoint lower_string (s : string) : string :=
  match s with
  | EmptyString => EmptyString
  | String c s' => String (lower_ascii c) (lower_string s')
  end.

Definition upper_ascii (c : ascii) : ascii :=
  let n := nat_of_ascii c in
  if (Nat.leb 97 n && Nat.leb n 122)%bool then ascii_of_nat (n - 32) else c.

(** [s.capitalize()]. *)
Definition capitalize_string (s : string) : string :=
  match s with
  | EmptyString => EmptyString
  | String c s' => String (upper_ascii c) (lower_string s')
  end.

(** [v.lower()]. *)
Definition py_lower (v : value) : outcome value :=
  match v with
  | VStr s => Ok (VStr (lower_string s))
  | _ => Raised AttributeError
  end.

(** [v.encode('utf-8')]: text is kept as bytes already, so encoding a string
    gives it back. *)
Definition py_encode (v : value) : outcome value :=
  match v with
  | VStr s => Ok v
  | _ => Raised AttributeError
  end.

(** The elements a [for] loop visits. *)
Definition py_iter (v : value) : outcome (list value) :=
  match v with
  | VList l => Ok l
  | VDict d => Ok (map (fun kv => VStr (fst kv)) d)
  | VStr s => Ok (map (fun c => VStr (String c EmptyString)) (list_ascii_of_string s))
  | _ => Raised TypeError
  end.

End Py.

Import Py.

(** ** The run-time state and the monad of the methods *)

(** One call of the remote API: the command and its keyword arguments, in
    the order the source writes them. *)
Definition call : Type := string * dict.

(** What the client library gives back: the decoded response, or a
    [CloudStackException]. *)
Inductive reply : Type :=
  | Reply (v : value)
  | ApiError (msg : string).

(** The part of an [AnsibleCloudStack] object that changes during a run:
    [attrs] holds the instance attributes ([self.domain], [self.account],
    ..., an attribute that was never assigned reads as [None]);
    [changed], [diff_before] and [diff_after] are [self.result]; [trace] is
    the list of remote calls made so far, oldest first. *)
Record state : Type := mkState {
  attrs : gmap string value;
  changed : bool;
  diff_before : dict;
  diff_after : dict;
  trace : list call
}.

Definition init_state : state :=
  {| attrs := ∅; changed := false; diff_before := []; diff_after := [];
     trace := [] |}.

Definition M (A : Type) : Type := state -> outcome A * state.

Definition ret {A} (a : A) : M A := fun st => (Ok a, st).

Definition bind {A B} (m : M A) (f : A -> M B) : M B :=
  fun st =>
    match m st with
    | (Ok a, st') => f a st'
    | (Failed msg l, st') => (Failed msg l, st')
    | (Raised e, st') => (Raised e, st')
    | (OutOfFuel, st') => (OutOfFuel, st')
    end.

Notation "x <- m ;; k" := (bind m (fun x => k))
  (at level 100, m at next level, right associativity).
Notation "m ;;; k" := (bind m (fun _ => k))
  (at level 100, right associativity).

(** [self.module.fail_json(msg=...)]: the run ends here. *)
Definition fail_json {A} (msg : string) (args : list value) : M A :=
  fun st => (Failed msg args, st).

(** A pure step that may raise. *)
Definition lift {A} (o : outcome A) : M A := fun st => (o, st).

(** The attribute [name] of the object, [None] when it was never set. *)
Definition attr (name : string) (st : state) : value :=
  default VNone (attrs st !! name).

Definition self_get (name : string) : M value :=
  fun st => (Ok (attr name st), st).

Definition set_attr (name : string) (v : value) (st : state) : state :=
  {| attrs := <[name := v]> (attrs st); changed := changed st;
     diff_before := diff_before st; diff_after := diff_after st;
     trace := trace st |}.

Definition self_set (name : string) (v : value) : M unit :=
  fun st => (Ok tt, set_attr name v st).

Definition mark_changed (st : state) : state :=
  {| attrs := attrs st; changed := true;
     diff_before := diff_before st; diff_after := diff_after st;
     trace := trace st |}.

(** [self.result['changed'] = True]. *)
Definition set_changed : M unit :=
  fun st => (Ok tt, mark_changed st).

Definition log_call (c : call) (st : state) : state :=
  {| attrs := attrs st; changed := changed st;
     diff_before := diff_before st; diff_after := diff_after st;
     trace := trace st ++ [c] |}.

(** The loop of a resolver: the body either returns from the method
    ([Some]) or goes on with the next candidate ([None]). *)
Fixpoint for_first {A} (body : value -> M (option A)) (l : list value)
  : M (option A) :=
  match l with
  | [] => ret None
  | x :: l' =>
      r <- body x ;;
      match r with
      | Some a => ret (Some a)
      | None => for_first body l'
      end
  end.

(** A loop whose body never returns from the method. *)
Fixpoint for_each (body : value -> M unit) (l : list value) : M unit :=
  match l with
  | [] => ret tt
  | x :: l' => body x ;;; for_each body l'
  end.

Definition lower_of (v : value) : outcome string :=
  match v with
  | VStr s => Ok (lower_string s)
  | _ => Raised AttributeError
  end.

(** ** The shared base class [AnsibleCloudStack] *)

Section Run.

(** [module.params], [os.environ] and the remote platform.  The platform
    answers a call knowing every call made before it. *)
Variable params : gmap string value.
Variable env : gmap string string.
Variable remote : list call -> call -> reply.

(** The number of status queries after which a job poll is given up. *)
Variable fuel : nat.

Definition param (k : string) : value := default VNone (params !! k).

Definition environ (k : string) : value :=
  match env !! k with Some s => VStr s | None => VNone end.

(** A call of the client library, [self.cs.<api>], with keyword arguments
    [args]. *)
Definition cs (api : string) (args : dict) : M value :=
  fun st =>
    match remote (trace st) (api, args) with
    | Reply v => (Ok v, log_call (api, args) st)
    | ApiError msg => (Raised (CloudStackException msg), log_call (api, args) st)
    end.

Definition _get_by_key (key my_dict : value) : M value :=
  let my_dict := match my_dict with VNone => VDict [] | _ => my_dict end in
  if truthy key then
    b <- lift (py_in key my_dict) ;;
    if b : bool then lift (py_getitem my_dict key)
    else fail_json "Something went wrong: %s not found" [key]
  else ret my_dict.

(** The test of one candidate in [get_domain]. *)
Definition domain_candidate (domain key d : value) : M (option value) :=
  p <- lift (obind (item d "path") lower_of) ;;
  dl <- lift (lower_of domain) ;;
  if existsb (py_eq (VStr p))
       [VStr dl; VStr ("root/" ++ dl); VStr ("root" ++ dl)]
  then
    self_set "domain" d ;;;
    r <- _get_by_key key d ;;
    ret (Some r)
  else ret None.

Definition get_domain (key : value) : M value :=
  cached <- self_get "domain" ;;
  if truthy cached then _get_by_key key cached else
  let domain := param "domain" in
  let domain := if truthy domain then domain else environ "CLOUDSTACK_DOMAIN" in
  if negb (truthy domain) then ret VNone else
  domains <- cs "listDomains" [("listall", VBool true)] ;;
  found <-
    (if truthy domains then
       ds <- lift (obind (item domains "domain") py_iter) ;;
       for_first (domain_candidate domain key) ds
     else ret None) ;;
  match found with
  | Some r => ret r
  | None => fail_json "Domain '%s' not found" [domain]
  end.

Definition get_account (key : value) : M value :=
  cached <- self_get "account" ;;
  if truthy cached then _get_by_key key cached else
  let account := param "account" in
  let account :=
    if truthy account then account else environ "CLOUDSTACK_ACCOUNT" in
  if negb (truthy account) then ret VNone else
  let domain := param "domain" in
  if negb (truthy domain) then
    fail_json "Account must be specified with Domain" []
  else
  domainid <- get_domain (VStr "id") ;;
  accounts <- cs "listAccounts"
    [("name", account); ("domainid", domainid); ("listall", VBool true)] ;;
  if truthy accounts then
    a <- lift (obind (item accounts "account") (fun l => py_getitem l (VInt 0))) ;;
    self_set "account" a ;;;
    _get_by_key key a
  else fail_json "Account '%s' not found" [account].

Definition get_project (key : value) : M value :=
  cached <- self_get "project" ;;
  if truthy cached then _get_by_key key cached else
  let project := param "project" in
  let project :=
    if truthy project then project else environ "CLOUDSTACK_PROJECT" in
  if negb (truthy project) then ret VNone else
  account <- get_account (VStr "name") ;;
  domainid <- get_domain (VStr "id") ;;
  projects <- cs "listProjects" [("account", account); ("domainid", domainid)] ;;
  found <-
    (if truthy projects then
       ps <- lift (obind (item projects "project") py_iter) ;;
       for_first (fun p =>
         pl <- lift (lower_of project) ;;
         n <- lift (obind (item p "name") lower_of) ;;
         i <- lift (item p "id") ;;
         if existsb (py_eq (VStr pl)) [VStr n; i] then
           self_set "project" p ;;;
           r <- _get_by_key key p ;;
           ret (Some r)
         else ret None) ps
     else ret None) ;;
  match found with
  | Some r => ret r
  | None => fail_json "project '%s' not found" [project]
  end.

Definition get_zone (key : value) : M value :=
  cached <- self_get "zone" ;;
  if truthy cached then _get_by_key key cached else
  let zone := param "zone" in
  let zone := if truthy zone then zone else environ "CLOUDSTACK_ZONE" in
  zones <- cs "listZones" [] ;;
  if negb (truthy zone) then
    z <- lift (obind (item zones "zone") (fun l => py_getitem l (VInt 0))) ;;
    self_set "zone" z ;;;
    _get_by_key key z
  else
  found <-
    (if truthy zones then
       zs <- lift (obind (item zones "zone") py_iter) ;;
       for_first (fun z =>
         zl <- lift (lower_of zone) ;;
         n <- lift (obind (item z "name") lower_of) ;;
         i <- lift (item z "id") ;;
         if existsb (py_eq (VStr zl)) [VStr n; i] then
           self_set "zone" z ;;;
           r <- _get_by_key key z ;;
           ret (Some r)
         else ret None) zs
     else ret None) ;;
  match found with
  | Some r => ret r
  | None => fail_json "zone '%s' not found" [zone]
  end.

(** The part of [get_vpc] that queries the platform; the copies of the
    method differ only in how they read the [vpc] option. *)
Definition vpc_lookup (vpc key : value) : M value :=
  account <- get_account (VStr "name") ;;
  domainid <- get_domain (VStr "id") ;;
  projectid <- get_project (VStr "id") ;;
  zoneid <- get_zone (VStr "id") ;;
  vpcs <- cs "listVPCs"
    [("account", account); ("domainid", domainid);
     ("projectid", projectid); ("zoneid", zoneid)] ;;
  if negb (truthy vpcs) then fail_json "No VPCs available." [] else
  vs <- lift (obind (item vpcs "vpc") py_iter) ;;
  found <- for_first (fun v =>
    dt <- lift (item v "displaytext") ;;
    n <- lift (item v "name") ;;
    i <- lift (item v "id") ;;
    if existsb (py_eq vpc) [dt; n; i] then
      self_set "vpc" v ;;;
      r <- _get_by_key key v ;;
      ret (Some r)
    else ret None) vs ;;
  match found with
  | Some r => ret r
  | None => fail_json "VPC '%s' not found" [vpc]
  end.

(** [get_vpc] as in [cs_account.py], [cs_cluster.py] and [cs_facts.py]. *)
Definition get_vpc (key : value) : M value :=
  cached <- self_get "vpc" ;;
  if truthy cached then _get_by_key key cached else
  let vpc := param "vpc" in
  let vpc := if truthy vpc then vpc else environ "CLOUDSTACK_VPC" in
  if negb (truthy vpc) then ret VNone else
  vpc_lookup vpc key.

(** [get_vpc] as in [cs_nic.py]: no fallback to the environment. *)
Definition nic_get_vpc (key : value) : M value :=
  cached <- self_get "vpc" ;;
  if truthy cached then _get_by_key key cached else
  let vpc := param "vpc" in
  if negb (truthy vpc) then ret VNone else
  vpc_lookup vpc key.

Definition is_vpc_network (network_id : value) : M bool :=
  ids <- self_get "_vpc_networks_ids" ;;
  (match ids with
   | VNone =>
       account <- get_account (VStr "name") ;;
       domainid <- get_domain (VStr "id") ;;
       projectid <- get_project (VStr "id") ;;
       zoneid <- get_zone (VStr "id") ;;
       vpcs <- cs "listVPCs"
         [("account", account); ("domainid", domainid);
          ("projectid", projectid); ("zoneid", zoneid)] ;;
       self_set "_vpc_networks_ids" (VList []) ;;;
       if truthy vpcs then
         vs <- lift (obind (item vpcs "vpc") py_iter) ;;
         for_each (fun vpc =>
           ns <- lift (obind (py_get vpc "network" (VList [])) py_iter) ;;
           for_each (fun n =>
             i <- lift (item n "id") ;;
             l <- self_get "_vpc_networks_ids" ;;
             match l with
             | VList l => self_set "_vpc_networks_ids" (VList (l ++ [i]))
             | _ => lift (Raised AttributeError)
             end) ns) vs
       else ret tt
   | _ => ret tt
   end) ;;;
  ids <- self_get "_vpc_networks_ids" ;;
  lift (py_in network_id ids).

Definition is_vm_in_vpc (vm : value) : M bool :=
  ns <- lift (obind (py_get vm "nic" VNone) py_iter) ;;
  found <- for_first (fun n =>
    d <- lift (py_get n "isdefault" (VBool false)) ;;
    if truthy d then
      nid <- lift (item n "networkid") ;;
      r <- is_vpc_network nid ;;
      ret (Some r)
    else ret None) ns ;;
  match found with
  | Some r => ret r
  | None => fail_json "VM has no default nic" []
  end.

(** [get_network] as in [cs_account.py], [cs_cluster.py] and [cs_facts.py]. *)
Definition get_network (key : value) : M value :=
  cached <- self_get "network" ;;
  if truthy cached then _get_by_key key cached else
  let network := param "network" in
  if negb (truthy network) then ret VNone else
  account <- get_account (VStr "name") ;;
  domainid <- get_domain (VStr "id") ;;
  projectid <- get_project (VStr "id") ;;
  zoneid <- get_zone (VStr "id") ;;
  vpcid <- get_vpc (VStr "id") ;;
  networks <- cs "listNetworks"
    [("account", account); ("domainid", domainid);
     ("projectid", projectid); ("zoneid", zoneid); ("vpcid", vpcid)] ;;
  if negb (truthy networks) then fail_json "No networks available." [] else
  ns <- lift (obind (item networks "network") py_iter) ;;
  found <- for_first (fun n =>
    in_vpc <- lift (py_in (VStr "vpcid") n) ;;
    skip <- (if in_vpc : bool then
               v <- get_vpc (VStr "id") ;; ret (negb (truthy v))
             else ret false) ;;
    if skip : bool then ret None else
    dt <- lift (item n "displaytext") ;;
    nm <- lift (item n "name") ;;
    i <- lift (item n "id") ;;
    if existsb (py_eq network) [dt; nm; i] then
      self_set "network" n ;;;
      r <- _get_by_key key n ;;
      ret (Some r)
    else ret None) ns ;;
  match found with
  | Some r => ret r
  | None => fail_json "Network '%s' not found" [network]
  end.

(** [get_network] as in [cs_nic.py]: networks of a VPC are not skipped. *)
Definition nic_get_network (key : value) : M value :=
  cached <- self_get "network" ;;
  if truthy cached then _get_by_key key cached else
  let network := param "network" in
  if negb (truthy network) then ret VNone else
  account <- get_account (VStr "name") ;;
  domainid <- get_domain (VStr "id") ;;
  projectid <- get_project (VStr "id") ;;
  zoneid <- get_zone (VStr "id") ;;
  vpcid <- nic_get_vpc (VStr "id") ;;
  networks <- cs "listNetworks"
    [("account", account); ("domainid", domainid);
     ("projectid", projectid); ("zoneid", zoneid); ("vpcid", vpcid)] ;;
  if negb (truthy networks) then fail_json "No networks available." [] else
  ns <- lift (obind (item networks "network") py_iter) ;;
  found <- for_first (fun n =>
    dt <- lift (item n "displaytext") ;;
    nm <- lift (item n "name") ;;
    i <- lift (item n "id") ;;
    if existsb (py_eq network) [dt; nm; i] then
      self_set "network" n ;;;
      r <- _get_by_key key n ;;
      ret (Some r)
    else ret None) ns ;;
  match found with
  | Some r => ret r
  | None => fail_json "Network '%s' not found" [network]
  end.

(** The test of one candidate in [get_vm]. *)
Definition vm_candidate (vm key v : value) : M (option value) :=
  vl <- lift (lower_of vm) ;;
  n <- lift (obind (item v "name") lower_of) ;;
  dn <- lift (obind (item v "displayname") lower_of) ;;
  i <- lift (item v "id") ;;
  if existsb (py_eq (VStr vl)) [VStr n; VStr dn; i] then
    self_set "vm" v ;;;
    r <- _get_by_key key v ;;
    ret (Some r)
  else ret None.

(** [get_vm] as in [cs_account.py], [cs_cluster.py] and [cs_facts.py]. *)
Definition get_vm (key : value) : M value :=
  cached <- self_get "vm" ;;
  if truthy cached then _get_by_key key cached else
  let vm := param "vm" in
  if negb (truthy vm) then
    fail_json "Virtual machine param 'vm' is required" []
  else
  vpc_id <- get_vpc (VStr "id") ;;
  account <- get_account (VStr "name") ;;
  domainid <- get_domain (VStr "id") ;;
  projectid <- get_project (VStr "id") ;;
  zoneid <- get_zone (VStr "id") ;;
  vms <- cs "listVirtualMachines"
    [("account", account); ("domainid", domainid);
     ("projectid", projectid); ("zoneid", zoneid); ("vpcid", vpc_id)] ;;
  found <-
    (if truthy vms then
       vs <- lift (obind (item vms "virtualmachine") py_iter) ;;
       for_first (fun v =>
         skip <- (if truthy vpc_id then ret false else is_vm_in_vpc v) ;;
         if skip : bool then ret None else vm_candidate vm key v) vs
     else ret None) ;;
  match found with
  | Some r => ret r
  | None => fail_json "Virtual machine '%s' not found" [vm]
  end.

(** [get_vm] as in [cs_nic.py]. *)
Definition nic_get_vm (key : value) : M value :=
  cached <- self_get "vm" ;;
  if truthy cached then _get_by_key key cached else
  let vm := param "vm" in
  if negb (truthy vm) then
    fail_json "Virtual machine param 'vm' is required" []
  else
  account <- get_account (VStr "name") ;;
  domainid <- get_domain (VStr "id") ;;
  projectid <- get_project (VStr "id") ;;
  zoneid <- get_zone (VStr "id") ;;
  vpcid <- nic_get_vpc (VStr "id") ;;
  vms <- cs "listVirtualMachines"
    [("account", account); ("domainid", domainid);
     ("projectid", projectid); ("zoneid", zoneid); ("vpcid", vpcid)] ;;
  found <-
    (if truthy vms then
       vs <- lift (obind (item vms "virtualmachine") py_iter) ;;
       for_first (vm_candidate vm key) vs
     else ret None) ;;
  match found with
  | Some r => ret r
  | None => fail_json "Virtual machine '%s' not found" [vm]
  end.

Definition get_os_type (key : value) : M value :=
  cached <- self_get "os_type" ;;
  if truthy cached then
    zone <- self_get "zone" ;;
    _get_by_key key zone
  else
  let os_type := param "os_type" in
  if negb (truthy os_type) then ret VNone else
  os_types <- cs "listOsTypes" [] ;;
  found <-
    (if truthy os_types then
       os <- lift (obind (item os_types "ostype") py_iter) ;;
       for_first (fun o =>
         d <- lift (item o "description") ;;
         i <- lift (item o "id") ;;
         if existsb (py_eq os_type) [d; i] then
           self_set "os_type" o ;;;
           r <- _get_by_key key o ;;
           ret (Some r)
         else ret None) os
     else ret None) ;;
  match found with
  | Some r => ret r
  | None => fail_json "OS type '%s' not found" [os_type]
  end.

Definition get_hypervisor : M value :=
  cached <- self_get "hypervisor" ;;
  if truthy cached then ret cached else
  let hypervisor := param "hypervisor" in
  hypervisors <- cs "listHypervisors" [] ;;
  if negb (truthy hypervisor) then
    h <- lift (obind (obind (item hypervisors "hypervisor")
                        (fun l => py_getitem l (VInt 0)))
                 (fun h => item h "name")) ;;
    self_set "hypervisor" h ;;;
    ret h
  else
  hs <- lift (obind (item hypervisors "hypervisor") py_iter) ;;
  found <- for_first (fun h =>
    hl <- lift (lower_of hypervisor) ;;
    n <- lift (obind (item h "name") lower_of) ;;
    if String.eqb hl n then
      nm <- lift (item h "name") ;;
      self_set "hypervisor" nm ;;;
      ret (Some nm)
    else ret None) hs ;;
  match found with
  | Some r => ret r
  | None => fail_json "Hypervisor '%s' not found" [hypervisor]
  end.

(** *** Job polling *)

(** The loop of [poll_job]; each turn asks for the status once
    ([time.sleep] between two turns is not recorded). *)
Fixpoint poll_loop (n : nat) (job key : value) : M value :=
  match n with
  | O => fun st => (OutOfFuel, st)
  | S n' =>
      jobid <- lift (item job "jobid") ;;
      res <- cs "queryAsyncJobResult" [("jobid", jobid)] ;;
      status <- lift (item res "jobstatus") ;;
      finished <- (if py_ne status (VInt 0)
                   then lift (py_in (VStr "jobresult") res)
                   else ret false) ;;
      if finished : bool then
        jobresult <- lift (item res "jobresult") ;;
        err <- lift (py_in (VStr "errortext") jobresult) ;;
        if err : bool then
          e <- lift (item jobresult "errortext") ;;
          fail_json "Failed: '%s'" [e]
        else if truthy key then
          present <- lift (py_in key jobresult) ;;
          if present : bool then lift (py_getitem jobresult key) else ret job
        else ret job
      else poll_loop n' job key
  end.

Definition poll_job (job key : value) : M value :=
  has_id <- lift (py_in (VStr "jobid") job) ;;
  if has_id : bool then poll_loop fuel job key else ret job.

(** *** Tags *)

Fixpoint tag_pairs (l : list value) : outcome (list value) :=
  match l with
  | [] => Ok []
  | tag :: l' =>
      obind (item tag "key") (fun k =>
      obind (item tag "value") (fun v =>
      obind (tag_pairs l') (fun r =>
      Ok (VDict [("key", k); ("value", v)] :: r))))
  end.

Definition get_tags (resource : value) : outcome (list value) :=
  obind (py_get resource "tags" (VList [])) (fun ts =>
  obind (py_iter ts) tag_pairs).

(** [[x for x in xs if x not in c]]. *)
Fixpoint keep_not_in (xs : list value) (c : value) : outcome (list value) :=
  match xs with
  | [] => Ok []
  | x :: xs' =>
      obind (py_in x c) (fun b =>
      obind (keep_not_in xs' c) (fun r =>
      Ok (if b : bool then r else x :: r)))
  end.

Definition _tags_that_should_exist_or_be_updated (resource tags : value)
  : outcome (list value) :=
  obind (get_tags resource) (fun existing_tags =>
  obind (py_iter tags) (fun ts =>
  keep_not_in ts (VList existing_tags))).

Definition _tags_that_should_not_exist (resource tags : value)
  : outcome (list value) :=
  obind (get_tags resource) (fun existing_tags =>
  keep_not_in existing_tags tags).

Definition _process_tags (check_mode : bool) (resource resource_type : value)
    (tags : list value) (operation : string) : M unit :=
  match tags with
  | [] => ret tt
  | _ :: _ =>
      set_changed ;;;
      if check_mode then ret tt else
      id <- lift (item resource "id") ;;
      let args := [("resourceids", id); ("resourcetype", resource_type);
                   ("tags", VList tags)] in
      response <- (if String.eqb operation "create"
                   then cs "createTags" args
                   else cs "deleteTags" args) ;;
      poll_job response VNone ;;;
      ret tt
  end.

(** [c[k] = v]. *)
Definition py_setitem (c : value) (k : string) (v : value) : outcome value :=
  match c with
  | VDict d => Ok (VDict (dict_set k v d))
  | _ => Raised TypeError
  end.

(** The resource is changed in place; the embedding returns the resource
    as it is after the call. *)
Definition ensure_tags (check_mode : bool) (resource resource_type : value)
  : M value :=
  if negb (truthy resource_type) || negb (truthy resource) then
    fail_json "Error: Missing resource or resource_type for tags." []
  else
  has_tags <- lift (py_in (VStr "tags") resource) ;;
  if has_tags : bool then
    let tags := param "tags" in
    match tags with
    | VNone => ret resource
    | _ =>
        to_remove <- lift (_tags_that_should_not_exist resource tags) ;;
        _process_tags check_mode resource resource_type to_remove "delete" ;;;
        to_add <- lift (_tags_that_should_exist_or_be_updated resource tags) ;;
        _process_tags check_mode resource resource_type to_add "create" ;;;
        lift (py_setitem resource "tags" tags)
    end
  else ret resource.

(** *** Diffing *)

Inductive numkind : Type := KInt | KFloat | KLong | KComplex.

(** The branch of the [isinstance] cascade a wanted value takes; a boolean
    is an [int]. *)
Definition numeric_kind (v : value) : option numkind :=
  match v with
  | VBool _ | VInt _ => Some KInt
  | VFloat _ => Some KFloat
  | VLong _ => Some KLong
  | VComplex _ _ => Some KComplex
  | _ => None
  end.

(** The built-in conversions [int()], [float()], [long()] and [complex()]
    are not code of the modules; what they compute is left open. *)
Variable py_int py_float py_long py_complex : value -> outcome value.

Definition coerce (k : numkind) (v : value) : outcome value :=
  match k with
  | KInt => py_int v
  | KFloat => py_float v
  | KLong => py_long v
  | KComplex => py_complex v
  end.

Definition case_sensitive_keys : list string :=
  ["id"; "displaytext"; "displayname"; "description"].

(** What [has_changed] works on: the dictionary it was given as
    [current_dict], which it updates in place, the two sides of
    [self.result['diff']], and its local [result]. *)
Record hc_state : Type := mkHc {
  hc_current : dict;
  hc_before : dict;
  hc_after : dict;
  hc_result : bool
}.

Definition record_diff (key : string) (before after : value) (s : hc_state)
  : hc_state :=
  {| hc_current := hc_current s;
     hc_before := dict_set key before (hc_before s);
     hc_after := dict_set key after (hc_after s);
     hc_result := true |}.

Definition store_current (key : string) (v : value) (s : hc_state) : hc_state :=
  {| hc_current := dict_set key v (hc_current s);
     hc_before := hc_before s; hc_after := hc_after s;
     hc_result := hc_result s |}.

(** One turn of the loop of [has_changed] that got past the two [continue]
    tests. *)
Definition compare_item (key : string) (value : value) (s : hc_state)
  : outcome unit * hc_state :=
  match dict_get key (hc_current s) with
  | Some current =>
      match numeric_kind value with
      | Some k =>
          match coerce k current with
          | Ok c =>
              let s' := store_current key c s in
              (Ok tt, if py_ne value c then record_diff key c value s' else s')
          | Failed m l => (Failed m l, s)
          | Raised e => (Raised e, s)
          | OutOfFuel => (OutOfFuel, s)
          end
      | None =>
          if existsb (String.eqb key) case_sensitive_keys then
            match py_encode current with
            | Ok e =>
                (Ok tt, if py_ne value e then record_diff key e value s else s)
            | Failed m l => (Failed m l, s)
            | Raised e => (Raised e, s)
            | OutOfFuel => (OutOfFuel, s)
            end
          else
            match obind (py_lower value) (fun vl =>
                  obind (py_encode current) (fun e =>
                  obind (py_lower e) (fun el => Ok (py_ne vl el, e)))) with
            | Ok (differs, e) =>
                (Ok tt, if differs : bool then record_diff key e value s else s)
            | Failed m l => (Failed m l, s)
            | Raised e => (Raised e, s)
            | OutOfFuel => (OutOfFuel, s)
            end
      end
  | None => (Ok tt, record_diff key VNone value s)
  end.

Definition has_changed_item (only_keys : value) (key : string) (value : value)
    (s : hc_state) : outcome unit * hc_state :=
  match (if truthy only_keys then py_in (VStr key) only_keys else Ok true) with
  | Ok false => (Ok tt, s)
  | Ok true =>
      match value with
      | VNone => (Ok tt, s)
      | _ => compare_item key value s
      end
  | Failed m l => (Failed m l, s)
  | Raised e => (Raised e, s)
  | OutOfFuel => (OutOfFuel, s)
  end.

Fixpoint has_changed_loop (only_keys : value) (want : dict) (s : hc_state)
  : outcome unit * hc_state :=
  match want with
  | [] => (Ok tt, s)
  | (key, value) :: want' =>
      match has_changed_item only_keys key value s with
      | (Ok _, s') => has_changed_loop only_keys want' s'
      | r => r
      end
  end.

(** [has_changed]: the wanted fields are visited in the order of the list
    [want_dict]. *)
Definition has_changed (want_dict current_dict : dict) (only_keys : value)
    (before after : dict) : outcome bool * hc_state :=
  match has_changed_loop only_keys want_dict
          (mkHc current_dict before after false) with
  | (Ok _, s) => (Ok (hc_result s), s)
  | (Failed m l, s) => (Failed m l, s)
  | (Raised e, s) => (Raised e, s)
  | (OutOfFuel, s) => (OutOfFuel, s)
  end.

(** [AnsibleModule.fail_on_missing_params], a method of the Ansible
    library: every listed parameter whose value is false is reported. *)
Definition fail_on_missing_params (required_params : list string) : M unit :=
  let missing :=
    List.filter (fun k => negb (truthy (param k))) required_params in
  match missing with
  | [] => ret tt
  | _ :: _ =>
      fail_json "missing required arguments: %s"
        [VStr (String.concat "," missing)]
  end.

(** [if 'errortext' in res: fail_json(...)], the check after every
    mutating call. *)
Definition fail_on_errortext (res : value) : M unit :=
  err <- lift (py_in (VStr "errortext") res) ;;
  if err : bool then
    e <- lift (item res "errortext") ;;
    fail_json "Failed: '%s'" [e]
  else ret tt.

(** ** [AnsibleCloudStackAccount] ([cs_account.py]) *)

Definition account_types : value :=
  VDict [("user", VInt 0); ("root_admin", VInt 1); ("domain_admin", VInt 2)].

Definition get_account_type : M value :=
  lift (py_getitem account_types (param "account_type")).

(** The [get_account] of the account module, which overrides the one of
    the base class. *)
Definition Account_get_account : M value :=
  cached <- self_get "account" ;;
  (if truthy cached then ret tt else
   domainid <- get_domain (VStr "id") ;;
   accounts <- cs "listAccounts"
     [("listall", VBool true); ("domainid", domainid)] ;;
   if truthy accounts then
     let account_name := param "name" in
     l <- lift (obind (item accounts "account") py_iter) ;;
     found <- for_first (fun a =>
       n <- lift (item a "name") ;;
       if py_eq account_name n then
         self_set "account" a ;;; ret (Some tt)
       else ret None) l ;;
     ret tt
   else ret tt) ;;;
  self_get "account".

Definition present_account (check_mode : bool) : M value :=
  fail_on_missing_params
    ["email"; "username"; "password"; "first_name"; "last_name"] ;;;
  account <- Account_get_account ;;
  if truthy account then ret account else
  set_changed ;;;
  domainid <- get_domain (VStr "id") ;;
  accounttype <- get_account_type ;;
  let args :=
    [("account", param "name"); ("domainid", domainid);
     ("accounttype", accounttype);
     ("networkdomain", param "network_domain");
     ("username", param "username"); ("password", param "password");
     ("firstname", param "first_name"); ("lastname", param "last_name");
     ("email", param "email"); ("timezone", param "timezone")] in
  if check_mode then ret account else
  res <- cs "createAccount" args ;;
  fail_on_errortext res ;;;
  lift (item res "account").

Definition enable_account (check_mode : bool) : M value :=
  account <- Account_get_account ;;
  account <- (if truthy account then ret account
              else present_account check_mode) ;;
  st <- lift (obind (item account "state") lower_of) ;;
  if String.eqb st "enabled" then ret account else
  set_changed ;;;
  id <- lift (item account "id") ;;
  domainid <- get_domain (VStr "id") ;;
  let args :=
    [("id", id); ("account", param "name"); ("domainid", domainid)] in
  if check_mode then ret account else
  res <- cs "enableAccount" args ;;
  fail_on_errortext res ;;;
  lift (item res "account").

Definition lock_or_disable_account (check_mode lock : bool) : M value :=
  account <- Account_get_account ;;
  account <- (if truthy account then ret account
              else present_account check_mode) ;;
  (* we need to enable the account to lock it. *)
  account <-
    (if lock then
       st <- lift (obind (item account "state") lower_of) ;;
       if String.eqb st "disabled" then enable_account check_mode
       else ret account
     else ret account) ;;
  st <- lift (obind (item account "state") lower_of) ;;
  if String.eqb st (if lock then "locked" else "disabled") then ret account
  else
  set_changed ;;;
  id <- lift (item account "id") ;;
  domainid <- get_domain (VStr "id") ;;
  let args :=
    [("id", id); ("account", param "name"); ("domainid", domainid);
     ("lock", VBool lock)] in
  if check_mode then ret account else
  account <- cs "disableAccount" args ;;
  fail_on_errortext account ;;;
  if truthy (param "poll_async") then poll_job account (VStr "account")
  else ret account.

Definition lock_account (check_mode : bool) : M value :=
  lock_or_disable_account check_mode true.

Definition disable_account (check_mode : bool) : M value :=
  lock_or_disable_account check_mode false.

Definition absent_account (check_mode : bool) : M value :=
  account <- Account_get_account ;;
  if negb (truthy account) then ret account else
  set_changed ;;;
  if check_mode then ret account else
  id <- lift (item account "id") ;;
  res <- cs "deleteAccount" [("id", id)] ;;
  fail_on_errortext res ;;;
  (if truthy (param "poll_async") then
     poll_job res (VStr "account") ;;; ret tt
   else ret tt) ;;;
  ret account.

(** The dispatch on [state] in [main] of [cs_account.py]. *)
Definition Account_main (check_mode : bool) : M value :=
  let state := param "state" in
  if py_eq state (VStr "absent") then absent_account check_mode
  else if existsb (py_eq state) [VStr "enabled"; VStr "unlocked"]
  then enable_account check_mode
  else if py_eq state (VStr "disabled") then disable_account check_mode
  else if py_eq state (VStr "locked") then lock_account check_mode
  else present_account check_mode.

(** ** [AnsibleCloudStackCluster] ([cs_cluster.py]) *)

Definition _get_common_cluster_args : dict :=
  let args :=
    [("clustername", param "name"); ("hypervisor", param "hypervisor");
     ("clustertype", param "cluster_type")] in
  match param "state" with
  | VStr state =>
      if existsb (String.eqb state) ["enabled"; "disabled"]
      then dict_set "allocationstate" (VStr (capitalize_string state)) args
      else args
  | _ => args
  end.

Definition get_pod (key : value) : M value :=
  zoneid <- get_zone (VStr "id") ;;
  pods <- cs "listPods" [("name", param "pod"); ("zoneid", zoneid)] ;;
  if truthy pods then
    p <- lift (obind (item pods "pod") (fun l => py_getitem l (VInt 0))) ;;
    _get_by_key key p
  else
    zonename <- get_zone (VStr "name") ;;
    fail_json "Pod %s not found in zone %s." [param "pod"; zonename].

Definition get_cluster : M value :=
  cached <- self_get "cluster" ;;
  if truthy cached then ret cached else
  let uuid := param "id" in
  by_id <-
    (if truthy uuid then
       clusters <- cs "listClusters" [("id", uuid)] ;;
       if truthy clusters then
         c <- lift (obind (item clusters "cluster")
                      (fun l => py_getitem l (VInt 0))) ;;
         self_set "cluster" c ;;;
         ret (Some c)
       else ret None
     else ret None) ;;
  match by_id with
  | Some c => ret c
  | None =>
      let args := ((if truthy uuid then [("id", uuid)] else [])
                     ++ [("name", param "name")])%list in
      clusters <- cs "listClusters" args ;;
      (if truthy clusters then
         c <- lift (obind (item clusters "cluster")
                      (fun l => py_getitem l (VInt 0))) ;;
         self_set "cluster" c ;;;
         (* fix differnt return from API then request argument given *)
         h <- lift (item c "hypervisortype") ;;
         c <- lift (py_setitem c "hypervisor" h) ;;
         self_set "cluster" c ;;;
         n <- lift (item c "name") ;;
         c <- lift (py_setitem c "clustername" n) ;;
         self_set "cluster" c
       else ret tt) ;;;
      self_get "cluster"
  end.

Definition _create_cluster (check_mode : bool) : M value :=
  fail_on_missing_params ["cluster_type"; "hypervisor"] ;;;
  let args := _get_common_cluster_args in
  zoneid <- get_zone (VStr "id") ;;
  let args := dict_set "zoneid" zoneid args in
  podid <- get_pod (VStr "id") ;;
  let args := dict_set "podid" podid args in
  let args := dict_set "url" (param "url") args in
  let args := dict_set "username" (param "username") args in
  let args := dict_set "password" (param "password") args in
  let args := dict_set "guestvswitchname" (param "guest_vswitch_name") args in
  let args := dict_set "guestvswitchtype" (param "guest_vswitch_type") args in
  let args := dict_set "publicvswitchtype" (param "public_vswitch_name") args in
  let args := dict_set "publicvswitchtype" (param "public_vswitch_type") args in
  let args := dict_set "vsmipaddress" (param "vms_ip_address") args in
  let args := dict_set "vsmusername" (param "vms_username") args in
  let args := dict_set "vmspassword" (param "vms_password") args in
  let args := dict_set "ovm3cluster" (param "ovm3_cluster") args in
  let args := dict_set "ovm3pool" (param "ovm3_pool") args in
  let args := dict_set "ovm3vip" (param "ovm3_vip") args in
  set_changed ;;;
  if check_mode then ret VNone else
  res <- cs "addCluster" args ;;
  fail_on_errortext res ;;;
  c <- lift (item res "cluster") ;;
  (* API returns a list as result CLOUDSTACK-9205 *)
  match c with
  | VList _ => lift (py_getitem c (VInt 0))
  | _ => ret c
  end.

(** [self.has_changed(args, cluster)] on the dictionary that [self.cluster]
    also names: what the diffing writes into it is seen through
    [self.cluster], whether the diffing ends normally or not. *)
Definition has_changed_cluster (want : dict) (cluster : value) : M bool :=
  fun st =>
    match cluster with
    | VDict d =>
        let (r, s) :=
          has_changed want d VNone (diff_before st) (diff_after st) in
        (r, {| attrs := <["cluster" := VDict (hc_current s)]> (attrs st);
               changed := changed st;
               diff_before := hc_before s; diff_after := hc_after s;
               trace := trace st |})
    | _ => (Raised TypeError, st)
    end.

Definition _update_cluster (check_mode : bool) : M value :=
  cluster <- get_cluster ;;
  let args := _get_common_cluster_args in
  id <- lift (item cluster "id") ;;
  let args := dict_set "id" id args in
  differs <- has_changed_cluster args cluster ;;
  cluster <- self_get "cluster" ;;
  if differs : bool then
    set_changed ;;;
    if check_mode then ret cluster else
    res <- cs "updateCluster" args ;;
    fail_on_errortext res ;;;
    lift (item res "cluster")
  else ret cluster.

Definition present_cluster (check_mode : bool) : M value :=
  cluster <- get_cluster ;;
  if truthy cluster then _update_cluster check_mode
  else _create_cluster check_mode.

Definition absent_cluster (check_mode : bool) : M value :=
  cluster <- get_cluster ;;
  if negb (truthy cluster) then ret cluster else
  set_changed ;;;
  id <- lift (item cluster "id") ;;
  if check_mode then ret cluster else
  res <- cs "deleteCluster" [("id", id)] ;;
  fail_on_errortext res ;;;
  ret cluster.

(** The dispatch on [state] in [main] of [cs_cluster.py]. *)
Definition Cluster_main (check_mode : bool) : M value :=
  if py_eq (param "state") (VStr "absent") then absent_cluster check_mode
  else present_cluster check_mode.

(** ** [AnsibleCloudStackNic] ([cs_nic.py]) *)

(** What the constructor of the NIC module adds to the fresh object. *)
Definition Nic_init : M unit :=
  self_set "vm_guest_ip" (param "vm_guest_ip").

Definition get_nic : M value :=
  cached <- self_get "nic" ;;
  if truthy cached then ret cached else
  vmid <- nic_get_vm (VStr "id") ;;
  networkid <- nic_get_network (VStr "id") ;;
  nics <- cs "listNics"
    [("virtualmachineid", vmid); ("networkdid", networkid)] ;;
  if truthy nics then
    n <- lift (obind (item nics "nic") (fun l => py_getitem l (VInt 0))) ;;
    self_set "nic" n ;;;
    ret n
  else
    (* the message string is applied to the pair of names *)
    vmname <- nic_get_vm (VStr "name") ;;
    networkname <- nic_get_network (VStr "name") ;;
    lift (Raised TypeError).

Definition get_secondary_ip : M value :=
  nic <- get_nic ;;
  vm_guest_ip <- self_get "vm_guest_ip" ;;
  if truthy vm_guest_ip then
    ips <- lift (py_get nic "secondaryip" VNone) ;;
    let ips := if truthy ips then ips else VList [] in
    l <- lift (py_iter ips) ;;
    found <- for_first (fun secondary_ip =>
      a <- lift (item secondary_ip "ipaddress") ;;
      if py_eq a vm_guest_ip then ret (Some secondary_ip) else ret None) l ;;
    match found with
    | Some ip => ret ip
    | None => ret VNone
    end
  else ret VNone.

Definition present_nic (check_mode : bool) : M value :=
  nic <- get_nic ;;
  secondary_ip <- get_secondary_ip ;;
  if truthy secondary_ip then ret nic else
  set_changed ;;;
  id <- lift (item nic "id") ;;
  vm_guest_ip <- self_get "vm_guest_ip" ;;
  let args := [("nicid", id); ("ipaddress", vm_guest_ip)] in
  if check_mode then ret nic else
  res <- cs "addIpToNic" args ;;
  fail_on_errortext res ;;;
  if truthy (param "poll_async") then
    nic <- poll_job res (VStr "nicsecondaryip") ;;
    (* Save result for RETURNS *)
    a <- lift (item nic "ipaddress") ;;
    self_set "vm_guest_ip" a ;;;
    ret nic
  else ret nic.

Definition absent_nic (check_mode : bool) : M value :=
  nic <- get_nic ;;
  secondary_ip <- get_secondary_ip ;;
  if negb (truthy secondary_ip) then ret nic else
  set_changed ;;;
  if check_mode then ret nic else
  id <- lift (item secondary_ip "id") ;;
  res <- cs "removeIpFromNic" [("id", id)] ;;
  err <- lift (py_in (VStr "errortext") res) ;;
  (if err : bool then
     e <- lift (item nic "errortext") ;;
     fail_json "Failed: '%s'" [e]
   else ret tt) ;;;
  (if truthy (param "poll_async") then
     poll_job res (VStr "nicsecondaryip") ;;; ret tt
   else ret tt) ;;;
  ret nic.

(** The dispatch on [state] in [main] of [cs_nic.py]. *)
Definition Nic_main (check_mode : bool) : M value :=
  Nic_init ;;;
  if py_eq (param "state") (VStr "absent") then absent_nic check_mode
  else present_nic check_mode.

(** ** The default NIC of a VM and its addresses ([cs_account.py]) *)

Definition get_vm_default_nic : M value :=
  cached <- self_get "vm_default_nic" ;;
  if truthy cached then ret cached else
  vmid <- get_vm (VStr "id") ;;
  nics <- cs "listNics" [("virtualmachineid", vmid)] ;;
  found <-
    (if truthy nics then
       ns <- lift (obind (item nics "nic") py_iter) ;;
       for_first (fun n =>
         d <- lift (item n "isdefault") ;;
         if truthy d then
           self_set "vm_default_nic" n ;;;
           ret (Some n)
         else ret None) ns
     else ret None) ;;
  match found with
  | Some n => ret n
  | None =>
      fail_json "No default IP address of VM '%s' found" [param "vm"]
  end.

Definition get_vm_guest_ip : M value :=
  let vm_guest_ip := param "vm_guest_ip" in
  default_nic <- get_vm_default_nic ;;
  if negb (truthy vm_guest_ip) then lift (item default_nic "ipaddress") else
  ips <- lift (obind (item default_nic "secondaryip") py_iter) ;;
  found <- for_first (fun secondary_ip =>
    a <- lift (item secondary_ip "ipaddress") ;;
    if py_eq vm_guest_ip a then ret (Some vm_guest_ip) else ret None) ips ;;
  match found with
  | Some ip => ret ip
  | None => fail_json "Secondary IP '%s' not assigned to VM" [vm_guest_ip]
  end.

(** ** What a module returns: [get_result] *)

(** [self.result] as the state has it. *)
Definition self_result (st : state) : dict :=
  [("changed", VBool (changed st));
   ("diff", VDict [("before", VDict (diff_before st));
                   ("after", VDict (diff_after st))])].

(** The tables [common_returns], [returns] and [returns_to_int]: the key
    to look for in the resource, and the key it is returned under.  Their
    entries are visited in the order of the list; the dictionaries of the
    source yield them in an order of their own, which does not show in the
    entries of the result as long as the return keys of a table are all
    different, as they are in the tables below. *)
Definition returns_table : Type := list (string * string).

Definition common_returns : returns_table :=
  [("id", "id"); ("name", "name"); ("created", "created");
   ("zonename", "zone"); ("state", "state"); ("project", "project");
   ("account", "account"); ("domain", "domain");
   ("displaytext", "display_text"); ("displayname", "display_name");
   ("description", "description")].

Fixpoint returns_set (k r : string) (t : returns_table) : returns_table :=
  match t with
  | [] => [(k, r)]
  | (k', r') :: t' =>
      if String.eqb k k' then (k, r) :: t' else (k', r') :: returns_set k r t'
  end.

(** [t.update(extra)]. *)
Definition returns_update (t extra : returns_table) : returns_table :=
  fold_left (fun t kr => returns_set (fst kr) (snd kr) t) extra t.

(** The loop over a table: a field the resource has is written to the
    result, after the conversion [conv]. *)
Fixpoint copy_fields (conv : value -> outcome value) (t : returns_table)
    (resource : value) (result : dict) : outcome dict :=
  match t with
  | [] => Ok result
  | (search_key, return_key) :: t' =>
      obind (py_in (VStr search_key) resource) (fun present =>
      if present : bool then
        obind (obind (item resource search_key) conv) (fun v =>
        copy_fields conv t' resource (dict_set return_key v result))
      else copy_fields conv t' resource result)
  end.

(** [get_result] of the base class, for the tables [returns] and
    [returns_to_int] of the module, as a function of [self.result]. *)
Definition get_result (returns returns_to_int : returns_table)
    (resource : value) (result : dict) : outcome dict :=
  if truthy resource then
    obind (copy_fields Ok (returns_update common_returns returns)
             resource result) (fun result =>
    (* Bad bad API does not always return int when it should. *)
    obind (copy_fields py_int returns_to_int resource result) (fun result =>
    (* Special handling for tags *)
    obind (py_in (VStr "tags") resource) (fun has_tags =>
    if has_tags : bool then
      obind (obind (item resource "tags") py_iter) (fun ts =>
      obind (tag_pairs ts) (fun l =>
      Ok (dict_set "tags" (VList l) result)))
    else Ok result)))
  else Ok result.

(** The first entry of [account_types] with the value [t]. *)
Fixpoint account_type_name (items : dict) (t : value) : option string :=
  match items with
  | [] => None
  | (key, value) :: items' =>
      if py_eq value t then Some key else account_type_name items' t
  end.

Definition Account_returns : returns_table :=
  [("networkdomain", "network_domain")].

(** [get_result] of the account module. *)
Definition Account_get_result (account : value) (result : dict)
  : outcome dict :=
  obind (get_result Account_returns [] account result) (fun result =>
  if truthy account then
    obind (py_in (VStr "accounttype") account) (fun has_type =>
    if has_type : bool then
      obind (item account "accounttype") (fun t =>
      match account_types with
      | VDict items =>
          match account_type_name items t with
          | Some key => Ok (dict_set "account_type" (VStr key) result)
          | None => Ok result
          end
      | _ => Raised AttributeError
      end)
    else Ok result)
  else Ok result).

(** ** [AnsibleCloudStackInstanceFacts] ([cs_facts.py]) *)

Definition Facts_returns : returns_table :=
  [("group", "group"); ("hypervisor", "hypervisor");
   ("instancename", "instance_name"); ("publicip", "public_ip");
   ("passwordenabled", "password_enabled"); ("password", "password");
   ("serviceofferingname", "service_offering"); ("isoname", "iso");
   ("templatename", "template"); ("keypair", "ssh_key")].

Definition get_instance : M value :=
  instance <- self_get "instance" ;;
  (if negb (truthy instance) then
     let instance_name := param "name" in
     account <- get_account (VStr "name") ;;
     domainid <- get_domain (VStr "id") ;;
     projectid <- get_project (VStr "id") ;;
     (* Do not pass zoneid, as the instance name must be unique across
        zones. *)
     instances <- cs "listVirtualMachines"
       [("account", account); ("domainid", domainid);
        ("projectid", projectid)] ;;
     if truthy instances then
       vs <- lift (obind (item instances "virtualmachine") py_iter) ;;
       found <- for_first (fun v =>
         nl <- lift (lower_of instance_name) ;;
         n <- lift (obind (item v "name") lower_of) ;;
         dn <- lift (obind (item v "displayname") lower_of) ;;
         i <- lift (item v "id") ;;
         if existsb (py_eq (VStr nl)) [VStr n; VStr dn; i] then
           self_set "instance" v ;;; ret (Some tt)
         else ret None) vs ;;
       ret tt
     else ret tt
   else ret tt) ;;;
  self_get "instance".

(** [[x[k] for x in l]]. *)
Fixpoint items_of (k : string) (l : list value) : outcome (list value) :=
  match l with
  | [] => Ok []
  | x :: l' =>
      obind (item x k) (fun v =>
      obind (items_of k l') (fun r => Ok (v :: r)))
  end.

(** The loop over the NICs of an instance: every default NIC with an
    address overwrites [default_ip]. *)
Fixpoint default_ip_loop (nics : list value) (result : dict) : outcome dict :=
  match nics with
  | [] => Ok result
  | nic :: nics' =>
      obind (item nic "isdefault") (fun d =>
      obind (if truthy d then py_in (VStr "ipaddress") nic else Ok false)
        (fun b =>
      if b : bool then
        obind (item nic "ipaddress") (fun a =>
        default_ip_loop nics' (dict_set "default_ip" a result))
      else default_ip_loop nics' result))
  end.

(** The field [field] of every group under [key], written to the result
    under [return_key] when the instance has [key]. *)
Definition copy_groups (key field return_key : string) (instance : value)
    (result : dict) : outcome dict :=
  obind (py_in (VStr key) instance) (fun b =>
  if b : bool then
    obind (obind (item instance key) py_iter) (fun gs =>
    obind (items_of field gs) (fun l =>
    Ok (dict_set return_key (VList l) result)))
  else Ok result).

(** [get_result] of the facts module. *)
Definition Facts_get_result (instance : value) (result : dict)
  : outcome dict :=
  obind (get_result Facts_returns [] instance result) (fun result =>
  if truthy instance then
    obind (copy_groups "securitygroup" "name" "security_groups"
             instance result) (fun result =>
    obind (copy_groups "affinitygroup" "name" "affinity_groups"
             instance result) (fun result =>
    obind (copy_groups "affinitygroup" "id" "affinity_groups_ids"
             instance result) (fun result =>
    obind (py_in (VStr "nic") instance) (fun b =>
    if b : bool then
      obind (obind (item instance "nic") py_iter) (fun nics =>
      default_ip_loop nics result)
    else Ok result))))
  else Ok result).

(** [run] of the facts module; what it returns is [self.facts]. *)
Definition Facts_run : M value :=
  instance <- get_instance ;;
  (if negb (truthy instance) then
     fail_json "Instance not found: %s" [param "name"]
   else ret tt) ;;;
  result <- (fun st => (Facts_get_result instance (self_result st), st)) ;;
  ret (VDict [("cloudstack_instance", VDict result)]).

(** * Properties *)

(** ** Running the monad *)

Lemma bind_ok {A B} (m : M A) (f : A -> M B) st a st' :
  m st = (Ok a, st') -> bind m f st = f a st'.
Proof. intros H. unfold bind. now rewrite H. Qed.

Lemma bind_lift_ok {A B} (o : outcome A) (f : A -> M B) st a :
  o = Ok a -> bind (lift o) f st = f a st.
Proof. intros ->. reflexivity. Qed.

(** One step of a run whose outcome is known. *)
Ltac mred :=
  cbn [bind lift ret fail_json negb self_get self_set set_changed].

Ltac mred_in H :=
  cbn [bind lift ret fail_json negb self_get self_set set_changed] in H.

Ltac step H :=
  first [ rewrite (bind_lift_ok _ _ _ _ H)
        | rewrite (bind_ok _ _ _ _ _ H)
        | rewrite H ]; cbv beta; mred.

(** Case analysis on the first undetermined step of a run in [H]. *)
Ltac break_in H :=
  match type of H with
  | context [match ?x with _ => _ end] =>
      lazymatch x with
      | context [match _ with _ => _ end] => fail
      | _ => destruct x eqn:?
      end
  end.

Ltac run_in H :=
  unfold bind, lift, ret, fail_json, self_get, self_set, set_changed in H;
  cbv beta iota in H.

Ltac invert_run H :=
  run_in H;
  repeat (break_in H; cbn [fst snd negb orb andb] in H; try discriminate H).

Lemma cs_reply api args st v :
  remote (trace st) (api, args) = Reply v ->
  cs api args st = (Ok v, log_call (api, args) st).
Proof. intros H. unfold cs. now rewrite H. Qed.

(** ** Job polling *)

(** The status query [poll_job] repeats for the job [jobid]. *)
Definition status_query (jobid : value) : call :=
  ("queryAsyncJobResult", [("jobid", jobid)]).

(** A status response on which the loop goes round again. *)
Definition job_pending (res : value) : bool :=
  match item res "jobstatus" with
  | Ok status =>
      if py_ne status (VInt 0) then
        match py_in (VStr "jobresult") res with
        | Ok false => true
        | _ => false
        end
      else true
  | _ => false
  end.

(** The [jobresult] of a status response that ends the loop without an
    error text. *)
Definition job_success (res : value) : option dict :=
  match item res "jobstatus", item res "jobresult" with
  | Ok status, Ok (VDict d) =>
      if py_ne status (VInt 0) && negb (has_key "errortext" d)
      then Some d else None
  | _, _ => None
  end.

(** The state after [n] more status queries. *)
Definition after_queries (q : call) (n : nat) (st : state) : state :=
  {| attrs := attrs st; changed := changed st;
     diff_before := diff_before st; diff_after := diff_after st;
     trace := trace st ++ repeat q n |}.

(** What [poll_job] returns on success, by its [key] argument. *)
Definition extracted (job : value) (key : option string) (payload : dict)
  : value :=
  match key with
  | Some k =>
      if String.eqb k "" then job
      else match dict_get k payload with Some v => v | None => job end
  | None => job
  end.

Definition key_arg (key : option string) : value :=
  match key with Some k => VStr k | None => VNone end.

Lemma after_queries_0 q st : after_queries q 0 st = st.
Proof.
  destruct st; unfold after_queries; simpl. now rewrite app_nil_r.
Qed.

Lemma after_queries_S q n st :
  after_queries q (S n) st = after_queries q n (log_call q st).
Proof.
  unfold after_queries, log_call; simpl. f_equal.
  now rewrite <- app_assoc.
Qed.

Lemma poll_loop_pending n job key jobid res st :
  item job "jobid" = Ok jobid ->
  remote (trace st) (status_query jobid) = Reply res ->
  job_pending res = true ->
  poll_loop (S n) job key st
  = poll_loop n job key (log_call (status_query jobid) st).
Proof.
  intros Hid Hr Hp. cbn [poll_loop].
  step Hid. step (cs_reply _ _ _ _ Hr).
  unfold job_pending in Hp.
  destruct (item res "jobstatus") as [status| | |] eqn:Hs; try discriminate.
  mred.
  destruct (py_ne status (VInt 0)); mred; [|reflexivity].
  destruct (py_in (VStr "jobresult") res) as [[|]| | |] eqn:Hj;
    try discriminate.
  reflexivity.
Qed.

Lemma poll_loop_success n job key jobid res payload st :
  item job "jobid" = Ok jobid ->
  remote (trace st) (status_query jobid) = Reply res ->
  job_success res = Some payload ->
  poll_loop (S n) job (key_arg key) st
  = (Ok (extracted job key payload), log_call (status_query jobid) st).
Proof.
  intros Hid Hr Hp. cbn [poll_loop].
  step Hid. step (cs_reply _ _ _ _ Hr).
  unfold job_success in Hp.
  destruct (item res "jobstatus") as [status| | |] eqn:Hs; try discriminate.
  destruct (item res "jobresult") as [[| | | | | | | |d]| | |] eqn:Hj;
    try discriminate.
  destruct (py_ne status (VInt 0)) eqn:Hne; try discriminate.
  destruct (has_key "errortext" d) eqn:He; try discriminate.
  injection Hp as ->. mred.
  assert (Hin : py_in (VStr "jobresult") res = Ok true).
  { unfold item, py_getitem in Hj. destruct res; try discriminate.
    - simpl. unfold has_key.
      destruct (dict_get "jobresult" d); [reflexivity|discriminate]. }
  step Hin.
  assert (Herr : py_in (VStr "errortext") (VDict payload) = Ok false).
  { simpl. now rewrite He. }
  step Herr.
  destruct key as [k|]; simpl; [|reflexivity].
  destruct (String.eqb k ""); simpl; [reflexivity|].
  unfold has_key. destruct (dict_get k payload); reflexivity.
Qed.

(** C5, as the code has it: when the job of a response with a [jobid]
    stays pending for [n] status queries and the next query reports success
    with a dictionary as payload, [poll_job] makes these [n + 1] queries
    and returns the payload's entry for [key] when a non-empty [key] is
    given and the payload has it, and otherwise the response it was given,
    not the job result. *)
Theorem poll_job_success (job : value) (key : option string) (jobid : value)
    (n : nat) (res : value) (payload : dict) (st : state) :
  py_in (VStr "jobid") job = Ok true ->
  item job "jobid" = Ok jobid ->
  (forall i, (i < n)%nat ->
     exists r, remote (trace st ++ repeat (status_query jobid) i)
                 (status_query jobid) = Reply r
               /\ job_pending r = true) ->
  remote (trace st ++ repeat (status_query jobid) n) (status_query jobid)
    = Reply res ->
  job_success res = Some payload ->
  (n < fuel)%nat ->
  poll_job job (key_arg key) st
  = (Ok (extracted job key payload),
     after_queries (status_query jobid) (S n) st).
Proof.
  intros Hin Hid Hpend Hres Hsucc Hfuel.
  unfold poll_job. rewrite (bind_lift_ok _ _ _ _ Hin).
  destruct fuel as [|f]; [lia|].
  assert (Hn : (n <= f)%nat) by lia. clear Hfuel.
  revert st f Hn Hpend Hres.
  induction n as [|n IH]; intros st f Hn Hpend Hres.
  - simpl in Hres. rewrite app_nil_r in Hres.
    rewrite (poll_loop_success f job key jobid res payload st Hid Hres Hsucc).
    now rewrite after_queries_S, after_queries_0.
  - destruct f as [|f]; [lia|].
    destruct (Hpend 0%nat) as (r & Hr & Hp); [lia|].
    simpl in Hr. rewrite app_nil_r in Hr.
    rewrite (poll_loop_pending (S f) job (key_arg key) jobid r st Hid Hr Hp).
    rewrite after_queries_S.
    apply IH; [lia| |].
    + intros i Hi. destruct (Hpend (S i)) as (r' & Hr' & Hp'); [lia|].
      exists r'. split; [|exact Hp'].
      simpl in *. now rewrite <- app_assoc.
    + simpl in *. now rewrite <- app_assoc.
Qed.

(** C6: a response without a [jobid] comes back unchanged, and no status
    query is made: the state, and with it the trace of calls, is the one
    before. *)
Theorem poll_job_without_jobid (job key : value) (st : state) :
  py_in (VStr "jobid") job = Ok false ->
  poll_job job key st = (Ok job, st).
Proof.
  intros H. unfold poll_job. now rewrite (bind_lift_ok _ _ _ _ H).
Qed.

(** ** Scope resolution *)

(** The cached path of the resolvers: with the resource of its kind
    resolved, each of them reads the requested key from that resource,
    without a call; [get_os_type] reads it from the zone. *)
Lemma cached_resolvers (key : value) (st : state) :
  (truthy (attr "domain" st) = true ->
   get_domain key st = _get_by_key key (attr "domain" st) st)
  /\ (truthy (attr "account" st) = true ->
      get_account key st = _get_by_key key (attr "account" st) st)
  /\ (truthy (attr "project" st) = true ->
      get_project key st = _get_by_key key (attr "project" st) st)
  /\ (truthy (attr "zone" st) = true ->
      get_zone key st = _get_by_key key (attr "zone" st) st)
  /\ (truthy (attr "vpc" st) = true ->
      get_vpc key st = _get_by_key key (attr "vpc" st) st)
  /\ (truthy (attr "network" st) = true ->
      get_network key st = _get_by_key key (attr "network" st) st)
  /\ (truthy (attr "vm" st) = true ->
      get_vm key st = _get_by_key key (attr "vm" st) st)
  /\ (truthy (attr "hypervisor" st) = true ->
      get_hypervisor st = (Ok (attr "hypervisor" st), st))
  /\ (truthy (attr "os_type" st) = true ->
      get_os_type key st = _get_by_key key (attr "zone" st) st).
Proof.
  repeat split; intros H;
    [unfold get_domain|unfold get_account|unfold get_project|unfold get_zone
    |unfold get_vpc|unfold get_network|unfold get_vm|unfold get_hypervisor
    |unfold get_os_type];
    mred; rewrite H; reflexivity.
Qed.

(** C3: with no account resolved yet, an [account] parameter and no
    [domain] parameter, [get_account] ends the run with the message
    "Account must be specified with Domain" in the state it started from:
    no [listAccounts] call, and no other call, was made. *)
Theorem get_account_requires_domain (key : value) (st : state) :
  truthy (attr "account" st) = false ->
  truthy (param "account") = true ->
  truthy (param "domain") = false ->
  get_account key st
  = (Failed "Account must be specified with Domain" [], st).
Proof.
  intros Hcache Hacc Hdom. unfold get_account.
  unfold bind at 1, self_get. fold (attr "account" st). cbv zeta.
  rewrite Hcache, Hacc. cbv iota. rewrite Hacc, Hdom. reflexivity.
Qed.

(** ** Diffing *)

Lemma dict_get_set_eq k v d : dict_get k (dict_set k v d) = Some v.
Proof.
  induction d as [|[k' v'] d IH]; simpl.
  - now rewrite String.eqb_refl.
  - destruct (String.eqb k k') eqn:E; simpl.
    + now rewrite String.eqb_refl.
    + now rewrite E.
Qed.

Lemma dict_get_set_ne k k' v d :
  k <> k' -> dict_get k' (dict_set k v d) = dict_get k' d.
Proof.
  intros Hne. induction d as [|[k0 v0] d IH]; simpl.
  - destruct (String.eqb k' k) eqn:E; [|reflexivity].
    apply String.eqb_eq in E. congruence.
  - destruct (String.eqb k k0) eqn:E; simpl.
    + apply String.eqb_eq in E. subst k0.
      destruct (String.eqb k' k) eqn:E'; [|reflexivity].
      apply String.eqb_eq in E'. congruence.
    + now rewrite IH.
Qed.

(** Whether the [only_keys] test lets the field [key] through. *)
Definition selected (only_keys : value) (key : string) : bool :=
  match (if truthy only_keys then py_in (VStr key) only_keys else Ok true) with
  | Ok true => true
  | _ => false
  end.

(** What a turn of the loop leaves alone: the entries of the three
    dictionaries under every other key, and a [result] that is already
    true. *)
Definition hc_frame (key : string) (s s' : hc_state) : Prop :=
  dict_get key (hc_current s') = dict_get key (hc_current s)
  /\ dict_get key (hc_before s') = dict_get key (hc_before s)
  /\ dict_get key (hc_after s') = dict_get key (hc_after s)
  /\ (hc_result s = true -> hc_result s' = true).

Lemma hc_frame_refl key s : hc_frame key s s.
Proof. unfold hc_frame; auto. Qed.

Lemma hc_frame_trans key s1 s2 s3 :
  hc_frame key s1 s2 -> hc_frame key s2 s3 -> hc_frame key s1 s3.
Proof.
  unfold hc_frame. intros (A & B & C & D) (A' & B' & C' & D').
  repeat split; try congruence. auto.
Qed.

Lemma record_diff_frame key k b a s :
  k <> key -> hc_frame key s (record_diff k b a s).
Proof.
  intros Hne. unfold hc_frame, record_diff; simpl.
  rewrite !dict_get_set_ne by assumption. auto.
Qed.

Lemma store_current_frame key k v s :
  k <> key -> hc_frame key s (store_current k v s).
Proof.
  intros Hne. unfold hc_frame, store_current; simpl.
  rewrite dict_get_set_ne by assumption. auto.
Qed.

Lemma compare_item_frame key k v s r s' :
  k <> key -> compare_item k v s = (r, s') -> hc_frame key s s'.
Proof.
  intros Hne. unfold compare_item.
  destruct (dict_get k (hc_current s)) as [current|].
  - destruct (numeric_kind v) as [nk|].
    + destruct (coerce nk current) as [c| | |]; intros [= <- <-];
        try apply hc_frame_refl.
      destruct (py_ne v c).
      * eapply hc_frame_trans; [apply store_current_frame|
                                apply record_diff_frame]; assumption.
      * now apply store_current_frame.
    + destruct (existsb (String.eqb k) case_sensitive_keys).
      * destruct (py_encode current) as [e| | |]; intros [= <- <-];
          try apply hc_frame_refl.
        destruct (py_ne v e);
          [now apply record_diff_frame|apply hc_frame_refl].
      * destruct (obind _ _) as [[[|] e]| | |]; intros [= <- <-];
          try apply hc_frame_refl.
        now apply record_diff_frame.
  - intros [= <- <-]. now apply record_diff_frame.
Qed.

Lemma has_changed_item_frame only key k v s r s' :
  k <> key -> has_changed_item only k v s = (r, s') -> hc_frame key s s'.
Proof.
  intros Hne. unfold has_changed_item.
  destruct (if truthy only then _ else _) as [[|]| | |];
    try (intros [= <- <-]; apply hc_frame_refl).
  destruct v; try (intros [= <- <-]; apply hc_frame_refl);
    now apply compare_item_frame.
Qed.

Lemma has_changed_loop_frame only key want :
  forall s r s',
  ~ In key (map fst want) ->
  has_changed_loop only want s = (r, s') -> hc_frame key s s'.
Proof.
  induction want as [|[k v] want IH]; intros s r s' Hnot; simpl.
  - intros [= <- <-]. apply hc_frame_refl.
  - simpl in Hnot.
    destruct (has_changed_item only k v s) as [o s1] eqn:Hitem.
    assert (Hf : hc_frame key s s1).
    { eapply has_changed_item_frame; [|exact Hitem]. tauto. }
    destruct o; try (intros [= <- <-]; exact Hf).
    intros Hloop. eapply hc_frame_trans; [exact Hf|].
    eapply IH; [tauto|exact Hloop].
Qed.

(** The turn for a selected field that the current resource lacks. *)
Lemma has_changed_item_absent only key value s :
  selected only key = true -> value <> VNone ->
  dict_get key (hc_current s) = None ->
  has_changed_item only key value s = (Ok tt, record_diff key VNone value s).
Proof.
  intros Hsel Hv Hcur. unfold has_changed_item, selected in *.
  destruct (if truthy only then _ else _) as [[|]| | |]; try discriminate.
  unfold compare_item. rewrite Hcur. destruct value; congruence.
Qed.

(** The turn for a selected numeric field that the current resource has. *)
Lemma has_changed_item_numeric only key value nk current s r s' :
  selected only key = true -> numeric_kind value = Some nk ->
  dict_get key (hc_current s) = Some current ->
  has_changed_item only key value s = (Ok r, s') ->
  exists c, coerce nk current = Ok c
            /\ dict_get key (hc_current s') = Some c.
Proof.
  intros Hsel Hk Hcur. unfold has_changed_item, selected in *.
  destruct (if truthy only then _ else _) as [[|]| | |]; try discriminate.
  assert (Hcmp : compare_item key value s = (Ok r, s') ->
                 exists c, coerce nk current = Ok c
                           /\ dict_get key (hc_current s') = Some c).
  { unfold compare_item. rewrite Hcur, Hk.
    destruct (coerce nk current) as [c| | |]; try discriminate.
    intros [= <- <-]. exists c. split; [reflexivity|].
    destruct (py_ne value c); simpl; apply dict_get_set_eq. }
  destruct value; try discriminate; exact Hcmp.
Qed.

Lemma has_changed_loop_absent only key value want :
  forall s0 u s',
  NoDup (map fst want) ->
  In (key, value) want ->
  selected only key = true -> value <> VNone ->
  dict_get key (hc_current s0) = None ->
  has_changed_loop only want s0 = (Ok u, s') ->
  hc_result s' = true
  /\ dict_get key (hc_before s') = Some VNone
  /\ dict_get key (hc_after s') = Some value.
Proof.
  induction want as [|[k v] want IH]; intros s0 u s' Hnd Hin Hsel Hv Hcur Hloop;
    [destruct Hin|].
  simpl in Hloop, Hnd. apply NoDup_cons in Hnd as [Hnotin Hnd'].
  rewrite list_elem_of_In in Hnotin.
  destruct (has_changed_item only k v s0) as [o s1] eqn:Hitem.
  destruct o; try discriminate.
  destruct Hin as [[= -> ->]|Hin].
  - rewrite (has_changed_item_absent only key value s0 Hsel Hv Hcur) in Hitem.
    assert (Hs1 : s1 = record_diff key VNone value s0) by congruence.
    subst s1.
    destruct (has_changed_loop_frame only key want _ _ _ Hnotin Hloop)
      as (_ & Hb & Ha & Hr).
    rewrite Hb, Ha. simpl. rewrite !dict_get_set_eq. auto.
  - assert (Hne : k <> key).
    { intros ->. apply Hnotin. apply (in_map fst) in Hin. exact Hin. }
    destruct (has_changed_item_frame only key k v s0 _ _ Hne Hitem)
      as (Hc & _).
    apply (IH s1 u s' Hnd' Hin Hsel Hv); [now rewrite Hc|exact Hloop].
Qed.

Lemma has_changed_loop_numeric only key value nk current want :
  forall s0 u s',
  NoDup (map fst want) ->
  In (key, value) want ->
  selected only key = true -> numeric_kind value = Some nk ->
  dict_get key (hc_current s0) = Some current ->
  has_changed_loop only want s0 = (Ok u, s') ->
  exists c, coerce nk current = Ok c
            /\ dict_get key (hc_current s') = Some c.
Proof.
  induction want as [|[k v] want IH]; intros s0 u s' Hnd Hin Hsel Hk Hcur Hloop;
    [destruct Hin|].
  simpl in Hloop, Hnd. apply NoDup_cons in Hnd as [Hnotin Hnd'].
  rewrite list_elem_of_In in Hnotin.
  destruct (has_changed_item only k v s0) as [o s1] eqn:Hitem.
  destruct o; try discriminate.
  destruct Hin as [[= -> ->]|Hin].
  - destruct (has_changed_item_numeric only key value nk current s0 _ _
                Hsel Hk Hcur Hitem) as (c & Hc & Hget).
    exists c. split; [exact Hc|].
    destruct (has_changed_loop_frame only key want _ _ _ Hnotin Hloop)
      as (Hcur' & _).
    now rewrite Hcur'.
  - assert (Hne : k <> key).
    { intros ->. apply Hnotin. apply (in_map fst) in Hin. exact Hin. }
    destruct (has_changed_item_frame only key k v s0 _ _ Hne Hitem)
      as (Hc & _).
    apply (IH s1 u s' Hnd' Hin Hsel Hk); [now rewrite Hc|exact Hloop].
Qed.

(** C9, as the code has it: when [has_changed] returns, every wanted field
    that is not [None], is let through by [only_keys] and is missing from
    the current resource makes the result true and is recorded in the diff
    with [None] before and the wanted value after. *)
Theorem has_changed_absent_key (want_dict current_dict : dict)
    (only_keys : value) (before after : dict) (key : string) (value : value)
    (b : bool) (s : hc_state) :
  NoDup (map fst want_dict) ->
  In (key, value) want_dict ->
  value <> VNone ->
  dict_get key current_dict = None ->
  selected only_keys key = true ->
  has_changed want_dict current_dict only_keys before after = (Ok b, s) ->
  b = true
  /\ dict_get key (hc_before s) = Some VNone
  /\ dict_get key (hc_after s) = Some value.
Proof.
  intros Hnd Hin Hv Hcur Hsel. unfold has_changed.
  destruct (has_changed_loop only_keys want_dict _) as [o s'] eqn:Hloop.
  destruct o; try discriminate. intros [= <- <-].
  exact (has_changed_loop_absent only_keys key value want_dict
           (mkHc current_dict before after false) _ _
           Hnd Hin Hsel Hv Hcur Hloop).
Qed.

(** C10, as the code has it: when [has_changed] returns, every wanted
    field with a numeric value that is let through by [only_keys] and
    present in the current resource has its current value replaced, in
    the dictionary the caller passed, by the conversion of that value to
    the numeric type of the wanted one. *)
Theorem has_changed_coerces_current (want_dict current_dict : dict)
    (only_keys : value) (before after : dict) (key : string)
    (current : value) (nk : numkind) (value : value) (b : bool)
    (s : hc_state) :
  NoDup (map fst want_dict) ->
  In (key, value) want_dict ->
  numeric_kind value = Some nk ->
  dict_get key current_dict = Some current ->
  selected only_keys key = true ->
  has_changed want_dict current_dict only_keys before after = (Ok b, s) ->
  exists c, coerce nk current = Ok c
            /\ dict_get key (hc_current s) = Some c.
Proof.
  intros Hnd Hin Hk Hcur Hsel. unfold has_changed.
  destruct (has_changed_loop only_keys want_dict _) as [o s'] eqn:Hloop.
  destruct o; try discriminate. intros [= <- <-].
  exact (has_changed_loop_numeric only_keys key value nk current want_dict
           (mkHc current_dict before after false) _ _
           Hnd Hin Hsel Hk Hcur Hloop).
Qed.

(** ** First candidate *)

Lemma self_get_eq name st : self_get name st = (Ok (attr name st), st).
Proof. reflexivity. Qed.

Lemma first_of_list (d : dict) (k : string) (a : value) (rest : list value) :
  dict_get k d = Some (VList (a :: rest)) ->
  obind (item (VDict d) k) (fun l => py_getitem l (VInt 0)) = Ok a.
Proof. intros H. unfold item. simpl. now rewrite H. Qed.

Lemma dict_get_truthy (d : dict) (k : string) (v : value) :
  dict_get k d = Some v -> truthy (VDict d) = true.
Proof. destruct d; [discriminate|reflexivity]. Qed.

Lemma get_account_first key st domainid st1 d a rest :
  truthy (attr "account" st) = false ->
  truthy (param "account") = true ->
  truthy (param "domain") = true ->
  get_domain (VStr "id") st = (Ok domainid, st1) ->
  remote (trace st1)
    ("listAccounts",
     [("name", param "account"); ("domainid", domainid);
      ("listall", VBool true)]) = Reply (VDict d) ->
  dict_get "account" d = Some (VList (a :: rest)) ->
  get_account key st
  = _get_by_key key a
      (set_attr "account" a
         (log_call ("listAccounts",
                    [("name", param "account"); ("domainid", domainid);
                     ("listall", VBool true)]) st1)).
Proof.
  intros Hcache Hacc Hdom Hd Hr Hl. unfold get_account.
  step (self_get_eq "account" st). cbv zeta.
  rewrite Hcache, Hacc. cbv iota. rewrite Hacc, Hdom. mred.
  step Hd. step (cs_reply _ _ _ _ Hr).
  rewrite (dict_get_truthy _ _ _ Hl).
  step (first_of_list _ _ _ _ Hl).
  reflexivity.
Qed.

Lemma get_pod_first key st zoneid st1 d a rest :
  get_zone (VStr "id") st = (Ok zoneid, st1) ->
  remote (trace st1)
    ("listPods", [("name", param "pod"); ("zoneid", zoneid)])
    = Reply (VDict d) ->
  dict_get "pod" d = Some (VList (a :: rest)) ->
  get_pod key st
  = _get_by_key key a
      (log_call ("listPods", [("name", param "pod"); ("zoneid", zoneid)]) st1).
Proof.
  intros Hz Hr Hl. unfold get_pod.
  step Hz. step (cs_reply _ _ _ _ Hr).
  rewrite (dict_get_truthy _ _ _ Hl).
  step (first_of_list _ _ _ _ Hl).
  reflexivity.
Qed.

Lemma get_nic_first st vmid st1 networkid st2 d a rest :
  truthy (attr "nic" st) = false ->
  nic_get_vm (VStr "id") st = (Ok vmid, st1) ->
  nic_get_network (VStr "id") st1 = (Ok networkid, st2) ->
  remote (trace st2)
    ("listNics", [("virtualmachineid", vmid); ("networkdid", networkid)])
    = Reply (VDict d) ->
  dict_get "nic" d = Some (VList (a :: rest)) ->
  get_nic st
  = (Ok a,
     set_attr "nic" a
       (log_call ("listNics",
                  [("virtualmachineid", vmid); ("networkdid", networkid)])
          st2)).
Proof.
  intros Hcache Hvm Hnet Hr Hl. unfold get_nic.
  step (self_get_eq "nic" st). rewrite Hcache.
  step Hvm. step Hnet. step (cs_reply _ _ _ _ Hr).
  rewrite (dict_get_truthy _ _ _ Hl).
  step (first_of_list _ _ _ _ Hl).
  reflexivity.
Qed.


(** ** Tags *)

(** A tag that [get_tags] gives back as it is: a dictionary with an entry
    under [key], an entry under [value] and nothing else, whose two values
    are equal to themselves under [==] (as every string and every integer
    is, and a not-a-number is not). *)
Definition is_tag (t : value) : bool :=
  match t with
  | VDict [(a, x); (b, y)] =>
      ((String.eqb a "key" && String.eqb b "value")
       || (String.eqb a "value" && String.eqb b "key"))
      && py_eq x x && py_eq y y
  | _ => false
  end.

Lemma dict_set_idem k v d : dict_set k v (dict_set k v d) = dict_set k v d.
Proof.
  induction d as [|[k' v'] d IH]; simpl.
  - now rewrite String.eqb_refl.
  - destruct (String.eqb k k') eqn:E; simpl.
    + now rewrite String.eqb_refl.
    + now rewrite E, IH.
Qed.

Lemma keep_not_in_list xs c :
  keep_not_in xs (VList c)
  = Ok (List.filter (fun x => negb (existsb (py_eq x) c)) xs).
Proof.
  induction xs as [|x xs IH]; simpl; [reflexivity|].
  rewrite IH. simpl. now destruct (existsb (py_eq x) c).
Qed.

(** The pair [get_tags] builds for a well-formed tag is equal to the tag,
    whichever way round the comparison is made. *)
Lemma tag_pair_eq t :
  is_tag t = true ->
  exists p, obind (item t "key") (fun k =>
            obind (item t "value") (fun v =>
            Ok (VDict [("key", k); ("value", v)]))) = Ok p
            /\ py_eq t p = true /\ py_eq p t = true.
Proof.
  destruct t as [| | | | | | | |d]; try discriminate.
  destruct d as [|[a x] [|[b y] [|]]]; try discriminate.
  cbn [is_tag]. intros H.
  apply andb_true_iff in H as [H Hy]. apply andb_true_iff in H as [H Hx].
  apply orb_true_iff in H as [H|H]; apply andb_true_iff in H as [Ha Hb];
    apply String.eqb_eq in Ha, Hb; subst a b; eexists; (split; [reflexivity|]);
    cbn [py_eq length Nat.eqb dict_get String.eqb Ascii.eqb Bool.eqb andb];
    rewrite Hx, Hy; auto.
Qed.

(** Every element of [xs] is equal to some element of [c]. *)
Definition covers (xs c : list value) : Prop :=
  forall x, In x xs -> existsb (py_eq x) c = true.

Lemma filter_covered xs c :
  covers xs c ->
  List.filter (fun x => negb (existsb (py_eq x) c)) xs = [].
Proof.
  induction xs as [|x xs IH]; intros H; simpl; [reflexivity|].
  rewrite (H x (or_introl eq_refl)). simpl.
  apply IH. intros y Hy. apply H. now right.
Qed.

Lemma covers_cons x y xs c :
  py_eq x y = true -> covers xs c -> covers (x :: xs) (y :: c).
Proof.
  intros Hxy H z [<-|Hz]; simpl.
  - now rewrite Hxy.
  - rewrite (H z Hz). apply orb_true_r.
Qed.

Lemma tag_pairs_cover tags :
  forallb is_tag tags = true ->
  exists l, tag_pairs tags = Ok l /\ covers tags l /\ covers l tags.
Proof.
  induction tags as [|t tags IH]; simpl.
  - intros _. exists []. repeat split; intros x [].
  - intros H. apply andb_true_iff in H as [Ht Hts].
    destruct (IH Hts) as (l & Hl & Hadd & Hdel).
    destruct (tag_pair_eq t Ht) as (p & Hp & Htp & Hpt).
    exists (p :: l). repeat split.
    + destruct (item t "key") as [k| | |]; try discriminate.
      simpl in Hp |- *.
      destruct (item t "value") as [v| | |]; try discriminate.
      simpl in Hp |- *. rewrite Hl. simpl. congruence.
    + now apply covers_cons.
    + now apply covers_cons.
Qed.

(** A run of [ensure_tags] in which nothing is to remove and nothing is to
    add. *)
Lemma ensure_tags_noop check resource resource_type tags st :
  truthy resource_type = true -> truthy resource = true ->
  py_in (VStr "tags") resource = Ok true ->
  param "tags" = tags -> tags <> VNone ->
  _tags_that_should_not_exist resource tags = Ok [] ->
  _tags_that_should_exist_or_be_updated resource tags = Ok [] ->
  ensure_tags check resource resource_type st
  = (py_setitem resource "tags" tags, st).
Proof.
  intros Hrt Hr Hin Hp Hne Hdel Hadd. unfold ensure_tags.
  rewrite Hrt, Hr. simpl orb. cbv iota.
  step Hin. rewrite Hp.
  destruct tags; try congruence;
    step Hdel; step Hadd; reflexivity.
Qed.

(** What a completed run of [ensure_tags] returns for a resource with a
    [tags] field. *)
Lemma ensure_tags_result check d resource_type tags st r st' :
  has_key "tags" d = true ->
  param "tags" = VList tags ->
  ensure_tags check (VDict d) resource_type st = (Ok r, st') ->
  truthy resource_type = true
  /\ r = VDict (dict_set "tags" (VList tags) d).
Proof.
  intros Hk Hp Hrun. unfold ensure_tags in Hrun.
  rewrite Hp in Hrun. cbn [py_in py_setitem] in Hrun. rewrite Hk in Hrun.
  invert_run Hrun.
  injection Hrun as <- <-. split; [|reflexivity].
  now destruct (truthy resource_type).
Qed.

(** C2, as the code has it.  A run of [ensure_tags] in which the batch to
    remove and the batch to add are both empty leaves the state as it is:
    the changed flag is not set and no call is made.  For a resource with a
    [tags] field and a wanted list of tags that [get_tags] gives back as
    they are, a second run on the resource a completed first run returned
    is such a run: it returns that resource again, and the resource's tags
    are the wanted list.  A resource without a [tags] field is not
    reconciled: given a resource type, a non-empty one comes back as it
    is, with the state unchanged. *)
Theorem ensure_tags_set_operation (check : bool) (d : dict)
    (resource resource_type : value) (tags : list value) (st st' : state)
    (r : value) :
  (truthy resource_type = true -> truthy resource = true ->
   py_in (VStr "tags") resource = Ok true ->
   param "tags" = VList tags ->
   _tags_that_should_not_exist resource (VList tags) = Ok [] ->
   _tags_that_should_exist_or_be_updated resource (VList tags) = Ok [] ->
   snd (ensure_tags check resource resource_type st) = st)
  /\ (has_key "tags" d = true ->
      param "tags" = VList tags ->
      forallb is_tag tags = true ->
      ensure_tags check (VDict d) resource_type st = (Ok r, st') ->
      ensure_tags check r resource_type st' = (Ok r, st')
      /\ item r "tags" = Ok (VList tags))
  /\ (truthy resource_type = true -> truthy resource = true ->
      py_in (VStr "tags") resource = Ok false ->
      ensure_tags check resource resource_type st = (Ok resource, st)).
Proof.
  split; [|split].
  - intros Hrt Hr Hin Hp Hdel Hadd.
    rewrite (ensure_tags_noop check resource resource_type (VList tags) st);
      auto; discriminate.
  - intros Hk Hp Hwf Hrun.
    destruct (ensure_tags_result _ _ _ _ _ _ _ Hk Hp Hrun) as [Hrt ->].
    destruct (tag_pairs_cover tags Hwf) as (l & Hl & Hadd & Hdel).
    assert (Hget : get_tags (VDict (dict_set "tags" (VList tags) d)) = Ok l).
    { unfold get_tags. simpl. rewrite dict_get_set_eq. simpl. exact Hl. }
    split.
    + rewrite (ensure_tags_noop check _ resource_type (VList tags) st');
        try assumption; try discriminate.
      * simpl. now rewrite dict_set_idem.
      * apply (dict_get_truthy _ "tags" (VList tags)), dict_get_set_eq.
      * simpl. unfold has_key. now rewrite dict_get_set_eq.
      * unfold _tags_that_should_not_exist. rewrite Hget. simpl.
        rewrite keep_not_in_list. now rewrite filter_covered.
      * unfold _tags_that_should_exist_or_be_updated. rewrite Hget. simpl.
        rewrite keep_not_in_list. now rewrite filter_covered.
    + unfold item. simpl. now rewrite dict_get_set_eq.
  - intros Hrt Hr Hin. unfold ensure_tags. rewrite Hrt, Hr. simpl orb.
    cbv iota. step Hin. reflexivity.
Qed.


(** ** What a method may do to the state *)

(** The calls of the platform, by kind: the list queries of the resolvers,
    the commands that change the platform, and the status query of a job. *)
Definition is_lookup (c : call) : bool := String.prefix "list" (fst c).

Definition mutating_apis : list string :=
  ["createAccount"; "enableAccount"; "disableAccount"; "deleteAccount";
   "addCluster"; "updateCluster"; "deleteCluster";
   "addIpToNic"; "removeIpFromNic"; "createTags"; "deleteTags"].

Definition is_mutation (c : call) : bool :=
  existsb (String.eqb (fst c)) mutating_apis.

Definition is_job_poll (c : call) : bool :=
  String.eqb (fst c) "queryAsyncJobResult".

Lemma lookup_not_mutation c :
  is_lookup c = true -> is_mutation c = false /\ is_job_poll c = false.
Proof.
  destruct c as [api args]. unfold is_lookup, is_mutation, is_job_poll.
  cbn [fst]. intros H. split.
  - destruct (existsb (String.eqb api) mutating_apis) eqn:E; [|reflexivity].
    apply existsb_exists in E as (x & Hx & Heq).
    apply String.eqb_eq in Heq. subst x.
    simpl in Hx. repeat (destruct Hx as [<-|Hx]; [discriminate H|]).
    destruct Hx.
  - destruct (String.eqb api "queryAsyncJobResult") eqn:E; [|reflexivity].
    apply String.eqb_eq in E. subst api. discriminate H.
Qed.

(** [m] takes every state to one related to it by [R], however it ends. *)
Definition preserves {A} (R : state -> state -> Prop) (m : M A) : Prop :=
  forall st, R st (snd (m st)).

(** A relation that every step without attribute update or call keeps:
    it is a preorder and allows setting the changed flag. *)
Class Frame (R : state -> state -> Prop) : Prop := {
  frame_refl : forall st, R st st;
  frame_trans : forall a b c, R a b -> R b c -> R a c;
  frame_changed : forall st, R st (mark_changed st)
}.

(** A relation that allows setting attributes. *)
Class FrameAttr (R : state -> state -> Prop) : Prop :=
  frame_attr : forall name v st, R st (set_attr name v st).

(** A relation that allows list queries. *)
Class FrameLookup (R : state -> state -> Prop) : Prop :=
  frame_lookup : forall c st, is_lookup c = true -> R st (log_call c st).

(** A relation that allows every call but list queries. *)
Class FrameEffect (R : state -> state -> Prop) : Prop :=
  frame_effect : forall c st, is_lookup c = false -> R st (log_call c st).

(** A relation that allows the status queries of a job poll. *)
Class FramePoll (R : state -> state -> Prop) : Prop :=
  frame_poll : forall c st, is_job_poll c = true -> R st (log_call c st).

(** A relation that allows every call. *)
Class FrameCall (R : state -> state -> Prop) : Prop :=
  frame_call : forall c st, R st (log_call c st).

Instance FrameCall_lookup R `{!FrameCall R} : FrameLookup R.
Proof. intros c st _. apply frame_call. Qed.

Instance FrameCall_effect R `{!FrameCall R} : FrameEffect R.
Proof. intros c st _. apply frame_call. Qed.

Instance FrameEffect_poll R `{!FrameEffect R} : FramePoll R.
Proof.
  intros [api args] st H. apply frame_effect.
  unfold is_job_poll in H. cbn [fst] in H. apply String.eqb_eq in H.
  now subst api.
Qed.

Section Frames.

Context (R : state -> state -> Prop) `{!Frame R}.

Lemma preserves_ret {A} (a : A) : preserves R (ret a).
Proof. intros st. apply frame_refl. Qed.

Lemma preserves_lift {A} (o : outcome A) : preserves R (lift o).
Proof. intros st. apply frame_refl. Qed.

Lemma preserves_fail_json {A} msg args : preserves R (@fail_json A msg args).
Proof. intros st. apply frame_refl. Qed.

Lemma preserves_self_get name : preserves R (self_get name).
Proof. intros st. apply frame_refl. Qed.

Lemma preserves_self_set `{!FrameAttr R} name v :
  preserves R (self_set name v).
Proof. intros st. apply frame_attr. Qed.

Lemma preserves_set_changed : preserves R set_changed.
Proof. intros st. apply frame_changed. Qed.

Lemma preserves_bind {A B} (m : M A) (f : A -> M B) :
  preserves R m -> (forall a, preserves R (f a)) -> preserves R (bind m f).
Proof.
  intros Hm Hf st. unfold bind. specialize (Hm st).
  destruct (m st) as [[a| | |] st1]; simpl in *; try exact Hm.
  eapply frame_trans; [exact Hm|apply Hf].
Qed.

Lemma preserves_for_first {A} (body : value -> M (option A)) l :
  (forall x, preserves R (body x)) -> preserves R (for_first body l).
Proof.
  intros Hb. induction l as [|x l IH]; simpl.
  - apply preserves_ret.
  - apply preserves_bind; [apply Hb|].
    intros [a|]; [apply preserves_ret|exact IH].
Qed.

Lemma preserves_for_each (body : value -> M unit) l :
  (forall x, preserves R (body x)) -> preserves R (for_each body l).
Proof.
  intros Hb. induction l as [|x l IH]; simpl.
  - apply preserves_ret.
  - apply preserves_bind; [apply Hb|intros _; exact IH].
Qed.

Lemma preserves_cs_lookup `{!FrameLookup R} api args :
  is_lookup (api, args) = true -> preserves R (cs api args).
Proof.
  intros H st. unfold cs.
  destruct (remote (trace st) (api, args)); simpl; now apply frame_lookup.
Qed.

Lemma preserves_cs_poll `{!FramePoll R} api args :
  is_job_poll (api, args) = true -> preserves R (cs api args).
Proof.
  intros H st. unfold cs.
  destruct (remote (trace st) (api, args)); simpl; now apply frame_poll.
Qed.

Lemma preserves_cs_effect `{!FrameEffect R} api args :
  is_lookup (api, args) = false -> preserves R (cs api args).
Proof.
  intros H st. unfold cs.
  destruct (remote (trace st) (api, args)); simpl; now apply frame_effect.
Qed.

Lemma preserves_cs `{!FrameCall R} api args : preserves R (cs api args).
Proof.
  intros st. unfold cs.
  destruct (remote (trace st) (api, args)); simpl; apply frame_call.
Qed.

End Frames.

(** Takes a goal [preserves R m] apart along the structure of [m]. *)
Ltac frame_step :=
  lazymatch goal with
  | |- preserves ?R (bind _ _) => apply (preserves_bind R); [|intro]
  | |- preserves ?R (ret _) => apply (preserves_ret R)
  | |- preserves ?R (lift _) => apply (preserves_lift R)
  | |- preserves ?R (fail_json _ _) => apply (preserves_fail_json R)
  | |- preserves ?R (self_get _) => apply (preserves_self_get R)
  | |- preserves ?R (self_set _ _) => apply (preserves_self_set R)
  | |- preserves ?R set_changed => apply (preserves_set_changed R)
  | |- preserves ?R (for_first _ _) => apply (preserves_for_first R); intro
  | |- preserves ?R (for_each _ _) => apply (preserves_for_each R); intro
  | |- preserves ?R (cs _ _) =>
      first [ apply (preserves_cs_lookup R); reflexivity
            | apply (preserves_cs_poll R); reflexivity
            | apply (preserves_cs_effect R); reflexivity
            | apply (preserves_cs R) ]
  | |- preserves _ (if ?b then _ else _) => destruct b
  | |- preserves _ (match ?x with _ => _ end) => destruct x
  | |- preserves _ _ => solve [auto with frame]
  end.

Ltac frame := cbv zeta; repeat frame_step.

Create HintDb frame.

Section Resolvers.

Context (R : state -> state -> Prop) `{!Frame R} `{!FrameAttr R}
  `{!FrameLookup R}.

Lemma preserves_get_by_key key d : preserves R (_get_by_key key d).
Proof. unfold _get_by_key. frame. Qed.
Hint Resolve preserves_get_by_key : frame.

Lemma preserves_domain_candidate domain key d :
  preserves R (domain_candidate domain key d).
Proof. unfold domain_candidate. frame. Qed.
Hint Resolve preserves_domain_candidate : frame.

Lemma preserves_get_domain key : preserves R (get_domain key).
Proof. unfold get_domain. frame. Qed.
Hint Resolve preserves_get_domain : frame.

Lemma preserves_get_account key : preserves R (get_account key).
Proof. unfold get_account. frame. Qed.
Hint Resolve preserves_get_account : frame.

Lemma preserves_get_project key : preserves R (get_project key).
Proof. unfold get_project. frame. Qed.
Hint Resolve preserves_get_project : frame.

Lemma preserves_get_zone key : preserves R (get_zone key).
Proof. unfold get_zone. frame. Qed.
Hint Resolve preserves_get_zone : frame.

Lemma preserves_vpc_lookup vpc key : preserves R (vpc_lookup vpc key).
Proof. unfold vpc_lookup. frame. Qed.
Hint Resolve preserves_vpc_lookup : frame.

Lemma preserves_get_vpc key : preserves R (get_vpc key).
Proof. unfold get_vpc. frame. Qed.
Hint Resolve preserves_get_vpc : frame.

Lemma preserves_nic_get_vpc key : preserves R (nic_get_vpc key).
Proof. unfold nic_get_vpc. frame. Qed.
Hint Resolve preserves_nic_get_vpc : frame.

Lemma preserves_is_vpc_network network_id :
  preserves R (is_vpc_network network_id).
Proof. unfold is_vpc_network. frame. Qed.
Hint Resolve preserves_is_vpc_network : frame.

Lemma preserves_is_vm_in_vpc vm : preserves R (is_vm_in_vpc vm).
Proof. unfold is_vm_in_vpc. frame. Qed.
Hint Resolve preserves_is_vm_in_vpc : frame.

Lemma preserves_get_network key : preserves R (get_network key).
Proof. unfold get_network. frame. Qed.
Hint Resolve preserves_get_network : frame.

Lemma preserves_nic_get_network key : preserves R (nic_get_network key).
Proof. unfold nic_get_network. frame. Qed.
Hint Resolve preserves_nic_get_network : frame.

Lemma preserves_vm_candidate vm key v : preserves R (vm_candidate vm key v).
Proof. unfold vm_candidate. frame. Qed.
Hint Resolve preserves_vm_candidate : frame.

Lemma preserves_get_vm key : preserves R (get_vm key).
Proof. unfold get_vm. frame. Qed.
Hint Resolve preserves_get_vm : frame.

Lemma preserves_nic_get_vm key : preserves R (nic_get_vm key).
Proof. unfold nic_get_vm. frame. Qed.
Hint Resolve preserves_nic_get_vm : frame.

Lemma preserves_get_os_type key : preserves R (get_os_type key).
Proof. unfold get_os_type. frame. Qed.

Lemma preserves_get_hypervisor : preserves R get_hypervisor.
Proof. unfold get_hypervisor. frame. Qed.

Lemma preserves_fail_on_missing_params l :
  preserves R (fail_on_missing_params l).
Proof. unfold fail_on_missing_params. frame. Qed.
Hint Resolve preserves_fail_on_missing_params : frame.

Lemma preserves_fail_on_errortext res : preserves R (fail_on_errortext res).
Proof. unfold fail_on_errortext. frame. Qed.
Hint Resolve preserves_fail_on_errortext : frame.

Lemma preserves_get_account_type : preserves R get_account_type.
Proof. unfold get_account_type. frame. Qed.
Hint Resolve preserves_get_account_type : frame.

Lemma preserves_Account_get_account : preserves R Account_get_account.
Proof. unfold Account_get_account. frame. Qed.
Hint Resolve preserves_Account_get_account : frame.

Lemma preserves_get_pod key : preserves R (get_pod key).
Proof. unfold get_pod. frame. Qed.
Hint Resolve preserves_get_pod : frame.

Lemma preserves_get_cluster : preserves R get_cluster.
Proof. unfold get_cluster. frame. Qed.
Hint Resolve preserves_get_cluster : frame.

Lemma preserves_get_nic : preserves R get_nic.
Proof. unfold get_nic. frame. Qed.
Hint Resolve preserves_get_nic : frame.

Lemma preserves_get_secondary_ip : preserves R get_secondary_ip.
Proof. unfold get_secondary_ip. frame. Qed.
Hint Resolve preserves_get_secondary_ip : frame.

Lemma preserves_poll_loop `{!FramePoll R} n job key :
  preserves R (poll_loop n job key).
Proof.
  induction n as [|n IH]; cbn [poll_loop].
  - intros st. apply frame_refl.
  - frame.
Qed.

Lemma preserves_poll_job `{!FramePoll R} job key :
  preserves R (poll_job job key).
Proof. unfold poll_job. frame. apply preserves_poll_loop. Qed.
Hint Resolve preserves_poll_job : frame.

End Resolvers.

(** A relation that allows what diffing does: new attributes and a new
    diff, with the flag and the trace as they were. *)
Class FrameDiff (R : state -> state -> Prop) : Prop :=
  frame_diff : forall st a b d,
    R st {| attrs := a; changed := changed st; diff_before := b;
            diff_after := d; trace := trace st |}.

(** What the relation must allow for an operation run with check mode
    [c]: in check mode nothing more, otherwise every call. *)
Definition may_call (c : bool) (R : state -> state -> Prop) : Prop :=
  if c then True else FrameCall R.

Section Operations.

Context (R : state -> state -> Prop) `{!Frame R} `{!FrameAttr R}
  `{!FrameLookup R}.

Hint Resolve preserves_get_by_key preserves_get_domain preserves_get_account
  preserves_get_project preserves_get_zone preserves_get_vpc
  preserves_nic_get_vpc preserves_get_network preserves_nic_get_network
  preserves_get_vm preserves_nic_get_vm preserves_fail_on_missing_params
  preserves_fail_on_errortext preserves_get_account_type
  preserves_Account_get_account preserves_get_pod preserves_get_cluster
  preserves_get_nic preserves_get_secondary_ip : frame.
Hint Extern 1 (preserves ?R (poll_job _ _)) =>
  apply (preserves_poll_job R) : frame.

Lemma preserves_present_account c :
  may_call c R -> preserves R (present_account c).
Proof.
  intros H. unfold present_account. destruct c; cbn [may_call] in H; frame.
Qed.

Lemma preserves_enable_account c :
  may_call c R -> preserves R (enable_account c).
Proof.
  intros H. pose proof (preserves_present_account c H).
  unfold enable_account. destruct c; cbn [may_call] in H; frame.
Qed.

Lemma preserves_lock_or_disable_account c lock :
  may_call c R -> preserves R (lock_or_disable_account c lock).
Proof.
  intros H. pose proof (preserves_present_account c H).
  pose proof (preserves_enable_account c H).
  unfold lock_or_disable_account. destruct c; cbn [may_call] in H; frame.
Qed.

Lemma preserves_absent_account c :
  may_call c R -> preserves R (absent_account c).
Proof.
  intros H. unfold absent_account. destruct c; cbn [may_call] in H; frame.
Qed.

Lemma preserves_process_tags c resource resource_type tags operation :
  may_call c R ->
  preserves R (_process_tags c resource resource_type tags operation).
Proof.
  intros H. unfold _process_tags. destruct c; cbn [may_call] in H; frame.
Qed.

Lemma preserves_ensure_tags c resource resource_type :
  may_call c R -> preserves R (ensure_tags c resource resource_type).
Proof.
  intros H.
  pose proof (fun t o => preserves_process_tags c resource resource_type t o H).
  unfold ensure_tags. frame.
Qed.

Lemma preserves_create_cluster c :
  may_call c R -> preserves R (_create_cluster c).
Proof.
  intros H. unfold _create_cluster. destruct c; cbn [may_call] in H; frame.
Qed.

Lemma preserves_has_changed_cluster `{!FrameDiff R} want cluster :
  preserves R (has_changed_cluster want cluster).
Proof.
  intros st. unfold has_changed_cluster.
  destruct cluster; try apply frame_refl.
  destruct (has_changed _ _ _ _ _) as [r s]. simpl. apply frame_diff.
Qed.

Lemma preserves_update_cluster `{!FrameDiff R} c :
  may_call c R -> preserves R (_update_cluster c).
Proof.
  intros H. pose proof preserves_has_changed_cluster.
  unfold _update_cluster. destruct c; cbn [may_call] in H; frame.
Qed.

Lemma preserves_present_cluster `{!FrameDiff R} c :
  may_call c R -> preserves R (present_cluster c).
Proof.
  intros H. pose proof (preserves_update_cluster c H).
  pose proof (preserves_create_cluster c H).
  unfold present_cluster. frame.
Qed.

Lemma preserves_absent_cluster c :
  may_call c R -> preserves R (absent_cluster c).
Proof.
  intros H. unfold absent_cluster. destruct c; cbn [may_call] in H; frame.
Qed.

Lemma preserves_present_nic c :
  may_call c R -> preserves R (present_nic c).
Proof.
  intros H. unfold present_nic. destruct c; cbn [may_call] in H; frame.
Qed.

Lemma preserves_absent_nic c :
  may_call c R -> preserves R (absent_nic c).
Proof.
  intros H. unfold absent_nic. destruct c; cbn [may_call] in H; frame.
Qed.

End Operations.

(** The lemmas above as hints, for any relation at hand. *)
Hint Extern 1 (preserves ?R (_get_by_key _ _)) =>
  apply (preserves_get_by_key R) : frame.
Hint Extern 1 (preserves ?R (get_domain _)) =>
  apply (preserves_get_domain R) : frame.
Hint Extern 1 (preserves ?R (get_account _)) =>
  apply (preserves_get_account R) : frame.
Hint Extern 1 (preserves ?R (get_project _)) =>
  apply (preserves_get_project R) : frame.
Hint Extern 1 (preserves ?R (get_zone _)) =>
  apply (preserves_get_zone R) : frame.
Hint Extern 1 (preserves ?R (get_vpc _)) =>
  apply (preserves_get_vpc R) : frame.
Hint Extern 1 (preserves ?R (nic_get_vpc _)) =>
  apply (preserves_nic_get_vpc R) : frame.
Hint Extern 1 (preserves ?R (get_network _)) =>
  apply (preserves_get_network R) : frame.
Hint Extern 1 (preserves ?R (nic_get_network _)) =>
  apply (preserves_nic_get_network R) : frame.
Hint Extern 1 (preserves ?R (get_vm _)) =>
  apply (preserves_get_vm R) : frame.
Hint Extern 1 (preserves ?R (nic_get_vm _)) =>
  apply (preserves_nic_get_vm R) : frame.
Hint Extern 1 (preserves ?R (fail_on_missing_params _)) =>
  apply (preserves_fail_on_missing_params R) : frame.
Hint Extern 1 (preserves ?R (fail_on_errortext _)) =>
  apply (preserves_fail_on_errortext R) : frame.
Hint Extern 1 (preserves ?R (get_account_type)) =>
  apply (preserves_get_account_type R) : frame.
Hint Extern 1 (preserves ?R (Account_get_account)) =>
  apply (preserves_Account_get_account R) : frame.
Hint Extern 1 (preserves ?R (get_pod _)) =>
  apply (preserves_get_pod R) : frame.
Hint Extern 1 (preserves ?R (get_cluster)) =>
  apply (preserves_get_cluster R) : frame.
Hint Extern 1 (preserves ?R (get_nic)) =>
  apply (preserves_get_nic R) : frame.
Hint Extern 1 (preserves ?R (get_secondary_ip)) =>
  apply (preserves_get_secondary_ip R) : frame.
Hint Extern 1 (preserves ?R (poll_job _ _)) =>
  apply (preserves_poll_job R) : frame.

(** ** Three relations between the state before and the state after *)

(** Only list queries were added to the trace. *)
Definition only_lookups (st st' : state) : Prop :=
  exists l, trace st' = (trace st ++ l)%list /\ forallb is_lookup l = true.

(** No mutating command was added to the trace. *)
Definition no_mutation (st st' : state) : Prop :=
  exists l, trace st' = (trace st ++ l)%list /\ List.filter is_mutation l = [].

(** The trace was extended, a changed flag that was set is still set, and
    the diff is the same. *)
Definition grows (st st' : state) : Prop :=
  (exists l, trace st' = (trace st ++ l)%list)
  /\ (changed st = true -> changed st' = true)
  /\ diff_before st' = diff_before st
  /\ diff_after st' = diff_after st.

Instance only_lookups_frame : Frame only_lookups.
Proof.
  split.
  - intros st. exists []. split; [now rewrite app_nil_r|reflexivity].
  - intros a b c (l & Hl & Hf) (l' & Hl' & Hf'). exists (l ++ l')%list. split.
    + now rewrite Hl', Hl, app_assoc.
    + rewrite forallb_app. now rewrite Hf, Hf'.
  - intros st. exists []. split; [simpl; now rewrite app_nil_r|reflexivity].
Qed.

Instance only_lookups_attr : FrameAttr only_lookups.
Proof.
  intros name v st. exists [].
  split; [simpl; now rewrite app_nil_r|reflexivity].
Qed.

Instance only_lookups_lookup : FrameLookup only_lookups.
Proof.
  intros c st H. exists [c]. split; [reflexivity|]. simpl. now rewrite H.
Qed.

Instance only_lookups_diff : FrameDiff only_lookups.
Proof.
  intros st a b d. exists []. split; [simpl; now rewrite app_nil_r|reflexivity].
Qed.

Instance no_mutation_frame : Frame no_mutation.
Proof.
  split.
  - intros st. exists []. split; [now rewrite app_nil_r|reflexivity].
  - intros a b c (l & Hl & Hf) (l' & Hl' & Hf'). exists (l ++ l')%list. split.
    + now rewrite Hl', Hl, app_assoc.
    + rewrite List.filter_app. now rewrite Hf, Hf'.
  - intros st. exists []. split; [simpl; now rewrite app_nil_r|reflexivity].
Qed.

Instance no_mutation_attr : FrameAttr no_mutation.
Proof.
  intros name v st. exists [].
  split; [simpl; now rewrite app_nil_r|reflexivity].
Qed.

Instance no_mutation_lookup : FrameLookup no_mutation.
Proof.
  intros c st H. exists [c]. split; [reflexivity|]. simpl.
  now rewrite (proj1 (lookup_not_mutation c H)).
Qed.

Instance no_mutation_poll : FramePoll no_mutation.
Proof.
  intros [api args] st H. exists [(api, args)]. split; [reflexivity|].
  unfold is_job_poll in H. cbn [fst] in H. apply String.eqb_eq in H.
  subst api. reflexivity.
Qed.

Instance grows_frame : Frame grows.
Proof.
  split.
  - intros st. repeat split; auto. exists []. now rewrite app_nil_r.
  - intros a b c ((l & Hl) & Hc & Hb & Ha) ((l' & Hl') & Hc' & Hb' & Ha').
    repeat split; try congruence; auto.
    exists (l ++ l')%list. now rewrite Hl', Hl, app_assoc.
  - intros st. repeat split; auto. exists []. simpl. now rewrite app_nil_r.
Qed.

Instance grows_attr : FrameAttr grows.
Proof.
  intros name v st. repeat split; auto. exists []. simpl.
  now rewrite app_nil_r.
Qed.

Instance grows_call : FrameCall grows.
Proof. intros c st. repeat split; auto. exists [c]. reflexivity. Qed.

(** ** A resolved domain stays resolved *)

Lemma item_truthy c k v : item c k = Ok v -> truthy c = true.
Proof.
  unfold item. destruct c as [| | | | | | |l|d]; simpl; try discriminate.
  destruct d; [discriminate|reflexivity].
Qed.

Lemma get_by_key_pure key d :
  exists o, forall st, _get_by_key key d st = (o, st).
Proof.
  unfold _get_by_key. cbv zeta.
  set (md := match d with VNone => VDict [] | _ => d end).
  destruct (truthy key); [|eexists; reflexivity].
  destruct (py_in key md) as [[|]| | |] eqn:E;
    eexists; intros st; unfold bind, lift; reflexivity.
Qed.

Lemma attr_set_attr name v st : attr name (set_attr name v st) = v.
Proof. unfold attr, set_attr. simpl. now rewrite lookup_insert_eq. Qed.

Lemma domain_candidate_run domain key d st o st' :
  domain_candidate domain key d st = (Ok o, st') ->
  match o with
  | Some r => truthy d = true /\ st' = set_attr "domain" d st
              /\ forall s, _get_by_key key d s = (Ok r, s)
  | None => st' = st
  end.
Proof.
  intros H. unfold domain_candidate in H.
  destruct (get_by_key_pure key d) as [res Hres].
  destruct (obind (item d "path") lower_of) as [p| | |] eqn:Hp;
    mred_in H; try discriminate H.
  assert (Ht : truthy d = true).
  { destruct (item d "path") eqn:Hi; try discriminate.
    eapply item_truthy; eassumption. }
  destruct (lower_of domain) as [dl| | |]; mred_in H; try discriminate H.
  destruct (existsb _ _); mred_in H.
  - unfold bind at 1 in H. rewrite Hres in H.
    destruct res; mred_in H; try discriminate H.
    injection H as <- <-. repeat split; auto.
  - now injection H as <- <-.
Qed.

Lemma domain_loop_run domain key ds :
  forall st r st',
  for_first (domain_candidate domain key) ds st = (Ok (Some r), st') ->
  exists d, truthy d = true /\ st' = set_attr "domain" d st
            /\ forall s, _get_by_key key d s = (Ok r, s).
Proof.
  induction ds as [|x ds IH]; intros st r st' H; simpl in H.
  - discriminate H.
  - unfold bind at 1 in H.
    destruct (domain_candidate domain key x st) as [[o| | |] st1] eqn:E;
      try discriminate H.
    pose proof (domain_candidate_run _ _ _ _ _ _ E) as Hc.
    destruct o as [r0|].
    + injection H as <- <-. exists x. exact Hc.
    + subst st1. apply IH. exact H.
Qed.

(** After a call of [get_domain] that returned, every later call with the
    same key, in a state with the same [domain] attribute, returns the same
    value without a remote call. *)
Lemma get_domain_again key st v st' st'' :
  get_domain key st = (Ok v, st') ->
  attr "domain" st'' = attr "domain" st' ->
  get_domain key st'' = (Ok v, st'').
Proof.
  intros H Hcache. unfold get_domain in *. cbv zeta in *.
  mred_in H. mred. rewrite Hcache.
  destruct (truthy (attr "domain" st)) eqn:Hc.
  - destruct (get_by_key_pure key (attr "domain" st)) as [o Ho].
    rewrite Ho in H. injection H as -> <-. now rewrite Hc, Ho.
  - destruct (truthy (if truthy (param "domain") then param "domain"
                      else environ "CLOUDSTACK_DOMAIN")) eqn:Hd; mred_in H.
    + unfold bind at 1 in H.
      destruct (cs "listDomains" [("listall", VBool true)] st)
        as [[domains| | |] st1] eqn:Hcs; try discriminate H.
      unfold bind at 1 in H.
      match type of H with
      | context [(if truthy domains then ?m else _) st1] =>
          destruct ((if truthy domains then m else ret None) st1)
            as [[[r|]| | |] st2] eqn:Hloop
      end; mred_in H; try discriminate H.
      injection H as <- <-.
      destruct (truthy domains); [|discriminate Hloop].
      unfold bind at 1 in Hloop. unfold lift at 1 in Hloop.
      destruct (obind (item domains "domain") py_iter) as [ds| | |];
        try discriminate Hloop.
      destruct (domain_loop_run _ _ _ _ _ _ Hloop) as (d & Ht & -> & Hk).
      rewrite attr_set_attr, Ht. apply Hk.
    + injection H as <- <-. now rewrite Hc.
Qed.

Lemma Account_get_account_cached a st st1 :
  Account_get_account st = (Ok a, st1) ->
  truthy a = true ->
  Account_get_account st1 = (Ok a, st1).
Proof.
  intros H Ht. unfold Account_get_account in *.
  mred_in H. unfold bind at 1 in H.
  match type of H with
  | context [match ?m st with _ => _ end] =>
      destruct (m st) as [[u| | |] st'] eqn:E
  end; try discriminate H.
  mred_in H. injection H as <- <-.
  mred. rewrite Ht. reflexivity.
Qed.


(** ** Locking a disabled account *)

Definition enable_call (id domainid : value) : call :=
  ("enableAccount",
   [("id", id); ("account", param "name"); ("domainid", domainid)]).

Definition disable_call (id domainid : value) (lock : bool) : call :=
  ("disableAccount",
   [("id", id); ("account", param "name"); ("domainid", domainid);
    ("lock", VBool lock)]).

Lemma mutations_after (st st' : state) :
  no_mutation st st' ->
  List.filter is_mutation (trace st') = List.filter is_mutation (trace st).
Proof.
  intros (l & -> & Hl). rewrite List.filter_app, Hl. apply app_nil_r.
Qed.

(** A mutating command followed by steps that make none. *)
Lemma mutation_then_none {B} api args (rest : value -> M B) st :
  is_mutation (api, args) = true ->
  (forall a, preserves no_mutation (rest a)) ->
  List.filter is_mutation (trace (snd (bind (cs api args) rest st)))
  = (List.filter is_mutation (trace st) ++ [(api, args)])%list.
Proof.
  intros Hm Hrest. unfold bind, cs.
  assert (Hlog : List.filter is_mutation (trace (log_call (api, args) st))
                 = (List.filter is_mutation (trace st) ++ [(api, args)])%list).
  { simpl. rewrite List.filter_app. simpl. now rewrite Hm. }
  destruct (remote (trace st) (api, args)) as [v|msg]; [|exact Hlog].
  rewrite (mutations_after _ _ (Hrest v _)). exact Hlog.
Qed.

Lemma enable_account_found account id domainid res enabled st :
  Account_get_account st = (Ok account, st) ->
  truthy account = true ->
  obind (item account "state") lower_of = Ok "disabled" ->
  item account "id" = Ok id ->
  get_domain (VStr "id") st = (Ok domainid, st) ->
  remote (trace st) (enable_call id domainid) = Reply res ->
  py_in (VStr "errortext") res = Ok false ->
  item res "account" = Ok enabled ->
  enable_account false st
  = (Ok enabled, log_call (enable_call id domainid) (mark_changed st)).
Proof.
  intros Hacc Ht Hstate Hid Hdom Hr Herr Hen. unfold enable_account.
  step Hacc. rewrite Ht. mred. step Hstate. cbn [String.eqb Ascii.eqb Bool.eqb].
  mred. step Hid.
  step (get_domain_again _ _ _ _ (mark_changed st) Hdom eq_refl).
  step (cs_reply "enableAccount" _ (mark_changed st) res Hr).
  unfold fail_on_errortext. step Herr. step Hen. reflexivity.
Qed.

(** C8: when the account lookup finds an account in state [disabled], in
    a resolved domain, and the platform answers the [enableAccount]
    command with the account in state [enabled], a run for [state=locked]
    outside check mode adds exactly two mutating commands to the trace:
    [enableAccount] and then [disableAccount] with [lock=True]. *)
Theorem lock_disabled_account_enables_first
    (account id domainid res enabled id' : value) (st st1 : state) :
  Account_get_account st = (Ok account, st1) ->
  obind (item account "state") lower_of = Ok "disabled" ->
  item account "id" = Ok id ->
  get_domain (VStr "id") st1 = (Ok domainid, st1) ->
  remote (trace st1) (enable_call id domainid) = Reply res ->
  py_in (VStr "errortext") res = Ok false ->
  item res "account" = Ok enabled ->
  obind (item enabled "state") lower_of = Ok "enabled" ->
  item enabled "id" = Ok id' ->
  List.filter is_mutation (trace (snd (lock_account false st)))
  = (List.filter is_mutation (trace st)
     ++ [enable_call id domainid; disable_call id' domainid true])%list.
Proof.
  intros Hacc Hstate Hid Hdom Hr Herr Hen Hstate' Hid'.
  assert (Ht : truthy account = true).
  { destruct (item account "state") eqn:E; try discriminate.
    eapply item_truthy; eassumption. }
  pose proof (Account_get_account_cached _ _ _ Hacc Ht) as Hacc1.
  assert (Hpre : List.filter is_mutation (trace st1)
                 = List.filter is_mutation (trace st)).
  { apply mutations_after.
    pose proof (preserves_Account_get_account no_mutation st) as Hp.
    now rewrite Hacc in Hp. }
  unfold lock_account, lock_or_disable_account.
  step Hacc. rewrite Ht. mred. step Hstate.
  cbn [String.eqb Ascii.eqb Bool.eqb]. mred.
  step (enable_account_found _ _ _ _ _ _ Hacc1 Ht Hstate Hid Hdom Hr Herr Hen).
  step Hstate'. cbn [String.eqb Ascii.eqb Bool.eqb]. mred. step Hid'.
  set (st2 := mark_changed (log_call (enable_call id domainid)
                              (mark_changed st1))).
  step (get_domain_again _ _ _ _ st2 Hdom eq_refl).
  fold (disable_call id' domainid true). unfold disable_call.
  rewrite mutation_then_none; [|reflexivity|].
  - subst st2. simpl. rewrite List.filter_app. simpl. rewrite Hpre.
    now rewrite <- app_assoc.
  - intros a. frame.
Qed.

(** ** Check mode against normal mode *)

(** The state a check-mode run ends in against the state the normal run
    from the same state ends in: every call of the check-mode run is made,
    in the same order, by the normal run before any other, and the changed
    flag and the diff are the same. *)
Definition agree (dry wet : state) : Prop :=
  trace dry `prefix_of` trace wet
  /\ changed wet = changed dry
  /\ diff_before wet = diff_before dry
  /\ diff_after wet = diff_after dry.

(** No list query was added to the trace. *)
Definition no_lookup (st st' : state) : Prop :=
  exists l, trace st' = (trace st ++ l)%list /\ List.filter is_lookup l = [].

(** The attributes are the same. *)
Definition same_attrs (st st' : state) : Prop := attrs st' = attrs st.

Instance no_lookup_frame : Frame no_lookup.
Proof.
  split.
  - intros st. exists []. split; [now rewrite app_nil_r|reflexivity].
  - intros a b c (l & Hl & Hf) (l' & Hl' & Hf'). exists (l ++ l')%list. split.
    + now rewrite Hl', Hl, app_assoc.
    + rewrite List.filter_app. now rewrite Hf, Hf'.
  - intros st. exists []. split; [simpl; now rewrite app_nil_r|reflexivity].
Qed.

Instance no_lookup_attr : FrameAttr no_lookup.
Proof.
  intros name v st. exists [].
  split; [simpl; now rewrite app_nil_r|reflexivity].
Qed.

Instance no_lookup_effect : FrameEffect no_lookup.
Proof.
  intros c st H. exists [c]. split; [reflexivity|]. simpl. now rewrite H.
Qed.

Instance same_attrs_frame : Frame same_attrs.
Proof.
  split; unfold same_attrs; try reflexivity. intros a b c; congruence.
Qed.

Instance same_attrs_call : FrameCall same_attrs.
Proof. intros c st. reflexivity. Qed.

(** The normal run went on from a state in which the check-mode run
    stopped with the changed flag set. *)
Definition ahead (dry wet : state) : Prop :=
  changed dry = true /\ grows dry wet.

(** The two runs of a method are either the same run, or the normal run
    is ahead and the check-mode result, if there is one, satisfies [ok]
    with the two final states. *)
Definition dry_wet {A} (ok : A -> state -> state -> Prop)
    (dry wet : outcome A * state) : Prop :=
  dry = wet
  \/ (ahead (snd dry) (snd wet)
      /\ forall a, fst dry = Ok a -> ok a (snd dry) (snd wet)).

(** What [bind] does with the result of its first part. *)
Definition continue {A B} (f : A -> M B) (r : outcome A * state)
  : outcome B * state :=
  match r with
  | (Ok a, s) => f a s
  | (Failed msg l, s) => (Failed msg l, s)
  | (Raised e, s) => (Raised e, s)
  | (OutOfFuel, s) => (OutOfFuel, s)
  end.

(** The check-mode result leaves the normal run no list query to make. *)
Definition quiet {A} (a : A) (dry wet : state) : Prop := no_lookup dry wet.

(** The check-mode result is no account. *)
Definition unfound (a : value) (dry wet : state) : Prop :=
  truthy a = false /\ no_lookup dry wet.

(** The id of the domain is at hand in the state of the check-mode run:
    asking for it changes nothing; the normal run has the same domain. *)
Definition domain_known (a : value) (dry wet : state) : Prop :=
  (exists v, get_domain (VStr "id") dry = (Ok v, dry))
  /\ no_lookup dry wet
  /\ attr "domain" wet = attr "domain" dry.

Lemma dw_agree {A} (ok : A -> state -> state -> Prop) dry wet :
  dry_wet ok dry wet -> agree (snd dry) (snd wet).
Proof.
  intros [->|[[Hc ((l & Hl) & Hch & Hb & Ha)] _]].
  - repeat split; auto.
  - repeat split; auto.
    + exists l. exact Hl.
    + rewrite Hc. auto.
Qed.

Lemma dw_same_lookups {A} (dry wet : outcome A * state) a :
  dry_wet quiet dry wet -> fst dry = Ok a ->
  List.filter is_lookup (trace (snd wet))
  = List.filter is_lookup (trace (snd dry)).
Proof.
  intros [->|[_ Hok]] Ha; [reflexivity|].
  destruct (Hok a Ha) as (l & -> & Hl).
  rewrite List.filter_app, Hl. apply app_nil_r.
Qed.

Lemma dw_refl {A} (ok : A -> state -> state -> Prop) r : dry_wet ok r r.
Proof. now left. Qed.

Lemma dw_bind_shared {A B} (ok : B -> state -> state -> Prop) (m : M A)
    (fD fN : A -> M B) st :
  (forall a st1, m st = (Ok a, st1) -> dry_wet ok (fD a st1) (fN a st1)) ->
  dry_wet ok (bind m fD st) (bind m fN st).
Proof.
  intros H. unfold bind. destruct (m st) as [[a| | |] st1];
    [now apply H|now left..].
Qed.

Lemma dw_guard {A} (ok : A -> state -> state -> Prop) (x : A) (wet : M A) st :
  changed st = true -> preserves grows wet -> ok x st (snd (wet st)) ->
  dry_wet ok (ret x st) (wet st).
Proof.
  intros Hc Hw Hok. right. split.
  - split; [exact Hc|apply Hw].
  - simpl. now intros a [= <-].
Qed.

Lemma dw_bind {A B} (okA : A -> state -> state -> Prop)
    (okB : B -> state -> state -> Prop)
    (mD mN : M A) (fD fN : A -> M B) st :
  dry_wet okA (mD st) (mN st) ->
  (forall a st1, dry_wet okB (fD a st1) (fN a st1)) ->
  (forall a sD rN, okA a sD (snd rN) -> changed sD = true ->
     snd (fD a sD) = sD
     /\ forall b, fst (fD a sD) = Ok b -> okB b sD (snd (continue fN rN))) ->
  (forall a, preserves grows (fN a)) ->
  dry_wet okB (bind mD fD st) (bind mN fN st).
Proof.
  intros [Heq|[[Hc Hg] Hok]] Hsync Hdry Hwet.
  - unfold bind. rewrite Heq. destruct (mN st) as [[a| | |] st1];
      [apply Hsync|now left..].
  - right.
    change (bind mN fN st) with (continue fN (mN st)).
    unfold bind. destruct (mD st) as [oD sD]. simpl in Hc, Hg, Hok.
    assert (HN : grows sD (snd (continue fN (mN st)))).
    { destruct (mN st) as [[a| | |] sN]; simpl in *; try exact Hg.
      eapply frame_trans; [exact Hg|apply Hwet]. }
    destruct oD as [a| | |]; simpl.
    + destruct (Hdry a sD (mN st) (Hok a eq_refl) Hc) as [Hs Hb].
      rewrite Hs. split; [split; [exact Hc|exact HN]|exact Hb].
    + split; [split; [exact Hc|exact HN]|discriminate].
    + split; [split; [exact Hc|exact HN]|discriminate].
    + split; [split; [exact Hc|exact HN]|discriminate].
Qed.

Lemma dw_weaken {A} (ok ok' : A -> state -> state -> Prop) dry wet :
  (forall a d w, ok a d w -> ok' a d w) ->
  dry_wet ok dry wet -> dry_wet ok' dry wet.
Proof.
  intros H [->|[Ha Hok]]; [now left|right]. split; auto.
Qed.

Lemma grows_changed {A} (m : M A) st a st1 :
  preserves grows m -> changed st = true -> m st = (Ok a, st1) ->
  changed st1 = true.
Proof.
  intros Hm Hc Hrun. specialize (Hm st). rewrite Hrun in Hm.
  destruct Hm as (_ & H & _). auto.
Qed.

Lemma mark_changed_id st : changed st = true -> mark_changed st = st.
Proof. destruct st. simpl. now intros ->. Qed.

(** Goes through a step that the two runs share. *)
Ltac shared :=
  lazymatch goal with
  | |- dry_wet _ (bind set_changed _ ?st) (bind set_changed _ ?st) =>
      let st' := fresh "st" in
      let Hr := fresh "Hrun" in
      let Hc := fresh "Hc" in
      apply dw_bind_shared; intros [] st' Hr;
      assert (Hc : changed st' = true)
        by (injection Hr as <-; reflexivity);
      clear Hr
  | Hc : changed ?st = true
    |- dry_wet _ (bind ?m _ ?st) (bind ?m _ ?st) =>
      let a := fresh "a" in
      let st' := fresh "st" in
      let Hr := fresh "Hrun" in
      let Hc' := fresh "Hc" in
      apply dw_bind_shared; intros a st' Hr;
      assert (Hc' : changed st' = true)
        by (apply (grows_changed m st a st'); [frame|exact Hc|exact Hr])
  | |- dry_wet _ (bind ?m _ ?st) (bind ?m _ ?st) =>
      let a := fresh "a" in
      let st' := fresh "st" in
      let Hr := fresh "Hrun" in
      apply dw_bind_shared; intros a st' Hr
  end.

(** The part of a method that only the normal run executes keeps [R]. *)
Ltac tail :=
  lazymatch goal with
  | |- ?R ?st (snd (?m ?st)) =>
      let H := fresh in
      assert (H : preserves R m) by frame; exact (H st)
  end.

(** The last part of a method: shared steps up to the check-mode test. *)
Ltac guard_tail :=
  repeat shared; apply dw_guard; [assumption|frame|unfold quiet; tail].

Lemma present_account_dw st :
  dry_wet unfound (present_account true st) (present_account false st).
Proof.
  unfold present_account. cbv beta iota zeta.
  shared. shared. destruct (truthy a0) eqn:Ht; [apply dw_refl|].
  repeat shared.
  apply dw_guard; [assumption|frame|split; [exact Ht|tail]].
Qed.

Lemma absent_account_dw st :
  dry_wet quiet (absent_account true st) (absent_account false st).
Proof.
  unfold absent_account. cbv beta iota zeta.
  shared. destruct (negb (truthy a)); [apply dw_refl|]. guard_tail.
Qed.

Lemma create_cluster_dw st :
  dry_wet quiet (_create_cluster true st) (_create_cluster false st).
Proof. unfold _create_cluster. cbv beta iota zeta. guard_tail. Qed.

Lemma update_cluster_dw st :
  dry_wet quiet (_update_cluster true st) (_update_cluster false st).
Proof.
  unfold _update_cluster. cbv beta iota zeta.
  repeat shared. destruct a1; [|apply dw_refl]. guard_tail.
Qed.

Lemma present_cluster_dw st :
  dry_wet quiet (present_cluster true st) (present_cluster false st).
Proof.
  unfold present_cluster. shared.
  destruct (truthy a); [apply update_cluster_dw|apply create_cluster_dw].
Qed.

Lemma absent_cluster_dw st :
  dry_wet quiet (absent_cluster true st) (absent_cluster false st).
Proof.
  unfold absent_cluster. cbv beta iota zeta.
  shared. destruct (negb (truthy a)); [apply dw_refl|]. guard_tail.
Qed.

Lemma present_nic_dw st :
  dry_wet quiet (present_nic true st) (present_nic false st).
Proof.
  unfold present_nic. cbv beta iota zeta.
  shared. shared. destruct (truthy a0); [apply dw_refl|]. guard_tail.
Qed.

Lemma absent_nic_dw st :
  dry_wet quiet (absent_nic true st) (absent_nic false st).
Proof.
  unfold absent_nic. cbv beta iota zeta.
  shared. shared. destruct (negb (truthy a0)); [apply dw_refl|]. guard_tail.
Qed.

Lemma process_tags_dw resource resource_type tags operation st :
  dry_wet quiet
    (_process_tags true resource resource_type tags operation st)
    (_process_tags false resource resource_type tags operation st).
Proof.
  unfold _process_tags. cbv beta iota zeta.
  destruct tags; [apply dw_refl|]. guard_tail.
Qed.

Hint Extern 1 (preserves ?R (present_account false)) =>
  apply (preserves_present_account R false); cbn [may_call]; exact _ : frame.
Hint Extern 1 (preserves ?R (enable_account false)) =>
  apply (preserves_enable_account R false); cbn [may_call]; exact _ : frame.
Hint Extern 1 (preserves ?R (_process_tags false _ _ _ _)) =>
  apply (preserves_process_tags R false); cbn [may_call]; exact _ : frame.

Lemma falsy_item a k : truthy a = false -> exists e, item a k = Raised e.
Proof.
  unfold item. destruct a as [| | | | | | | |d]; simpl; eauto.
  destruct d; [eauto|discriminate].
Qed.

Lemma same_attrs_domain s s' :
  same_attrs s s' -> attr "domain" s' = attr "domain" s.
Proof. intros H. unfold attr. now rewrite H. Qed.

Lemma enable_account_dw st :
  dry_wet domain_known (enable_account true st) (enable_account false st).
Proof.
  unfold enable_account. cbv beta iota zeta.
  shared.
  match goal with
  | |- dry_wet ?ok (bind _ ?fD _) (bind _ ?fN _) =>
      assert (Hrest : forall x s, dry_wet ok (fD x s) (fN x s))
  end.
  { intros x s. cbv beta. shared.
    destruct (String.eqb a0 "enabled"); [apply dw_refl|].
    repeat shared.
    apply dw_guard; [assumption|frame|].
    split; [|split].
    - match goal with
      | H : get_domain _ _ = (Ok ?v, ?s') |- _ =>
          exists v; exact (get_domain_again _ _ _ _ s' H eq_refl)
      end.
    - tail.
    - apply same_attrs_domain. tail. }
  destruct (truthy a) eqn:Ht.
  - apply dw_bind_shared. intros x s _. apply Hrest.
  - apply (dw_bind unfound);
      [apply present_account_dw|exact Hrest| |intros x; frame].
    intros x sD rN [Hf _] Hc. cbv beta.
    destruct (falsy_item x "state" Hf) as [e He].
    unfold bind, lift. rewrite He. simpl. split; [reflexivity|discriminate].
Qed.

(** After the account is enabled, the rest of [lock_or_disable_account]
    in normal mode makes no list query when the domain is at hand. *)
Lemma disable_tail_quiet lock account v sD sN :
  get_domain (VStr "id") sD = (Ok v, sD) ->
  attr "domain" sN = attr "domain" sD ->
  no_lookup sN
    (snd ((st <- lift (obind (item account "state") lower_of) ;;
           if String.eqb st (if lock : bool then "locked" else "disabled")
           then ret account
           else
             set_changed ;;;
             id <- lift (item account "id") ;;
             domainid <- get_domain (VStr "id") ;;
             account <- cs "disableAccount"
               [("id", id); ("account", param "name");
                ("domainid", domainid); ("lock", VBool lock)] ;;
             fail_on_errortext account ;;;
             if truthy (param "poll_async")
             then poll_job account (VStr "account")
             else ret account) sN)).
Proof.
  intros Hv Hattr.
  unfold bind at 1, lift at 1.
  destruct (obind (item account "state") lower_of) as [s0| | |];
    try apply frame_refl.
  destruct (String.eqb s0 _); [apply frame_refl|].
  unfold bind at 1, set_changed.
  unfold bind at 1, lift at 1.
  destruct (item account "id") as [i| | |]; try apply frame_changed.
  unfold bind at 1.
  rewrite (get_domain_again _ _ _ _ (mark_changed sN) Hv Hattr).
  eapply frame_trans; [apply frame_changed|]. tail.
Qed.

Lemma lock_or_disable_account_dw lock st :
  dry_wet quiet
    (lock_or_disable_account true lock st)
    (lock_or_disable_account false lock st).
Proof.
  unfold lock_or_disable_account. cbv beta iota zeta.
  shared.
  match goal with
  | |- dry_wet ?ok (bind _ ?KD _) (bind _ ?KN _) =>
      assert (HK : forall x s, dry_wet ok (KD x s) (KN x s))
  end.
  { intros x s. cbv beta. destruct lock.
    - apply (dw_bind domain_known).
      + shared. destruct (String.eqb a0 "disabled");
          [apply enable_account_dw|apply dw_refl].
      + intros y s'. cbv beta. shared.
        destruct (String.eqb _ _); [apply dw_refl|guard_tail].
      + intros y sD rN ([v Hv] & Hq & Hattr) Hc. cbv beta. split.
        * unfold bind at 1, lift at 1.
          destruct (obind (item y "state") lower_of) as [s0| | |];
            try reflexivity.
          destruct (String.eqb s0 "locked"); [reflexivity|].
          unfold bind at 1, set_changed. rewrite (mark_changed_id _ Hc).
          unfold bind at 1, lift at 1.
          destruct (item y "id") as [i| | |]; try reflexivity.
          unfold bind at 1. now rewrite Hv.
        * intros b _. unfold quiet.
          destruct rN as [[a'| | |] sN]; simpl in *; try exact Hq.
          eapply frame_trans; [exact Hq|].
          exact (disable_tail_quiet true a' v sD sN Hv Hattr).
      + intros y. frame.
    - apply dw_bind_shared. intros y s' _. shared.
      destruct (String.eqb _ _); [apply dw_refl|guard_tail]. }
  destruct (truthy a) eqn:Ht.
  - apply dw_bind_shared. intros x s _. apply HK.
  - apply (dw_bind unfound);
      [apply present_account_dw|exact HK| |intros x; frame].
    intros x sD rN [Hf _] Hc. cbv beta.
    destruct (falsy_item x "state" Hf) as [e He].
    destruct lock; unfold bind, lift, ret; rewrite He; simpl;
      (split; [reflexivity|discriminate]).
Qed.

Lemma process_tags_dry_stays resource resource_type tags operation s :
  changed s = true ->
  _process_tags true resource resource_type tags operation s = (Ok tt, s).
Proof.
  intros Hc. unfold _process_tags. destruct tags; [reflexivity|].
  unfold bind, set_changed, ret. now rewrite (mark_changed_id _ Hc).
Qed.

Lemma process_tags_quiet resource resource_type tags operation :
  preserves no_lookup
    (_process_tags false resource resource_type tags operation).
Proof. unfold _process_tags. frame. Qed.

Lemma ensure_tags_dw resource resource_type st :
  dry_wet quiet
    (ensure_tags true resource resource_type st)
    (ensure_tags false resource resource_type st).
Proof.
  unfold ensure_tags.
  destruct (negb (truthy resource_type) || negb (truthy resource));
    [apply dw_refl|].
  shared. destruct a; [|apply dw_refl]. cbv zeta.
  assert (Hmain : forall tags,
    dry_wet quiet
      ((to_remove <- lift (_tags_that_should_not_exist resource tags) ;;
        _process_tags true resource resource_type to_remove "delete" ;;;
        to_add <- lift (_tags_that_should_exist_or_be_updated resource tags) ;;
        _process_tags true resource resource_type to_add "create" ;;;
        lift (py_setitem resource "tags" tags)) st0)
      ((to_remove <- lift (_tags_that_should_not_exist resource tags) ;;
        _process_tags false resource resource_type to_remove "delete" ;;;
        to_add <- lift (_tags_that_should_exist_or_be_updated resource tags) ;;
        _process_tags false resource resource_type to_add "create" ;;;
        lift (py_setitem resource "tags" tags)) st0)).
  { intros tags. shared.
    apply (dw_bind quiet); [apply process_tags_dw| | |intros x; frame].
    - intros [] s. cbv beta. shared.
      apply (dw_bind quiet);
        [apply process_tags_dw|intros; apply dw_refl| |intros x; frame].
      intros [] sD rN Hq Hc. split; [reflexivity|]. intros b _.
      unfold quiet in *. destruct rN as [[[]| | |] sN]; exact Hq.
    - intros [] sD rN Hq Hc. cbv beta. split.
      + unfold bind at 1, lift at 1.
        destruct (_tags_that_should_exist_or_be_updated resource tags);
          try reflexivity.
        unfold bind at 1. now rewrite (process_tags_dry_stays _ _ _ _ _ Hc).
      + intros b _. unfold quiet in *.
        destruct rN as [[[]| | |] sN]; simpl in *; try exact Hq.
        eapply frame_trans; [exact Hq|].
        pose proof process_tags_quiet. tail. }
  destruct (param "tags"); try apply Hmain. apply dw_refl.
Qed.

Lemma unfound_quiet a d w : unfound a d w -> quiet a d w.
Proof. now intros [_ H]. Qed.

Lemma domain_known_quiet a d w : domain_known a d w -> quiet a d w.
Proof. now intros (_ & H & _). Qed.

Lemma Account_main_dw st :
  dry_wet quiet (Account_main true st) (Account_main false st).
Proof.
  unfold Account_main, disable_account, lock_account. cbv zeta.
  destruct (py_eq _ _); [apply absent_account_dw|].
  destruct (existsb _ _).
  { eapply dw_weaken; [apply domain_known_quiet|apply enable_account_dw]. }
  destruct (py_eq _ _); [apply lock_or_disable_account_dw|].
  destruct (py_eq _ _); [apply lock_or_disable_account_dw|].
  eapply dw_weaken; [apply unfound_quiet|apply present_account_dw].
Qed.

Lemma Cluster_main_dw st :
  dry_wet quiet (Cluster_main true st) (Cluster_main false st).
Proof.
  unfold Cluster_main.
  destruct (py_eq _ _); [apply absent_cluster_dw|apply present_cluster_dw].
Qed.

Lemma Nic_main_dw st :
  dry_wet quiet (Nic_main true st) (Nic_main false st).
Proof.
  unfold Nic_main. shared.
  destruct (py_eq _ _); [apply absent_nic_dw|apply present_nic_dw].
Qed.

Lemma preserves_Account_main R `{!Frame R} `{!FrameAttr R}
    `{!FrameLookup R} :
  preserves R (Account_main true).
Proof.
  pose proof (preserves_absent_account R true I).
  pose proof (preserves_enable_account R true I).
  pose proof (preserves_lock_or_disable_account R true true I).
  pose proof (preserves_lock_or_disable_account R true false I).
  pose proof (preserves_present_account R true I).
  unfold Account_main, disable_account, lock_account. frame.
Qed.

Lemma preserves_Cluster_main R `{!Frame R} `{!FrameAttr R}
    `{!FrameLookup R} `{!FrameDiff R} :
  preserves R (Cluster_main true).
Proof.
  pose proof (preserves_absent_cluster R true I).
  pose proof (preserves_present_cluster R true I).
  unfold Cluster_main. frame.
Qed.

Lemma preserves_Nic_main R `{!Frame R} `{!FrameAttr R}
    `{!FrameLookup R} :
  preserves R (Nic_main true).
Proof.
  pose proof (preserves_absent_nic R true I).
  pose proof (preserves_present_nic R true I).
  unfold Nic_main, Nic_init. frame.
Qed.

(** The operations of the three modules, each as a function of the check
    mode: the five account operations, the two cluster and the two NIC
    operations, tag reconciliation for a resource, and the three
    dispatchers on [state]. *)
Definition operations (resource resource_type : value)
  : list (bool -> M value) :=
  [present_account; absent_account; enable_account; disable_account;
   lock_account; present_cluster; absent_cluster; present_nic; absent_nic;
   (fun check_mode => ensure_tags check_mode resource resource_type);
   Account_main; Cluster_main; Nic_main].

(** A call that is a list query and so neither a mutating command nor a
    status query of a job. *)
Definition harmless (c : call) : Prop :=
  is_lookup c = true /\ is_mutation c = false /\ is_job_poll c = false.

Lemma only_lookups_harmless st st' :
  only_lookups st st' ->
  exists l, trace st' = (trace st ++ l)%list /\ Forall harmless l.
Proof.
  intros (l & Hl & Hf). exists l. split; [exact Hl|].
  apply List.Forall_forall. intros c Hc.
  assert (H : is_lookup c = true)
    by (rewrite forallb_forall in Hf; now apply Hf).
  split; [exact H|now apply lookup_not_mutation].
Qed.

Lemma operations_dry_wet resource resource_type op :
  In op (operations resource resource_type) ->
  preserves only_lookups (op true)
  /\ forall st, dry_wet quiet (op true st) (op false st).
Proof.
  intros Hin. simpl in Hin.
  repeat (destruct Hin as [<-|Hin]); [..|destruct Hin]; split.
  - apply (preserves_present_account only_lookups true I).
  - intros st. eapply dw_weaken; [apply unfound_quiet|].
    apply present_account_dw.
  - apply (preserves_absent_account only_lookups true I).
  - apply absent_account_dw.
  - apply (preserves_enable_account only_lookups true I).
  - intros st. eapply dw_weaken; [apply domain_known_quiet|].
    apply enable_account_dw.
  - apply (preserves_lock_or_disable_account only_lookups true false I).
  - apply lock_or_disable_account_dw.
  - apply (preserves_lock_or_disable_account only_lookups true true I).
  - apply lock_or_disable_account_dw.
  - apply (preserves_present_cluster only_lookups true I).
  - apply present_cluster_dw.
  - apply (preserves_absent_cluster only_lookups true I).
  - apply absent_cluster_dw.
  - apply (preserves_present_nic only_lookups true I).
  - apply present_nic_dw.
  - apply (preserves_absent_nic only_lookups true I).
  - apply absent_nic_dw.
  - apply (preserves_ensure_tags only_lookups true _ _ I).
  - apply ensure_tags_dw.
  - apply (preserves_Account_main only_lookups).
  - apply Account_main_dw.
  - apply (preserves_Cluster_main only_lookups).
  - apply Cluster_main_dw.
  - apply (preserves_Nic_main only_lookups).
  - apply Nic_main_dw.
Qed.


(** * Further properties of the modelled code *)

(** ** Job polling: failure and jobs that never finish *)

(** The error text of a status response that ends the loop with a
    failure. *)
Definition job_error (res : value) : option value :=
  match item res "jobstatus", item res "jobresult" with
  | Ok status, Ok jobresult =>
      if py_ne status (VInt 0) then
        match py_in (VStr "errortext") jobresult with
        | Ok true =>
            match item jobresult "errortext" with
            | Ok e => Some e
            | _ => None
            end
        | _ => None
        end
      else None
  | _, _ => None
  end.

(** The job [jobid] is still pending at each of the next [n] status
    queries made from [st]. *)
Definition pending_for (jobid : value) (n : nat) (st : state) : Prop :=
  forall i, (i < n)%nat ->
    exists r, remote (trace st ++ repeat (status_query jobid) i)
                (status_query jobid) = Reply r
              /\ job_pending r = true.

Lemma pending_for_tail jobid n st :
  pending_for jobid (S n) st ->
  pending_for jobid n (log_call (status_query jobid) st).
Proof.
  intros H i Hi. destruct (H (S i)) as (r & Hr & Hp); [lia|].
  exists r. split; [|exact Hp]. simpl in *. now rewrite <- app_assoc.
Qed.

Lemma poll_loop_after_pending job key jobid n :
  item job "jobid" = Ok jobid ->
  forall f st,
  pending_for jobid n st ->
  poll_loop (n + f) job key st
  = poll_loop f job key (after_queries (status_query jobid) n st).
Proof.
  intros Hid. induction n as [|n IH]; intros f st Hpend.
  - now rewrite after_queries_0.
  - destruct (Hpend 0%nat) as (r & Hr & Hp); [lia|].
    simpl in Hr. rewrite app_nil_r in Hr.
    change (S n + f)%nat with (S (n + f)).
    rewrite (poll_loop_pending (n + f) job key jobid r st Hid Hr Hp).
    rewrite after_queries_S. apply IH. now apply pending_for_tail.
Qed.

Lemma poll_loop_error n job key jobid res e st :
  item job "jobid" = Ok jobid ->
  remote (trace st) (status_query jobid) = Reply res ->
  job_error res = Some e ->
  poll_loop (S n) job key st
  = (Failed "Failed: '%s'" [e], log_call (status_query jobid) st).
Proof.
  intros Hid Hr He. cbn [poll_loop].
  step Hid. step (cs_reply _ _ _ _ Hr).
  unfold job_error in He.
  destruct (item res "jobstatus") as [status| | |] eqn:Hs; try discriminate.
  destruct (item res "jobresult") as [jr| | |] eqn:Hj; try discriminate.
  destruct (py_ne status (VInt 0)) eqn:Hne; try discriminate.
  destruct (py_in (VStr "errortext") jr) as [[|]| | |] eqn:Hin;
    try discriminate.
  destruct (item jr "errortext") as [e'| | |] eqn:Het; try discriminate.
  injection He as ->. mred.
  assert (Hres : py_in (VStr "jobresult") res = Ok true).
  { unfold item, py_getitem in Hj. destruct res; try discriminate.
    simpl. unfold has_key.
    destruct (dict_get "jobresult" d); [reflexivity|discriminate]. }
  step Hres. step Hin. step Het. reflexivity.
Qed.

(** X1: when the job of a response with a [jobid] stays pending for [n]
    status queries and the next query reports a result that carries an
    [errortext], [poll_job] ends the run with the message "Failed: '%s'"
    on that text, after exactly these [n + 1] queries, whatever [key] was
    asked for. *)
Theorem poll_job_reports_error (job key jobid : value) (n : nat)
    (res e : value) (st : state) :
  py_in (VStr "jobid") job = Ok true ->
  item job "jobid" = Ok jobid ->
  pending_for jobid n st ->
  remote (trace st ++ repeat (status_query jobid) n) (status_query jobid)
    = Reply res ->
  job_error res = Some e ->
  (n < fuel)%nat ->
  poll_job job key st
  = (Failed "Failed: '%s'" [e],
     after_queries (status_query jobid) (S n) st).
Proof.
  intros Hin Hid Hpend Hres Herr Hfuel.
  unfold poll_job. rewrite (bind_lift_ok _ _ _ _ Hin).
  replace fuel with (n + S (fuel - S n))%nat by lia.
  rewrite (poll_loop_after_pending job key jobid n Hid _ st Hpend).
  rewrite (poll_loop_error _ job key jobid res e
             (after_queries (status_query jobid) n st) Hid Hres Herr).
  f_equal. unfold after_queries, log_call. simpl. f_equal.
  rewrite <- app_assoc. f_equal. symmetry. apply repeat_cons.
Qed.

(** X2: the loop of [poll_job] has no bound of its own: as long as every
    status query finds the job pending, it goes on asking, so that a run
    given [fuel] turns makes exactly [fuel] queries and has not returned. *)
Theorem poll_job_waits_while_pending (job key jobid : value) (st : state) :
  py_in (VStr "jobid") job = Ok true ->
  item job "jobid" = Ok jobid ->
  pending_for jobid fuel st ->
  poll_job job key st
  = (OutOfFuel, after_queries (status_query jobid) fuel st).
Proof.
  intros Hin Hid Hpend.
  unfold poll_job. rewrite (bind_lift_ok _ _ _ _ Hin).
  replace fuel with (fuel + 0)%nat at 1 by lia.
  now rewrite (poll_loop_after_pending job key jobid fuel Hid _ st Hpend).
Qed.

(** ** Resolvers: a resource is looked up once *)

Lemma get_by_key_truthy key d st v st' :
  truthy key = true ->
  _get_by_key key d st = (Ok v, st') ->
  truthy d = true.
Proof.
  intros Hk H. unfold _get_by_key in H. cbv zeta in H. rewrite Hk in H.
  destruct d as [| | | | | |s|l|dd];
    [| | | | | | |destruct l; [|reflexivity]|destruct dd; [|reflexivity]];
    destruct key; unfold bind, lift, fail_json in H; simpl in H;
    try discriminate H.
  destruct (is_substring _ _); discriminate H.
Qed.

Lemma get_by_key_state key d st o st' :
  _get_by_key key d st = (o, st') -> st' = st.
Proof.
  intros H. destruct (get_by_key_pure key d) as [o' Ho].
  rewrite Ho in H. now injection H as _ <-.
Qed.

(** What a call of [get_domain] that returned leaves behind: the domain
    is cached, or no domain was asked for. *)
Lemma get_domain_settles key st v st' :
  get_domain key st = (Ok v, st') ->
  truthy (attr "domain" st') = true
  \/ (truthy (attr "domain" st') = false
      /\ truthy (if truthy (param "domain") then param "domain"
                 else environ "CLOUDSTACK_DOMAIN") = false).
Proof.
  intros H. unfold get_domain in H. cbv zeta in H. mred_in H.
  destruct (truthy (attr "domain" st)) eqn:Hc.
  - apply get_by_key_state in H. subst st'. now left.
  - destruct (truthy (if truthy (param "domain") then param "domain"
                      else environ "CLOUDSTACK_DOMAIN")) eqn:Hd; mred_in H.
    + unfold bind at 1 in H.
      destruct (cs "listDomains" [("listall", VBool true)] st)
        as [[domains| | |] st1] eqn:Hcs; try discriminate H.
      unfold bind at 1 in H.
      match type of H with
      | context [(if truthy domains then ?m else _) st1] =>
          destruct ((if truthy domains then m else ret None) st1)
            as [[[r|]| | |] st2] eqn:Hloop
      end; mred_in H; try discriminate H.
      injection H as <- <-.
      destruct (truthy domains); [|discriminate Hloop].
      unfold bind at 1 in Hloop. unfold lift at 1 in Hloop.
      destruct (obind (item domains "domain") py_iter) as [ds| | |];
        try discriminate Hloop.
      destruct (domain_loop_run _ _ _ _ _ _ Hloop) as (d & Ht & -> & Hk).
      left. now rewrite attr_set_attr.
    + injection H as <- <-. right. now split.
Qed.

(** X3: a domain is resolved at most once.  After a call of [get_domain]
    that returned, a second call with the same key returns the same value
    and a call with any other key, however it ends, leaves the state as it
    is: no further [listDomains] query is made. *)
Theorem get_domain_resolves_once (key v : value) (st st' : state) :
  get_domain key st = (Ok v, st') ->
  get_domain key st' = (Ok v, st')
  /\ forall key', snd (get_domain key' st') = st'.
Proof.
  intros H. split.
  - now apply (get_domain_again key st v st' st' H).
  - intros key'. destruct (get_domain_settles _ _ _ _ H) as [Ht|[Ht Hd]];
      unfold get_domain; cbv zeta; mred; rewrite Ht.
    + destruct (get_by_key_pure key' (attr "domain" st')) as [o Ho].
      now rewrite Ho.
    + rewrite Hd. reflexivity.
Qed.

(** A loop over candidates that found one: the body accepted it. *)
Lemma for_first_found {A} (body : value -> M (option A))
    (P : value -> A -> state -> state -> Prop) :
  (forall x st o st', body x st = (Ok o, st') ->
     match o with Some r => P x r st st' | None => st' = st end) ->
  forall l st r st',
  for_first body l st = (Ok (Some r), st') ->
  exists x, In x l /\ P x r st st'.
Proof.
  intros Hbody. induction l as [|x l IH]; intros st r st' H; simpl in H.
  - discriminate H.
  - unfold bind at 1 in H.
    destruct (body x st) as [[o| | |] st1] eqn:E; try discriminate H.
    pose proof (Hbody _ _ _ _ E) as Hc.
    destruct o as [r0|].
    + injection H as <- <-. exists x. split; [now left|exact Hc].
    + subst st1. destruct (IH _ _ _ H) as (y & Hy & HP).
      exists y. split; [now right|exact HP].
Qed.

(** X4: a zone is resolved at most once.  After a call of [get_zone] for
    a key that returned, the zone is cached: a second call with that key
    returns the same value and leaves the state as it is, so no further
    [listZones] query is made. *)
Theorem get_zone_resolves_once (key v : value) (st st' : state) :
  truthy key = true ->
  get_zone key st = (Ok v, st') ->
  get_zone key st' = (Ok v, st').
Proof.
  intros Hkey H.
  assert (Hcached : truthy (attr "zone" st') = true
                    /\ forall s, _get_by_key key (attr "zone" st') s = (Ok v, s)).
  { unfold get_zone in H. cbv zeta in H. mred_in H.
    destruct (truthy (attr "zone" st)) eqn:Hc.
    - pose proof (get_by_key_state _ _ _ _ _ H). subst st'.
      split; [exact Hc|]. intros s.
      destruct (get_by_key_pure key (attr "zone" st)) as [o Ho].
      rewrite Ho in H. injection H as ->. apply Ho.
    - unfold bind at 1 in H.
      destruct (cs "listZones" [] st) as [[zones| | |] st1] eqn:Hcs;
        try discriminate H.
      destruct (truthy (if truthy (param "zone") then param "zone"
                        else environ "CLOUDSTACK_ZONE")) eqn:Hz; mred_in H.
      + unfold bind at 1 in H.
        match type of H with
        | context [(if truthy zones then ?m else _) st1] =>
            destruct ((if truthy zones then m else ret None) st1)
              as [[[r|]| | |] st2] eqn:Hloop
        end; mred_in H; try discriminate H.
        injection H as <- <-.
        destruct (truthy zones); [|discriminate Hloop].
        unfold bind at 1 in Hloop. unfold lift at 1 in Hloop.
        destruct (obind (item zones "zone") py_iter) as [zs| | |];
          try discriminate Hloop.
        apply (for_first_found _
                 (fun z r s s' => truthy z = true /\ s' = set_attr "zone" z s
                                  /\ forall s0, _get_by_key key z s0 = (Ok r, s0)))
          in Hloop.
        * destruct Hloop as (z & _ & Ht & -> & Hk).
          rewrite attr_set_attr. now split.
        * clear. intros z s o s' Hb.
          destruct (get_by_key_pure key z) as [res Hres].
          destruct (lower_of _) as [zl| | |]; mred_in Hb; try discriminate Hb.
          destruct (obind (item z "name") lower_of) as [n| | |] eqn:Hn;
            mred_in Hb; try discriminate Hb.
          assert (Ht : truthy z = true).
          { destruct (item z "name") eqn:Hi; try discriminate.
            eapply item_truthy; eassumption. }
          destruct (item z "id") as [i| | |]; mred_in Hb; try discriminate Hb.
          destruct (existsb _ _); mred_in Hb.
          -- unfold bind at 1 in Hb. rewrite Hres in Hb.
             destruct res; mred_in Hb; try discriminate Hb.
             injection Hb as <- <-. repeat split; auto.
          -- now injection Hb as <- <-.
      + destruct (obind (item zones "zone") (fun l => py_getitem l (VInt 0)))
          as [z| | |]; mred_in H; try discriminate H.
        pose proof (get_by_key_truthy _ _ _ _ _ Hkey H) as Ht.
        pose proof (get_by_key_state _ _ _ _ _ H). subst st'.
        rewrite attr_set_attr. split; [exact Ht|]. intros s.
        destruct (get_by_key_pure key z) as [o Ho].
        rewrite Ho in H. injection H as ->. apply Ho. }
  destruct Hcached as [Ht Hk].
  unfold get_zone. cbv zeta. mred. rewrite Ht. apply Hk.
Qed.

(** ** Resolvers: which candidate a name selects *)

(** Candidates that the body of a loop passes over do not count. *)
Lemma for_first_skip {A} (body : value -> M (option A)) pre l st :
  Forall (fun x => forall s, body x s = (Ok None, s)) pre ->
  for_first body (pre ++ l)%list st = for_first body l st.
Proof.
  induction 1 as [|x pre Hx _ IH]; [reflexivity|].
  simpl. unfold bind at 1. rewrite Hx. exact IH.
Qed.

(** The test of [get_domain] on the [domain] option and the path of a
    candidate. *)
Definition path_matches (domain path : string) : bool :=
  let dl := lower_string domain in
  existsb (String.eqb (lower_string path))
    [dl; "root/" ++ dl; "root" ++ dl].

(** A candidate with a path that the option does not select. *)
Definition other_domain (domain : string) (d : value) : Prop :=
  exists p, item d "path" = Ok (VStr p) /\ path_matches domain p = false.

Lemma domain_candidate_test domain key d p st :
  item d "path" = Ok (VStr p) ->
  domain_candidate (VStr domain) key d st
  = if path_matches domain p
    then (r <- _get_by_key key d ;; ret (Some r)) (set_attr "domain" d st)
    else (Ok None, st).
Proof.
  intros Hp. unfold domain_candidate. rewrite Hp.
  cbn [obind lower_of]. mred.
  unfold path_matches. cbn [existsb py_eq].
  destruct (_ || _); reflexivity.
Qed.

Definition list_domains : call := ("listDomains", [("listall", VBool true)]).

(** X5: how [get_domain] selects.  With no domain cached and the option
    [domain] set, the candidates of the [listDomains] response are tried in
    order; one is selected when its path, in lower case, is the option in
    lower case, or that with "root/" or "root" put in front.  The first
    such candidate is cached and answers the call; the candidates after it
    are not looked at. *)
Theorem get_domain_takes_first_match (key : value) (domain path : string)
    (r : dict) (pre post : list value) (d : value) (st : state) :
  truthy (attr "domain" st) = false ->
  param "domain" = VStr domain ->
  domain <> "" ->
  remote (trace st) list_domains = Reply (VDict r) ->
  dict_get "domain" r = Some (VList (pre ++ d :: post)) ->
  Forall (other_domain domain) pre ->
  item d "path" = Ok (VStr path) ->
  path_matches domain path = true ->
  get_domain key st
  = _get_by_key key d (set_attr "domain" d (log_call list_domains st)).
Proof.
  intros Hc Hp Hne Hr Hd Hpre Hpath Hm.
  assert (Ht : truthy (VStr domain) = true).
  { simpl. destruct (String.eqb_spec domain ""); [contradiction|reflexivity]. }
  unfold get_domain. cbv zeta. mred. rewrite Hc, Hp, Ht. cbv iota.
  rewrite Ht. mred.
  step (cs_reply _ _ _ _ Hr).
  rewrite (dict_get_truthy _ _ _ Hd).
  assert (Hds : obind (item (VDict r) "domain") py_iter
                = Ok (pre ++ d :: post)%list).
  { unfold item. simpl. now rewrite Hd. }
  unfold bind at 1. unfold bind at 1. unfold lift at 1. rewrite Hds.
  rewrite for_first_skip.
  - cbn [for_first]. unfold bind at 1.
    rewrite (domain_candidate_test _ _ _ _ _ Hpath), Hm.
    destruct (get_by_key_pure key d) as [o Ho].
    unfold bind at 1. rewrite !Ho. destruct o; reflexivity.
  - eapply Forall_impl; [exact Hpre|].
    intros x (p & Hx & Hn) s.
    now rewrite (domain_candidate_test _ _ _ _ _ Hx), Hn.
Qed.

(** X6: when the option [domain] selects none of the candidates, or the
    [listDomains] response is empty, [get_domain] ends the run with the
    message "Domain '%s' not found" after that one query, and caches
    nothing. *)
Theorem get_domain_not_found (key : value) (domain : string)
    (domains : value) (st : state) :
  truthy (attr "domain" st) = false ->
  param "domain" = VStr domain ->
  domain <> "" ->
  remote (trace st) list_domains = Reply domains ->
  (truthy domains = false
   \/ exists r l, domains = VDict r
                  /\ dict_get "domain" r = Some (VList l)
                  /\ Forall (other_domain domain) l) ->
  get_domain key st
  = (Failed "Domain '%s' not found" [VStr domain], log_call list_domains st).
Proof.
  intros Hc Hp Hne Hr Hnone.
  assert (Ht : truthy (VStr domain) = true).
  { simpl. destruct (String.eqb_spec domain ""); [contradiction|reflexivity]. }
  unfold get_domain. cbv zeta. mred. rewrite Hc, Hp, Ht. cbv iota.
  rewrite Ht. mred.
  step (cs_reply _ _ _ _ Hr).
  destruct Hnone as [Hf|(r & l & -> & Hd & Hall)].
  - rewrite Hf. reflexivity.
  - rewrite (dict_get_truthy _ _ _ Hd).
    assert (Hds : obind (item (VDict r) "domain") py_iter = Ok l).
    { unfold item. simpl. now rewrite Hd. }
    unfold bind at 1. unfold bind at 1. unfold lift at 1. rewrite Hds.
    rewrite <- (app_nil_r l), for_first_skip.
    + reflexivity.
    + eapply Forall_impl; [exact Hall|].
      intros x (p & Hx & Hn) s.
      now rewrite (domain_candidate_test _ _ _ _ _ Hx), Hn.
Qed.

(** ** Diffing: what a verdict means *)

(** X7: [has_changed] works on the wanted fields only.  Under every key
    that is not a key of [want_dict], the current resource and the two
    sides of the diff have the entry they had, however the comparison
    ends. *)
Theorem has_changed_keeps_other_keys (want_dict current_dict : dict)
    (only_keys : value) (before after : dict) (key : string)
    (r : outcome bool) (s : hc_state) :
  ~ In key (map fst want_dict) ->
  has_changed want_dict current_dict only_keys before after = (r, s) ->
  dict_get key (hc_current s) = dict_get key current_dict
  /\ dict_get key (hc_before s) = dict_get key before
  /\ dict_get key (hc_after s) = dict_get key after.
Proof.
  intros Hnot. unfold has_changed.
  destruct (has_changed_loop only_keys want_dict _) as [o s'] eqn:Hloop.
  destruct (has_changed_loop_frame only_keys key want_dict _ _ _ Hnot Hloop)
    as (Hc & Hb & Ha & _).
  destruct o; intros [= <- <-]; auto.
Qed.

Lemma has_changed_item_quiet only k v s r s' :
  has_changed_item only k v s = (r, s') ->
  hc_result s' = false ->
  hc_before s' = hc_before s /\ hc_after s' = hc_after s
  /\ hc_result s = false.
Proof.
  unfold has_changed_item.
  destruct (if truthy only then _ else _) as [[|]| | |];
    try (intros [= <- <-]; auto).
  assert (Hcmp : compare_item k v s = (r, s') ->
                 hc_result s' = false ->
                 hc_before s' = hc_before s /\ hc_after s' = hc_after s
                 /\ hc_result s = false).
  { unfold compare_item.
    destruct (dict_get k (hc_current s)) as [current|].
    - destruct (numeric_kind v) as [nk|].
      + destruct (coerce nk current) as [c| | |]; intros [= <- <-]; auto.
        destruct (py_ne v c); simpl; [discriminate|auto].
      + destruct (existsb (String.eqb k) case_sensitive_keys).
        * destruct (py_encode current) as [e| | |]; intros [= <- <-]; auto.
          destruct (py_ne v e); simpl; [discriminate|auto].
        * destruct (obind _ _) as [[[|] e]| | |]; intros [= <- <-]; auto.
          simpl; discriminate.
    - intros [= <- <-]. simpl. discriminate. }
  destruct v; auto; intros [= <- <-]; auto.
Qed.

Lemma has_changed_loop_quiet only want :
  forall s r s',
  has_changed_loop only want s = (r, s') ->
  hc_result s' = false ->
  hc_before s' = hc_before s /\ hc_after s' = hc_after s
  /\ hc_result s = false.
Proof.
  induction want as [|[k v] want IH]; intros s r s'; simpl.
  - intros [= <- <-]. auto.
  - destruct (has_changed_item only k v s) as [o s1] eqn:Hitem.
    assert (Hq := has_changed_item_quiet _ _ _ _ _ _ Hitem).
    destruct o; try (intros [= <- <-]; exact Hq).
    intros Hloop Hres.
    destruct (IH _ _ _ Hloop Hres) as (Hb & Ha & Hr1).
    destruct (Hq Hr1) as (Hb' & Ha' & Hr0).
    repeat split; congruence.
Qed.

(** X8: a verdict "unchanged" comes with an untouched diff: when
    [has_changed] returns false, both sides of the diff are the ones it
    was given. *)
Theorem has_changed_false_keeps_diff (want_dict current_dict : dict)
    (only_keys : value) (before after : dict) (s : hc_state) :
  has_changed want_dict current_dict only_keys before after = (Ok false, s) ->
  hc_before s = before /\ hc_after s = after.
Proof.
  unfold has_changed.
  destruct (has_changed_loop only_keys want_dict _) as [o s'] eqn:Hloop.
  destruct o; try discriminate. intros [= Hres <-].
  destruct (has_changed_loop_quiet _ _ _ _ _ Hloop Hres) as (Hb & Ha & _).
  now split.
Qed.

(** The spelling of a text field is compared as it is for the keys of
    [case_sensitive_keys], and in lower case for every other key. *)
Definition same_text (key a b : string) : bool :=
  if existsb (String.eqb key) case_sensitive_keys then String.eqb a b
  else String.eqb (lower_string a) (lower_string b).

(** A wanted field that asks for nothing new: it is [None], or a text
    that the current resource has under the same key. *)
Definition satisfied (current_dict : dict) (kv : string * value) : Prop :=
  snd kv = VNone
  \/ exists a b, snd kv = VStr a
                 /\ dict_get (fst kv) current_dict = Some (VStr b)
                 /\ same_text (fst kv) a b = true.

(** The argument [only_keys]: a list of keys, or [None]. *)
Definition keys_arg (only_keys : option (list value)) : value :=
  match only_keys with Some l => VList l | None => VNone end.

Lemma has_changed_item_satisfied only_keys k v s :
  satisfied (hc_current s) (k, v) ->
  has_changed_item (keys_arg only_keys) k v s = (Ok tt, s).
Proof.
  intros Hs. unfold has_changed_item.
  destruct only_keys as [[|x only]|]; cbn [keys_arg truthy py_in];
    try (destruct (existsb (py_eq (VStr k)) (x :: only)); [|reflexivity]);
    (destruct Hs as [Hn|(a & b & Hv & Hcur & Hsame)]; simpl in *;
     [subst v; reflexivity|]);
    subst v; unfold compare_item; rewrite Hcur; cbn [numeric_kind];
    unfold same_text in Hsame;
    destruct (existsb (String.eqb k) case_sensitive_keys);
    cbn [py_encode py_lower obind]; unfold py_ne; cbn [py_eq];
    rewrite Hsame; reflexivity.
Qed.

Lemma has_changed_loop_satisfied only_keys want :
  forall s, Forall (satisfied (hc_current s)) want ->
  has_changed_loop (keys_arg only_keys) want s = (Ok tt, s).
Proof.
  induction want as [|[k v] want IH]; intros s Hs; [reflexivity|].
  apply Forall_cons in Hs as [Hkv Hrest]. simpl.
  rewrite (has_changed_item_satisfied _ _ _ _ Hkv). now apply IH.
Qed.

(** X9: no difference, no change.  When every wanted field is [None] or
    a text that the current resource has under the same key (up to case,
    except for the case-sensitive keys), [has_changed] returns false and
    leaves the current resource and the diff as they were, whether it is
    restricted to a list of keys or not. *)
Theorem has_changed_nothing_to_do (want_dict current_dict : dict)
    (only_keys : option (list value)) (before after : dict) :
  Forall (satisfied current_dict) want_dict ->
  has_changed want_dict current_dict (keys_arg only_keys) before after
  = (Ok false, mkHc current_dict before after false).
Proof.
  intros Hall. unfold has_changed.
  now rewrite (has_changed_loop_satisfied only_keys want_dict
                 (mkHc current_dict before after false) Hall).
Qed.

Lemma has_changed_item_text only key a b s :
  selected only key = true ->
  dict_get key (hc_current s) = Some (VStr b) ->
  has_changed_item only key (VStr a) s
  = (Ok tt, if same_text key a b then s
            else record_diff key (VStr b) (VStr a) s).
Proof.
  intros Hsel Hcur. unfold has_changed_item, selected in *.
  destruct (if truthy only then _ else _) as [[|]| | |]; try discriminate.
  unfold compare_item, same_text. rewrite Hcur. cbn [numeric_kind].
  destruct (existsb (String.eqb key) case_sensitive_keys);
    cbn [py_encode py_lower obind]; unfold py_ne; cbn [py_eq];
    destruct (String.eqb _ _); reflexivity.
Qed.

Lemma has_changed_loop_text only key a b want :
  forall s0 u s',
  NoDup (map fst want) ->
  In (key, VStr a) want ->
  selected only key = true ->
  dict_get key (hc_current s0) = Some (VStr b) ->
  same_text key a b = false ->
  has_changed_loop only want s0 = (Ok u, s') ->
  hc_result s' = true
  /\ dict_get key (hc_before s') = Some (VStr b)
  /\ dict_get key (hc_after s') = Some (VStr a).
Proof.
  induction want as [|[k v] want IH];
    intros s0 u s' Hnd Hin Hsel Hcur Hdiff Hloop; [destruct Hin|].
  simpl in Hloop, Hnd. apply NoDup_cons in Hnd as [Hnotin Hnd'].
  rewrite list_elem_of_In in Hnotin.
  destruct (has_changed_item only k v s0) as [o s1] eqn:Hitem.
  destruct o; try discriminate.
  destruct Hin as [[= -> ->]|Hin].
  - rewrite (has_changed_item_text only key a b s0 Hsel Hcur), Hdiff in Hitem.
    assert (Hs1 : s1 = record_diff key (VStr b) (VStr a) s0) by congruence.
    subst s1.
    destruct (has_changed_loop_frame only key want _ _ _ Hnotin Hloop)
      as (_ & Hb & Ha & Hr).
    rewrite Hb, Ha. simpl. rewrite !dict_get_set_eq. auto.
  - assert (Hne : k <> key).
    { intros ->. apply Hnotin. apply (in_map fst) in Hin. exact Hin. }
    destruct (has_changed_item_frame only key k v s0 _ _ Hne Hitem)
      as (Hc & _).
    apply (IH s1 u s' Hnd' Hin Hsel); [now rewrite Hc|exact Hdiff|exact Hloop].
Qed.

(** X10: a text field that differs is reported.  When [has_changed]
    returns, a wanted text that is let through by [only_keys] and differs
    from the text the current resource has under the same key (compared as
    spelled for the keys of [case_sensitive_keys], in lower case for the
    others) makes the result true and is recorded in the diff, the current
    text before and the wanted text after. *)
Theorem has_changed_reports_text (want_dict current_dict : dict)
    (only_keys : value) (before after : dict) (key a b : string)
    (r : bool) (s : hc_state) :
  NoDup (map fst want_dict) ->
  In (key, VStr a) want_dict ->
  dict_get key current_dict = Some (VStr b) ->
  selected only_keys key = true ->
  same_text key a b = false ->
  has_changed want_dict current_dict only_keys before after = (Ok r, s) ->
  r = true
  /\ dict_get key (hc_before s) = Some (VStr b)
  /\ dict_get key (hc_after s) = Some (VStr a).
Proof.
  intros Hnd Hin Hcur Hsel Hdiff. unfold has_changed.
  destruct (has_changed_loop only_keys want_dict _) as [o s'] eqn:Hloop.
  destruct o; try discriminate. intros [= <- <-].
  exact (has_changed_loop_text only_keys key a b want_dict
           (mkHc current_dict before after false) _ _
           Hnd Hin Hsel Hcur Hdiff Hloop).
Qed.

(** ** Tags: the commands of a run *)

(** The command [_process_tags] sends for a batch of tags; none for an
    empty batch. *)
Definition tag_calls (api : string) (id resource_type : value)
    (batch : list value) : list call :=
  match batch with
  | [] => []
  | _ :: _ =>
      [(api, [("resourceids", id); ("resourcetype", resource_type);
              ("tags", VList batch)])]
  end.

Definition nonempty (batch : list value) : bool :=
  match batch with [] => false | _ :: _ => true end.

Lemma process_tags_commands resource resource_type id batch operation st :
  item resource "id" = Ok id ->
  let st' := snd (_process_tags false resource resource_type batch operation
                    st) in
  List.filter is_mutation (trace st')
  = (List.filter is_mutation (trace st)
     ++ tag_calls (if String.eqb operation "create" then "createTags"
                   else "deleteTags") id resource_type batch)%list
  /\ changed st' = changed st || nonempty batch.
Proof.
  intros Hid. unfold _process_tags.
  destruct batch as [|t batch]; cbn [tag_calls nonempty snd].
  - cbn [ret snd]. rewrite app_nil_r, orb_false_r. now split.
  - mred. step Hid. rewrite orb_true_r. split.
    + destruct (String.eqb operation "create");
        (rewrite mutation_then_none; [reflexivity|reflexivity|intros a; frame]).
    + match goal with
      | |- changed (snd (?m (mark_changed st))) = true =>
          assert (Hg : preserves grows m) by
            (destruct (String.eqb operation "create"); frame);
          destruct (Hg (mark_changed st)) as (_ & Hc & _)
      end.
      now apply Hc.
Qed.

(** X11: the commands of [ensure_tags].  In a completed run outside check
    mode, for a resource with tags and a list in the [tags] option, the
    mutating commands sent are [deleteTags] with the tags to remove, when
    there are any, and after it [createTags] with the tags to add, when
    there are any, and no other; the changed flag is set when one of the
    two batches is not empty, and is otherwise as it was. *)
Theorem ensure_tags_removes_then_adds (resource resource_type id : value)
    (tags to_remove to_add : list value) (r : value) (st st' : state) :
  py_in (VStr "tags") resource = Ok true ->
  item resource "id" = Ok id ->
  param "tags" = VList tags ->
  _tags_that_should_not_exist resource (VList tags) = Ok to_remove ->
  _tags_that_should_exist_or_be_updated resource (VList tags) = Ok to_add ->
  ensure_tags false resource resource_type st = (Ok r, st') ->
  List.filter is_mutation (trace st')
  = (List.filter is_mutation (trace st)
     ++ tag_calls "deleteTags" id resource_type to_remove
     ++ tag_calls "createTags" id resource_type to_add)%list
  /\ changed st' = changed st || nonempty to_remove || nonempty to_add.
Proof.
  intros Hin Hid Hp Hrem Hadd H. unfold ensure_tags in H.
  destruct (negb (truthy resource_type) || negb (truthy resource));
    [discriminate H|].
  rewrite (bind_lift_ok _ _ _ _ Hin), Hp in H.
  rewrite (bind_lift_ok _ _ _ _ Hrem) in H.
  unfold bind at 1 in H.
  pose proof (process_tags_commands resource resource_type id to_remove
                "delete" st Hid) as Hdel.
  destruct (_process_tags false resource resource_type to_remove "delete" st)
    as [[u| | |] st1]; try discriminate H.
  rewrite (bind_lift_ok _ _ _ _ Hadd) in H.
  unfold bind at 1 in H.
  pose proof (process_tags_commands resource resource_type id to_add
                "create" st1 Hid) as Hcre.
  destruct (_process_tags false resource resource_type to_add "create" st1)
    as [[u'| | |] st2]; try discriminate H.
  unfold lift in H. injection H as _ <-.
  cbn [snd String.eqb Ascii.eqb Bool.eqb] in Hdel, Hcre.
  destruct Hdel as [Hd1 Hd2], Hcre as [Hc1 Hc2].
  rewrite Hc1, Hd1, Hc2, Hd2. split; [now rewrite <- app_assoc|reflexivity].
Qed.

(** ** Accounts: states reached, parameters checked, commands never sent *)

(** X12: an account that is already in the wanted state is left alone.
    When the lookup finds the account in state [enabled], [disabled] or
    [locked] (in any spelling of upper and lower case), the operation for
    that state returns the account in the state the lookup ended in: the
    changed flag is not set and no command is sent, in check mode and
    outside it. *)
Theorem account_already_in_state (c : bool) (account : value) (s : string)
    (st st1 : state) :
  Account_get_account st = (Ok account, st1) ->
  obind (item account "state") lower_of = Ok s ->
  (s = "enabled" -> enable_account c st = (Ok account, st1))
  /\ (s = "disabled" -> disable_account c st = (Ok account, st1))
  /\ (s = "locked" -> lock_account c st = (Ok account, st1)).
Proof.
  intros Hacc Hstate.
  assert (Ht : truthy account = true).
  { destruct (item account "state") eqn:E; try discriminate.
    eapply item_truthy; eassumption. }
  repeat split; intros ->;
    unfold enable_account, disable_account, lock_account,
      lock_or_disable_account;
    step Hacc; rewrite Ht; mred;
    unfold bind, lift, ret;
    repeat (rewrite Hstate; cbv beta iota;
            cbn [String.eqb Ascii.eqb Bool.eqb]);
    reflexivity.
Qed.

(** X13: [present_account] checks its parameters before anything else.
    When one of [email], [username], [password], [first_name] and
    [last_name] is missing or empty, the run ends with "missing required
    arguments: %s" on the missing names, in this order and joined by
    commas, in the state it started from: the account is not looked up,
    whether it exists or not. *)
Theorem present_account_checks_parameters (c : bool) (m : string)
    (ms : list string) (st : state) :
  List.filter (fun k => negb (truthy (param k)))
    ["email"; "username"; "password"; "first_name"; "last_name"] = m :: ms ->
  present_account c st
  = (Failed "missing required arguments: %s"
       [VStr (String.concat "," (m :: ms))], st).
Proof.
  intros H. unfold present_account, fail_on_missing_params.
  cbv zeta. rewrite H. reflexivity.
Qed.

(** No command [api] was added to the trace. *)
Definition never_calls (api : string) (st st' : state) : Prop :=
  exists l, trace st' = (trace st ++ l)%list
            /\ Forall (fun c : call => fst c <> api) l.

Instance never_calls_frame api : Frame (never_calls api).
Proof.
  split.
  - intros st. exists []. split; [now rewrite app_nil_r|constructor].
  - intros a b c (l & Hl & Hf) (l' & Hl' & Hf'). exists (l ++ l')%list. split.
    + now rewrite Hl', Hl, app_assoc.
    + apply Forall_app. now split.
  - intros st. exists []. split; [simpl; now rewrite app_nil_r|constructor].
Qed.

Instance never_calls_attr api : FrameAttr (never_calls api).
Proof.
  intros name v st. exists [].
  split; [simpl; now rewrite app_nil_r|constructor].
Qed.

Lemma never_calls_log api c st :
  fst c <> api -> never_calls api st (log_call c st).
Proof.
  intros H. exists [c]. split; [reflexivity|]. now repeat constructor.
Qed.

Instance never_enable_lookup : FrameLookup (never_calls "enableAccount").
Proof.
  intros c st H. apply never_calls_log. intros E.
  unfold is_lookup in H. rewrite E in H. discriminate H.
Qed.

Instance never_enable_poll : FramePoll (never_calls "enableAccount").
Proof.
  intros c st H. apply never_calls_log. intros E.
  unfold is_job_poll in H. rewrite E in H. discriminate H.
Qed.

Lemma preserves_cs_never api api' args :
  api' <> api -> preserves (never_calls api) (cs api' args).
Proof.
  intros H st. unfold cs.
  destruct (remote (trace st) (api', args)); simpl;
    now apply never_calls_log.
Qed.

Ltac frame_commands :=
  frame; try (apply preserves_cs_never; discriminate).

(** X14: only [lock_account] and [enable_account] ever send
    [enableAccount].  The operations for the states [present], [absent] and
    [disabled] add no [enableAccount] command to the trace, in either mode
    and however they end. *)
Theorem enable_command_is_not_sent (c : bool) :
  preserves (never_calls "enableAccount") (present_account c)
  /\ preserves (never_calls "enableAccount") (absent_account c)
  /\ preserves (never_calls "enableAccount") (disable_account c).
Proof.
  assert (Hp : preserves (never_calls "enableAccount") (present_account c)).
  { unfold present_account. frame_commands. }
  split; [exact Hp|]. split.
  - unfold absent_account. frame_commands.
  - unfold disable_account, lock_or_disable_account. cbv beta iota zeta.
    frame_commands; exact Hp.
Qed.

(** ** Clusters: what is sent, and when a cluster counts as changed *)

(** Every call added to the trace satisfies [P]. *)
Definition every_new_call (P : call -> Prop) (st st' : state) : Prop :=
  exists l, trace st' = (trace st ++ l)%list /\ Forall P l.

Instance every_new_call_frame P : Frame (every_new_call P).
Proof.
  split.
  - intros st. exists []. split; [now rewrite app_nil_r|constructor].
  - intros a b c (l & Hl & Hf) (l' & Hl' & Hf'). exists (l ++ l')%list. split.
    + now rewrite Hl', Hl, app_assoc.
    + apply Forall_app. now split.
  - intros st. exists []. split; [simpl; now rewrite app_nil_r|constructor].
Qed.

Instance every_new_call_attr P : FrameAttr (every_new_call P).
Proof.
  intros name v st. exists [].
  split; [simpl; now rewrite app_nil_r|constructor].
Qed.

Lemma preserves_cs_new P api args :
  P (api, args) -> preserves (every_new_call P) (cs api args).
Proof.
  intros H st. unfold cs.
  destruct (remote (trace st) (api, args)); simpl;
    (exists [(api, args)]; split; [reflexivity|];
     apply Forall_cons; split; [exact H|constructor]).
Qed.

(** The two switch arguments of an [addCluster] command: no
    [publicvswitchname], and the option [public_vswitch_type] as
    [publicvswitchtype]. *)
Definition public_switch_args (c : call) : Prop :=
  fst c = "addCluster" ->
  dict_get "publicvswitchname" (snd c) = None
  /\ dict_get "publicvswitchtype" (snd c)
     = Some (param "public_vswitch_type").

Instance public_switch_lookup : FrameLookup (every_new_call public_switch_args).
Proof.
  intros c st H. exists [c]. split; [reflexivity|].
  apply Forall_cons. split; [|constructor]. intros E.
  unfold is_lookup in H. rewrite E in H. discriminate H.
Qed.

(** X15: the option [public_vswitch_name] never reaches the platform.
    Every [addCluster] command that [_create_cluster] sends carries the
    option [public_vswitch_type] under [publicvswitchtype] and has no
    argument [publicvswitchname]: the name is stored under the key of the
    type and overwritten by it. *)
Theorem create_cluster_drops_public_switch_name (c : bool) (st : state) :
  exists l,
    trace (snd (_create_cluster c st)) = (trace st ++ l)%list
    /\ forall args, In ("addCluster", args) l ->
         dict_get "publicvswitchname" args = None
         /\ dict_get "publicvswitchtype" args
            = Some (param "public_vswitch_type").
Proof.
  assert (H : preserves (every_new_call public_switch_args)
                (_create_cluster c)).
  { unfold _create_cluster. frame.
    apply preserves_cs_new. unfold public_switch_args. intros _. cbn [snd].
    unfold _get_common_cluster_args.
    destruct (param "state") as [| | | | | |state| |];
      try destruct (existsb (String.eqb state) ["enabled"; "disabled"]);
      split; reflexivity. }
  destruct (H st) as (l & Hl & Hall). exists l. split; [exact Hl|].
  intros args Hin. rewrite Forall_forall in Hall.
  apply list_elem_of_In in Hin. apply (Hall _ Hin). reflexivity.
Qed.

Lemma get_cluster_cached cluster st :
  truthy cluster = true ->
  get_cluster (set_attr "cluster" cluster st)
  = (Ok cluster, set_attr "cluster" cluster st).
Proof.
  intros Ht. unfold get_cluster. mred. now rewrite attr_set_attr, Ht.
Qed.

Definition list_clusters_by_name : call :=
  ("listClusters", [("name", param "name")]).

(** The cluster the lookup by name caches: the platform's, with its
    hypervisor type and name repeated under the keys of the options. *)
Definition named_cluster (d : dict) (h n : value) : dict :=
  dict_set "clustername" n (dict_set "hypervisor" h d).

Lemma get_cluster_by_name d r rest h n st :
  truthy (attr "cluster" st) = false ->
  truthy (param "id") = false ->
  remote (trace st) list_clusters_by_name = Reply (VDict r) ->
  dict_get "cluster" r = Some (VList (VDict d :: rest)) ->
  dict_get "hypervisortype" d = Some h ->
  dict_get "name" d = Some n ->
  exists st1,
    get_cluster st
    = (Ok (VDict (named_cluster d h n)),
       set_attr "cluster" (VDict (named_cluster d h n)) st1)
    /\ trace st1 = (trace st ++ [list_clusters_by_name])%list
    /\ changed st1 = changed st
    /\ diff_before st1 = diff_before st /\ diff_after st1 = diff_after st.
Proof.
  intros Hc Hid Hr Hl Hh Hn. unfold get_cluster. mred. rewrite Hc. cbv zeta.
  rewrite Hid. mred. cbn [app].
  unfold bind at 1. unfold bind at 1.
  unfold list_clusters_by_name in Hr. rewrite (cs_reply _ _ _ _ Hr).
  rewrite (dict_get_truthy _ _ _ Hl).
  step (first_of_list _ _ _ _ Hl).
  assert (Hh' : item (VDict d) "hypervisortype" = Ok h).
  { unfold item. simpl. now rewrite Hh. }
  step Hh'. cbn [py_setitem]. mred.
  assert (Hn' : item (VDict (dict_set "hypervisor" h d)) "name" = Ok n).
  { unfold item. simpl. rewrite dict_get_set_ne by discriminate.
    now rewrite Hn. }
  step Hn'. cbn [py_setitem]. mred.
  eexists. split.
  - unfold named_cluster, self_get. rewrite attr_set_attr. reflexivity.
  - simpl. auto.
Qed.

Lemma Forall_dict_set (P : string * value -> Prop) k v d :
  Forall P d -> P (k, v) -> Forall P (dict_set k v d).
Proof.
  intros Hd Hkv. induction Hd as [|[k' v'] d Hx Hd IH]; simpl.
  - now repeat constructor.
  - destruct (String.eqb k k'); constructor; auto.
Qed.

(** X17: a cluster found by its name that has what the options ask for is
    left alone.  With no [id] option, when the first cluster of the
    response, with its hypervisor type and name repeated under
    [hypervisor] and [clustername], has every common option that is set
    (compared as texts in lower case), a run for [state=present] returns
    that cluster after the one [listClusters] query, with the changed flag
    and the diff as they were. *)
Theorem cluster_found_by_name_is_kept (c : bool) (d r : dict)
    (rest : list value) (h n : value) (id : string) (st : state) :
  truthy (attr "cluster" st) = false ->
  truthy (param "id") = false ->
  remote (trace st) list_clusters_by_name = Reply (VDict r) ->
  dict_get "cluster" r = Some (VList (VDict d :: rest)) ->
  dict_get "hypervisortype" d = Some h ->
  dict_get "name" d = Some n ->
  dict_get "id" d = Some (VStr id) ->
  Forall (satisfied (named_cluster d h n)) _get_common_cluster_args ->
  let st' := snd (present_cluster c st) in
  fst (present_cluster c st) = Ok (VDict (named_cluster d h n))
  /\ trace st' = (trace st ++ [list_clusters_by_name])%list
  /\ changed st' = changed st
  /\ diff_before st' = diff_before st /\ diff_after st' = diff_after st.
Proof.
  intros Hc Hid Hr Hl Hh Hn Hi Hall.
  destruct (get_cluster_by_name _ _ _ _ _ _ Hc Hid Hr Hl Hh Hn)
    as (st1 & Hget & Htr & Hch & Hb & Ha).
  set (cluster := named_cluster d h n) in *.
  assert (Hid' : dict_get "id" cluster = Some (VStr id)).
  { unfold cluster, named_cluster.
    rewrite !dict_get_set_ne by discriminate. exact Hi. }
  assert (Ht : truthy (VDict cluster) = true)
    by (eapply dict_get_truthy; eauto).
  assert (Hitem : item (VDict cluster) "id" = Ok (VStr id)).
  { unfold item. simpl. now rewrite Hid'. }
  assert (Hargs : Forall (satisfied cluster)
                    (dict_set "id" (VStr id) _get_common_cluster_args)).
  { apply Forall_dict_set; [exact Hall|].
    right. exists id, id. repeat split; [exact Hid'|].
    unfold same_text. simpl. apply String.eqb_refl. }
  assert (Hrun : exists st2,
            present_cluster c st = (Ok (VDict cluster), st2)
            /\ trace st2 = trace st1 /\ changed st2 = changed st1
            /\ diff_before st2 = diff_before st1
            /\ diff_after st2 = diff_after st1).
  { unfold present_cluster.
    rewrite (bind_ok _ _ _ _ _ Hget), Ht.
    unfold _update_cluster. cbv zeta.
    rewrite (bind_ok _ _ _ _ _ (get_cluster_cached _ _ Ht)).
    rewrite (bind_lift_ok _ _ _ _ Hitem).
    unfold bind at 1. unfold has_changed_cluster, has_changed.
    rewrite (has_changed_loop_satisfied None _ (mkHc cluster _ _ false) Hargs).
    mred. eexists. split.
    - f_equal. unfold attr. simpl. now rewrite lookup_insert_eq.
    - simpl. auto. }
  destruct Hrun as (st2 & -> & Htr2 & Hch2 & Hb2 & Ha2).
  cbn [fst snd]. repeat split; congruence.
Qed.

(** ** NICs: errors that are not reported, and runs that always change *)

Definition list_nics (vmid networkid : value) : call :=
  ("listNics", [("virtualmachineid", vmid); ("networkdid", networkid)]).

(** X18: a NIC that is not found is not reported as such.  When the
    [listNics] response is empty, [get_nic] resolves the names of the VM
    and of the network for its message and then raises a [TypeError],
    because the message text is applied as a function: the run does not end
    with [fail_json]. *)
Theorem get_nic_not_found_raises (vmid networkid nics vmname networkname : value)
    (st st1 st2 st3 st4 : state) :
  truthy (attr "nic" st) = false ->
  nic_get_vm (VStr "id") st = (Ok vmid, st1) ->
  nic_get_network (VStr "id") st1 = (Ok networkid, st2) ->
  remote (trace st2) (list_nics vmid networkid) = Reply nics ->
  truthy nics = false ->
  nic_get_vm (VStr "name") (log_call (list_nics vmid networkid) st2)
    = (Ok vmname, st3) ->
  nic_get_network (VStr "name") st3 = (Ok networkname, st4) ->
  get_nic st = (Raised TypeError, st4).
Proof.
  intros Hc Hvm Hnet Hr Hf Hvn Hnn. unfold get_nic. mred. rewrite Hc.
  step Hvm. step Hnet. step (cs_reply _ _ _ _ Hr). rewrite Hf.
  step Hvn. step Hnn. reflexivity.
Qed.

(** X19: the error of a failed removal is read from the wrong place.
    Outside check mode, when the response to [removeIpFromNic] carries an
    [errortext], [absent_nic] takes the text of its message from the NIC,
    not from the response: with a NIC that has no such entry the run ends
    with a [KeyError], and otherwise with the NIC's text. *)
Theorem absent_nic_reads_error_from_nic (d : dict) (secondary_ip id res : value)
    (st st1 st2 : state) :
  get_nic st = (Ok (VDict d), st1) ->
  get_secondary_ip st1 = (Ok secondary_ip, st2) ->
  truthy secondary_ip = true ->
  item secondary_ip "id" = Ok id ->
  remote (trace st2) ("removeIpFromNic", [("id", id)]) = Reply res ->
  py_in (VStr "errortext") res = Ok true ->
  absent_nic false st
  = (match dict_get "errortext" d with
     | Some e => Failed "Failed: '%s'" [e]
     | None => Raised (KeyError (VStr "errortext"))
     end,
     log_call ("removeIpFromNic", [("id", id)]) (mark_changed st2)).
Proof.
  intros Hnic Hip Ht Hid Hr Herr. unfold absent_nic.
  step Hnic. step Hip. rewrite Ht. mred. step Hid.
  step (cs_reply "removeIpFromNic" _ (mark_changed st2) res Hr).
  step Herr. unfold item. cbn [py_getitem].
  destruct (dict_get "errortext" d); reflexivity.
Qed.

(** The attribute [vm_guest_ip] is as it was. *)
Definition keeps_guest_ip (st st' : state) : Prop :=
  attr "vm_guest_ip" st' = attr "vm_guest_ip" st.

Instance keeps_guest_ip_frame : Frame keeps_guest_ip.
Proof.
  split; unfold keeps_guest_ip.
  - reflexivity.
  - intros a b c H1 H2. congruence.
  - reflexivity.
Qed.

Instance keeps_guest_ip_call : FrameCall keeps_guest_ip.
Proof. intros c st. reflexivity. Qed.

Lemma keeps_guest_ip_set name v :
  name <> "vm_guest_ip" -> preserves keeps_guest_ip (self_set name v).
Proof.
  intros Hne st. unfold keeps_guest_ip, attr. simpl.
  now rewrite lookup_insert_ne.
Qed.

Create HintDb guest_ip.

Ltac frame_guest_ip :=
  cbv zeta;
  repeat first [ frame_step
               | apply keeps_guest_ip_set; discriminate
               | solve [auto with guest_ip] ].

Section GuestIp.

Lemma keeps_get_by_key key d : preserves keeps_guest_ip (_get_by_key key d).
Proof. unfold _get_by_key. frame_guest_ip. Qed.
Hint Resolve keeps_get_by_key : guest_ip.

Lemma keeps_get_domain key : preserves keeps_guest_ip (get_domain key).
Proof. unfold get_domain, domain_candidate. frame_guest_ip. Qed.
Hint Resolve keeps_get_domain : guest_ip.

Lemma keeps_get_account key : preserves keeps_guest_ip (get_account key).
Proof. unfold get_account. frame_guest_ip. Qed.
Hint Resolve keeps_get_account : guest_ip.

Lemma keeps_get_project key : preserves keeps_guest_ip (get_project key).
Proof. unfold get_project. frame_guest_ip. Qed.
Hint Resolve keeps_get_project : guest_ip.

Lemma keeps_get_zone key : preserves keeps_guest_ip (get_zone key).
Proof. unfold get_zone. frame_guest_ip. Qed.
Hint Resolve keeps_get_zone : guest_ip.

Lemma keeps_nic_get_vpc key : preserves keeps_guest_ip (nic_get_vpc key).
Proof. unfold nic_get_vpc, vpc_lookup. frame_guest_ip. Qed.
Hint Resolve keeps_nic_get_vpc : guest_ip.

Lemma keeps_nic_get_network key :
  preserves keeps_guest_ip (nic_get_network key).
Proof. unfold nic_get_network. frame_guest_ip. Qed.
Hint Resolve keeps_nic_get_network : guest_ip.

Lemma keeps_nic_get_vm key : preserves keeps_guest_ip (nic_get_vm key).
Proof. unfold nic_get_vm, vm_candidate. frame_guest_ip. Qed.
Hint Resolve keeps_nic_get_vm : guest_ip.

Lemma keeps_get_nic : preserves keeps_guest_ip get_nic.
Proof. unfold get_nic. frame_guest_ip. Qed.

End GuestIp.

(** X20: without a guest IP, [present_nic] changes the NIC every time.
    When the option [vm_guest_ip] is not set, a run of the NIC module for
    a state other than [absent] that returns has set the changed flag,
    whatever secondary addresses the NIC already has. *)
Theorem present_nic_without_guest_ip_changes (c : bool) (v : value)
    (st st' : state) :
  truthy (param "vm_guest_ip") = false ->
  py_eq (param "state") (VStr "absent") = false ->
  Nic_main c st = (Ok v, st') ->
  changed st' = true.
Proof.
  intros Hip Hstate H. unfold Nic_main, Nic_init in H. mred_in H.
  rewrite Hstate in H. unfold present_nic in H.
  set (st0 := set_attr "vm_guest_ip" (param "vm_guest_ip") st) in *.
  assert (H0 : truthy (attr "vm_guest_ip" st0) = false).
  { unfold st0. now rewrite attr_set_attr. }
  unfold bind at 1 in H.
  pose proof (keeps_get_nic st0) as K1.
  destruct (get_nic st0) as [[nic| | |] st1]; try discriminate H.
  unfold get_secondary_ip in H. unfold bind at 1 2 in H.
  pose proof (keeps_get_nic st1) as K2.
  destruct (get_nic st1) as [[nic'| | |] st2]; try discriminate H.
  cbn [snd] in K1, K2. unfold keeps_guest_ip in K1, K2.
  mred_in H. rewrite K2, K1, H0 in H. mred_in H. cbn [truthy] in H.
  unfold bind at 1, set_changed in H.
  match type of H with
  | ?m ?s0 = _ =>
      assert (Hg : preserves grows m) by frame;
      specialize (Hg s0); rewrite H in Hg;
      destruct Hg as (_ & Hchanged & _)
  end.
  now apply Hchanged.
Qed.

(** ** The guest address of a VM *)

(** X21: [get_vm_guest_ip] answers with an address of the VM only.  When
    the option [vm_guest_ip] is set and the call returns, it returns the
    option, and the default NIC that [get_vm_default_nic] found lists it
    among its secondary addresses; nothing is changed after that
    lookup. *)
Theorem get_vm_guest_ip_is_assigned (nic v : value) (st st1 st' : state) :
  truthy (param "vm_guest_ip") = true ->
  get_vm_default_nic st = (Ok nic, st1) ->
  get_vm_guest_ip st = (Ok v, st') ->
  st' = st1 /\ v = param "vm_guest_ip"
  /\ exists ips secondary_ip a,
       obind (item nic "secondaryip") py_iter = Ok ips
       /\ In secondary_ip ips
       /\ item secondary_ip "ipaddress" = Ok a
       /\ py_eq (param "vm_guest_ip") a = true.
Proof.
  intros Hip Hnic H. unfold get_vm_guest_ip in H. cbv zeta in H.
  rewrite (bind_ok _ _ _ _ _ Hnic), Hip in H. mred_in H.
  destruct (obind (item nic "secondaryip") py_iter) as [ips| | |];
    mred_in H; try discriminate H.
  unfold bind at 1 in H.
  match type of H with
  | context [for_first ?body ips st1] =>
      destruct (for_first body ips st1) as [[[ip|]| | |] st2] eqn:Hloop
  end; mred_in H; try discriminate H.
  injection H as <- <-.
  apply (for_first_found _
           (fun x r s s' => s' = s /\ r = param "vm_guest_ip"
              /\ exists a, item x "ipaddress" = Ok a
                           /\ py_eq (param "vm_guest_ip") a = true))
    in Hloop.
  - destruct Hloop as (x & Hin & -> & -> & a & Ha & Heq).
    repeat split. exists ips, x, a. auto.
  - clear. intros x s o s' Hb.
    destruct (item x "ipaddress") as [a| | |] eqn:Ha; mred_in Hb;
      try discriminate Hb.
    destruct (py_eq (param "vm_guest_ip") a) eqn:Heq; mred_in Hb;
      injection Hb as <- <-; [|reflexivity].
    repeat split. exists a. auto.
Qed.

(** ** What a module returns *)

Lemma has_key_set k k' v d :
  has_key k (dict_set k' v d) = String.eqb k k' || has_key k d.
Proof.
  unfold has_key. destruct (String.eqb_spec k k') as [->|Hne].
  - now rewrite dict_get_set_eq.
  - rewrite dict_get_set_ne by congruence. reflexivity.
Qed.

(** The loop over a table writes under the return keys of the table
    only. *)
Lemma copy_fields_keys conv t resource :
  forall result out,
  copy_fields conv t resource result = Ok out ->
  forall k, has_key k out = true ->
  has_key k result = true \/ In k (map snd t).
Proof.
  induction t as [|[s r] t IH]; intros result out H k Hk; simpl in H.
  - injection H as <-. now left.
  - destruct (py_in (VStr s) resource) as [[|]| | |]; try discriminate H;
      simpl in H.
    + destruct (obind (item resource s) conv) as [v| | |];
        try discriminate H; simpl in H.
      destruct (IH _ _ H k Hk) as [Hr|Hin]; [|right; now right].
      rewrite has_key_set in Hr. apply orb_true_iff in Hr as [E|Hr].
      * apply String.eqb_eq in E. subst k. right. now left.
      * now left.
    + destruct (IH _ _ H k Hk) as [Hr|Hin]; [now left|right; now right].
Qed.

Lemma copy_fields_other conv t resource k :
  forall result out,
  ~ In k (map snd t) ->
  copy_fields conv t resource result = Ok out ->
  dict_get k out = dict_get k result.
Proof.
  induction t as [|[s r] t IH]; intros result out Hnot H; simpl in H.
  - now injection H as <-.
  - simpl in Hnot.
    destruct (py_in (VStr s) resource) as [[|]| | |]; try discriminate H;
      simpl in H.
    + destruct (obind (item resource s) conv) as [v| | |];
        try discriminate H; simpl in H.
      rewrite (IH _ _ (fun E => Hnot (or_intror E)) H).
      apply dict_get_set_ne. intros E. apply Hnot. now left.
    + apply (IH _ _ (fun E => Hnot (or_intror E)) H).
Qed.

(** With return keys that are all different, a field the resource has
    is in the result under its return key. *)
Lemma copy_fields_value t d s r v :
  forall result out,
  NoDup (map snd t) ->
  In (s, r) t ->
  dict_get s d = Some v ->
  copy_fields Ok t (VDict d) result = Ok out ->
  dict_get r out = Some v.
Proof.
  induction t as [|[s0 r0] t IH]; intros result out Hnd Hin Hs H;
    [destruct Hin|].
  simpl in H, Hnd. apply NoDup_cons in Hnd as [Hnotin Hnd'].
  rewrite list_elem_of_In in Hnotin.
  destruct Hin as [[= -> ->]|Hin].
  - unfold has_key, item in H. simpl in H. rewrite Hs in H. simpl in H.
    rewrite (copy_fields_other _ _ _ _ _ _ Hnotin H).
    apply dict_get_set_eq.
  - unfold has_key, item in H. simpl in H.
    destruct (dict_get s0 d) as [v0|]; simpl in H;
      apply (IH _ _ Hnd' Hin Hs H).
Qed.

Lemma self_result_keys st k :
  has_key k (self_result st) = true -> k = "changed" \/ k = "diff".
Proof.
  unfold has_key. simpl.
  destruct (String.eqb k "changed") eqn:E1;
    [apply String.eqb_eq in E1; now left|].
  destruct (String.eqb k "diff") eqn:E2;
    [apply String.eqb_eq in E2; now right|discriminate].
Qed.

(** The keys of the result of the account module. *)
Definition Account_result_keys : list string :=
  ["changed"; "diff"; "id"; "name"; "created"; "zone"; "state"; "project";
   "account"; "domain"; "display_text"; "display_name"; "description";
   "network_domain"; "tags"; "account_type"].

Definition Account_table : returns_table :=
  returns_update common_returns Account_returns.

(** X22: what the account module returns.  For an account that is a
    dictionary, the result of [get_result] has every field of the account
    that [common_returns] or [returns] names, under the key the table gives
    it, and has no key besides [changed], [diff], the return keys of the
    two tables, [tags] and [account_type]: no other field of the account
    is passed on. *)
Theorem account_result_fields (d : dict) (st : state) (out : dict) :
  Account_get_result (VDict d) (self_result st) = Ok out ->
  (forall s r v, In (s, r) Account_table -> dict_get s d = Some v ->
                 dict_get r out = Some v)
  /\ (forall k, has_key k out = true -> In k Account_result_keys).
Proof using py_int.
  clear py_float py_long py_complex.
  intros H. unfold Account_get_result, get_result in H.
  destruct (truthy (VDict d)) eqn:Ht.
  2:{ simpl in H. injection H as <-. split.
      - intros s r v _ Hs. destruct d; discriminate.
      - intros k Hk.
        destruct (self_result_keys _ _ Hk) as [->| ->];
          [now left|right; now left]. }
  fold Account_table in H.
  destruct (copy_fields Ok Account_table (VDict d) (self_result st))
    as [r1| | |] eqn:H1; try discriminate H.
  cbn [obind copy_fields] in H.
  assert (Hkeys1 : forall k, has_key k r1 = true -> In k Account_result_keys).
  { intros k Hk.
    destruct (copy_fields_keys _ _ _ _ _ H1 k Hk) as [Hr|Hin].
    - destruct (self_result_keys _ _ Hr) as [->| ->];
        [now left|right; now left].
    - vm_compute in Hin. unfold Account_result_keys. simpl. tauto. }
  assert (Hval1 : forall s r v, In (s, r) Account_table ->
            dict_get s d = Some v -> dict_get r r1 = Some v).
  { intros s r v Hin Hs.
    apply (copy_fields_value Account_table d s r v _ _) with (2 := Hin)
      (3 := Hs) (4 := H1).
    vm_compute.
    repeat (apply NoDup_cons_2;
            [rewrite list_elem_of_In; simpl; intuition discriminate|]).
    apply NoDup_nil_2. }
  assert (Hnew : forall s r, In (s, r) Account_table ->
            r <> "tags" /\ r <> "account_type").
  { intros s r Hin. vm_compute in Hin.
    repeat (destruct Hin as [[= <- <-]|Hin]; [split; discriminate|]).
    destruct Hin. }
  assert (Hset : forall k x r2, (k = "tags" \/ k = "account_type") ->
            (forall s r v, In (s, r) Account_table ->
               dict_get s d = Some v -> dict_get r r2 = Some v) ->
            (forall k', has_key k' r2 = true -> In k' Account_result_keys) ->
            (forall s r v, In (s, r) Account_table ->
               dict_get s d = Some v -> dict_get r (dict_set k x r2) = Some v)
            /\ (forall k', has_key k' (dict_set k x r2) = true ->
                  In k' Account_result_keys)).
  { intros k x r2 Hk Hv Hks. split.
    - intros s r v Hin Hs. rewrite dict_get_set_ne; [now apply (Hv s)|].
      destruct (Hnew s r Hin) as [N1 N2]. destruct Hk; congruence.
    - intros k' Hk'. rewrite has_key_set in Hk'.
      apply orb_true_iff in Hk' as [E|Hk']; [|now apply Hks].
      apply String.eqb_eq in E. subst k'.
      unfold Account_result_keys. simpl. destruct Hk; subst; tauto. }
  assert (H2 : exists r2,
            (forall s r v, In (s, r) Account_table ->
               dict_get s d = Some v -> dict_get r r2 = Some v)
            /\ (forall k, has_key k r2 = true -> In k Account_result_keys)
            /\ (obind (py_in (VStr "accounttype") (VDict d)) (fun has_type =>
                if has_type : bool then
                  obind (item (VDict d) "accounttype") (fun t =>
                  match account_types with
                  | VDict items =>
                      match account_type_name items t with
                      | Some key =>
                          Ok (dict_set "account_type" (VStr key) r2)
                      | None => Ok r2
                      end
                  | _ => Raised AttributeError
                  end)
                else Ok r2)) = Ok out).
  { cbn [py_in] in H. destruct (has_key "tags" d); cbn [obind] in H.
    - destruct (obind (item (VDict d) "tags") py_iter) as [ts| | |];
        try discriminate H; cbn [obind] in H.
      destruct (tag_pairs ts) as [l| | |]; try discriminate H;
        cbn [obind] in H.
      eexists. split; [|split; [|exact H]];
        apply (Hset "tags" (VList l) r1); auto.
    - exists r1. auto. }
  destruct H2 as (r2 & Hv2 & Hk2 & H2).
  cbn [py_in obind] in H2.
  destruct (has_key "accounttype" d); [|injection H2 as <-; now split].
  destruct (item (VDict d) "accounttype") as [t| | |]; try discriminate H2.
  cbn [obind account_types] in H2.
  destruct (account_type_name _ t) as [key|]; injection H2 as <-.
  - apply (Hset "account_type" (VStr key) r2); auto.
  - now split.
Qed.

(** X23: the account type comes back under its name.  When the account
    carries as [accounttype] the number that [account_types] gives for a
    name, the result of [get_result] has that name as [account_type]: the
    number [get_account_type] sends for the option is read back as the
    option. *)
Theorem account_type_round_trip (d : dict) (name : string) (number : value)
    (result out : dict) :
  py_getitem account_types (VStr name) = Ok number ->
  dict_get "accounttype" d = Some number ->
  Account_get_result (VDict d) result = Ok out ->
  dict_get "account_type" out = Some (VStr name).
Proof.
  intros Hname Hd H. unfold Account_get_result in H.
  destruct (get_result Account_returns [] (VDict d) result) as [r1| | |];
    try discriminate H.
  cbn [obind py_in] in H.
  rewrite (dict_get_truthy _ _ _ Hd) in H.
  unfold has_key, item in H. cbn [py_getitem] in H. rewrite Hd in H.
  cbn [obind account_types] in H.
  assert (Hn : account_type_name
                 [("user", VInt 0); ("root_admin", VInt 1);
                  ("domain_admin", VInt 2)] number = Some name).
  { unfold account_types in Hname. cbn [py_getitem dict_get] in Hname.
    repeat match type of Hname with
    | context [String.eqb name ?k] =>
        destruct (String.eqb_spec name k) as [->|_];
          [injection Hname as <-; reflexivity|]
    end.
    discriminate Hname. }
  rewrite Hn in H. injection H as <-. apply dict_get_set_eq.
Qed.

(** ** The facts module *)

Lemma preserves_pure {A} (R : state -> state -> Prop) `{!Frame R}
    (f : state -> outcome A) :
  preserves R (fun st => (f st, st)).
Proof. intros st. apply frame_refl. Qed.

(** A call that does not depend on the zone: it is not [listZones] and
    has no argument [zoneid]. *)
Definition zone_free (c : call) : Prop :=
  fst c <> "listZones" /\ dict_get "zoneid" (snd c) = None.

(** X24: the facts module only reads, and it reads across zones.  Every
    call that [run] adds to the trace is a list query, none of them is
    [listZones], and none has an argument [zoneid], however the run
    ends. *)
Theorem facts_run_reads_only (st : state) :
  exists l,
    trace (snd (Facts_run st)) = (trace st ++ l)%list
    /\ forallb is_lookup l = true
    /\ Forall zone_free l.
Proof.
  assert (H1 : preserves only_lookups Facts_run).
  { unfold Facts_run, get_instance. frame. apply preserves_pure; exact _. }
  assert (H2 : preserves (every_new_call zone_free) Facts_run).
  { unfold Facts_run, get_instance, get_project, get_account, get_domain,
      domain_candidate, _get_by_key.
    cbv zeta.
    repeat first [ frame_step
                 | apply preserves_cs_new; split; [discriminate|reflexivity]
                 | apply preserves_pure; exact _ ]. }
  destruct (H1 st) as (l & Hl & Hlook). destruct (H2 st) as (l' & Hl' & Hfree).
  exists l. repeat split; auto.
  rewrite Hl in Hl'. apply app_inv_head in Hl'. now subst l'.
Qed.

(** ** The hypervisor *)


(** ** Default NICs *)

(** A NIC that the loop of the facts module passes over: not a default
    NIC, or one without an address. *)
Definition no_default_ip (nic : value) : Prop :=
  exists d, item nic "isdefault" = Ok d
            /\ (truthy d = false \/ py_in (VStr "ipaddress") nic = Ok false).

(** A default NIC with the address [a]. *)
Definition default_with_ip (nic a : value) : Prop :=
  exists d, item nic "isdefault" = Ok d /\ truthy d = true
            /\ py_in (VStr "ipaddress") nic = Ok true
            /\ item nic "ipaddress" = Ok a.

Lemma default_ip_loop_skips post :
  Forall no_default_ip post ->
  forall result, default_ip_loop post result = Ok result.
Proof.
  induction 1 as [|nic post (d & Hd & Hskip) _ IH]; intros result;
    [reflexivity|].
  simpl. rewrite Hd. cbn [obind].
  destruct Hskip as [Hf|Hno]; [rewrite Hf|rewrite Hno; destruct (truthy d)];
    cbn [obind]; apply IH.
Qed.

Lemma default_ip_loop_last pre nic a post :
  default_with_ip nic a ->
  Forall no_default_ip post ->
  forall result out,
  default_ip_loop (pre ++ nic :: post) result = Ok out ->
  dict_get "default_ip" out = Some a.
Proof.
  intros (d & Hd & Ht & Hin & Ha) Hpost.
  induction pre as [|x pre IH]; intros result out H; simpl in H.
  - rewrite Hd in H. cbn [obind] in H. rewrite Ht, Hin in H.
    cbn [obind] in H. rewrite Ha in H. cbn [obind] in H.
    rewrite (default_ip_loop_skips _ Hpost) in H. injection H as <-.
    apply dict_get_set_eq.
  - destruct (item x "isdefault") as [dx| | |]; try discriminate H.
    cbn [obind] in H.
    destruct (if truthy dx then py_in (VStr "ipaddress") x else Ok false)
      as [[|]| | |]; try discriminate H; cbn [obind] in H.
    + destruct (item x "ipaddress") as [ax| | |]; try discriminate H.
      cbn [obind] in H. apply (IH _ _ H).
    + apply (IH _ _ H).
Qed.

(** X26: the facts module reports the last default NIC.  The loop over
    the NICs of an instance has no [break]: when a default NIC with an
    address is followed only by NICs that are not default or have no
    address, its address is the [default_ip] of the result, whatever
    default NICs come before it. *)
Theorem facts_default_ip_is_last (d result out : dict)
    (pre post : list value) (nic a : value) :
  dict_get "nic" d = Some (VList (pre ++ nic :: post)) ->
  default_with_ip nic a ->
  Forall no_default_ip post ->
  Facts_get_result (VDict d) result = Ok out ->
  dict_get "default_ip" out = Some a.
Proof using py_int.
  clear py_float py_long py_complex.
  intros Hd Hnic Hpost H. unfold Facts_get_result in H.
  destruct (get_result Facts_returns [] (VDict d) result) as [r0| | |];
    try discriminate H.
  cbn [obind] in H. rewrite (dict_get_truthy _ _ _ Hd) in H.
  destruct (copy_groups "securitygroup" _ _ _ r0) as [r1| | |];
    try discriminate H.
  cbn [obind] in H.
  destruct (copy_groups "affinitygroup" "name" _ _ r1) as [r2| | |];
    try discriminate H.
  cbn [obind] in H.
  destruct (copy_groups "affinitygroup" "id" _ _ r2) as [r3| | |];
    try discriminate H.
  cbn [obind py_in] in H. unfold has_key, item in H. cbn [py_getitem] in H.
  rewrite Hd in H. cbn [obind py_iter] in H.
  apply (default_ip_loop_last _ _ _ _ Hnic Hpost _ _ H).
Qed.

Definition list_vm_nics (vmid : value) : call :=
  ("listNics", [("virtualmachineid", vmid)]).

(** X27: [get_vm_default_nic] takes the first default NIC.  With no NIC
    cached, the NICs of the [listNics] response are tried in order; the
    first whose [isdefault] is true is cached and returned, and the NICs
    after it are not looked at. *)
Theorem get_vm_default_nic_takes_first (vmid : value) (r : dict)
    (pre post : list value) (nic d : value) (st st1 : state) :
  truthy (attr "vm_default_nic" st) = false ->
  get_vm (VStr "id") st = (Ok vmid, st1) ->
  remote (trace st1) (list_vm_nics vmid) = Reply (VDict r) ->
  dict_get "nic" r = Some (VList (pre ++ nic :: post)) ->
  Forall (fun n => exists d, item n "isdefault" = Ok d /\ truthy d = false)
    pre ->
  item nic "isdefault" = Ok d ->
  truthy d = true ->
  get_vm_default_nic st
  = (Ok nic,
     set_attr "vm_default_nic" nic (log_call (list_vm_nics vmid) st1)).
Proof.
  intros Hc Hvm Hr Hl Hpre Hd Ht. unfold get_vm_default_nic. mred.
  rewrite Hc. step Hvm. step (cs_reply _ _ _ _ Hr).
  rewrite (dict_get_truthy _ _ _ Hl).
  assert (Hns : obind (item (VDict r) "nic") py_iter
                = Ok (pre ++ nic :: post)%list).
  { unfold item. simpl. now rewrite Hl. }
  unfold bind at 1. unfold bind at 1. unfold lift at 1. rewrite Hns.
  rewrite for_first_skip.
  - cbn [for_first]. unfold bind at 1. unfold bind at 1. unfold lift at 1.
    rewrite Hd, Ht. reflexivity.
  - eapply Forall_impl; [exact Hpre|].
    intros x (dx & Hx & Hf) s. unfold bind, lift. now rewrite Hx, Hf.
Qed.

End Run.

(** * Concrete runs *)

(** A conversion that rejects every value, for the numeric types the
    concrete runs do not use. *)
Definition no_conversion (v : value) : outcome value := Raised TypeError.

(** A platform on which every job is finished at the first status query. *)
Definition finished_job_result : value :=
  VDict [("account", VDict [("id", VStr "a1"); ("state", VStr "enabled")])].

Definition finished_platform (tr : list call) (c : call) : reply :=
  Reply (VDict [("jobstatus", VInt 1); ("jobresult", finished_job_result)]).

Definition job_response : value := VDict [("jobid", VStr "j1")].

Lemma poll_job_success_witness :
  poll_job finished_platform 1 job_response (VStr "account") init_state
  = (Ok (VDict [("id", VStr "a1"); ("state", VStr "enabled")]),
     after_queries (status_query (VStr "j1")) 1 init_state).
Proof.
  apply (poll_job_success finished_platform 1 job_response (Some "account")
           (VStr "j1") 0
           (VDict [("jobstatus", VInt 1); ("jobresult", finished_job_result)])
           [("account", VDict [("id", VStr "a1"); ("state", VStr "enabled")])]
           init_state).
  - reflexivity.
  - reflexivity.
  - intros i Hi. lia.
  - reflexivity.
  - reflexivity.
  - lia.
Defined.

(** C5 as stated fails: without a [key], a finished job makes [poll_job]
    return the response it was given, which is not the job result. *)
Lemma poll_job_keeps_response_without_key :
  fst (poll_job finished_platform 1 job_response VNone init_state)
    = Ok job_response
  /\ fst (poll_job finished_platform 1 job_response VNone init_state)
    <> Ok finished_job_result.
Proof.
  split; [reflexivity|]. intros H. vm_compute in H. discriminate H.
Qed.

Lemma poll_job_without_jobid_witness :
  poll_job finished_platform 1 (VDict [("id", VStr "a1")]) (VStr "account")
    init_state
  = (Ok (VDict [("id", VStr "a1")]), init_state).
Proof.
  apply (poll_job_without_jobid finished_platform 1
           (VDict [("id", VStr "a1")]) (VStr "account") init_state).
  reflexivity.
Defined.

Lemma get_account_requires_domain_witness :
  get_account {[ "account" := VStr "acme" ]} ∅ finished_platform
    (VStr "name") init_state
  = (Failed "Account must be specified with Domain" [], init_state).
Proof.
  apply (get_account_requires_domain {[ "account" := VStr "acme" ]} ∅
           finished_platform (VStr "name") init_state); reflexivity.
Defined.

(** [int()] on booleans, integers and plain decimal strings. *)
Definition decimal_int (v : value) : outcome value :=
  match v with
  | VBool b => Ok (VInt (if b then 1 else 0))
  | VInt n | VLong n => Ok (VInt n)
  | VStr s =>
      match NilZero.int_of_string s with
      | Some d => Ok (VInt (Z.of_int d))
      | None => Raised ValueError
      end
  | _ => Raised TypeError
  end.

Lemma has_changed_absent_key_witness :
  true = true
  /\ dict_get "name"
       (hc_before (snd (has_changed decimal_int no_conversion no_conversion
                          no_conversion [("name", VStr "web")] [] VNone [] [])))
     = Some VNone
  /\ dict_get "name"
       (hc_after (snd (has_changed decimal_int no_conversion no_conversion
                         no_conversion [("name", VStr "web")] [] VNone [] [])))
     = Some (VStr "web").
Proof.
  apply (has_changed_absent_key decimal_int no_conversion no_conversion
           no_conversion [("name", VStr "web")] [] VNone [] [] "name"
           (VStr "web") true).
  - apply NoDup_singleton.
  - left; reflexivity.
  - discriminate.
  - reflexivity.
  - reflexivity.
  - reflexivity.
Defined.

(** C9 as stated fails: a wanted field that [only_keys] leaves out is not
    reported, although it is not [None] and the current resource lacks
    it. *)
Lemma has_changed_skips_unselected_key :
  dict_get "name" [] = None
  /\ fst (has_changed decimal_int no_conversion no_conversion no_conversion
            [("name", VStr "web")] [] (VList [VStr "state"]) [] [])
     = Ok false
  /\ hc_before (snd (has_changed decimal_int no_conversion no_conversion
                       no_conversion [("name", VStr "web")] []
                       (VList [VStr "state"]) [] []))
     = [].
Proof. repeat split. Qed.

Lemma has_changed_coerces_current_witness :
  fst (has_changed decimal_int no_conversion no_conversion no_conversion
         [("cpunumber", VInt 2)] [("cpunumber", VStr "2")] VNone [] [])
  = Ok false
  /\ exists c,
       coerce decimal_int no_conversion no_conversion no_conversion KInt
         (VStr "2") = Ok c
       /\ dict_get "cpunumber"
            (hc_current
               (snd (has_changed decimal_int no_conversion no_conversion
                       no_conversion [("cpunumber", VInt 2)]
                       [("cpunumber", VStr "2")] VNone [] [])))
          = Some c.
Proof.
  split; [reflexivity|].
  apply (has_changed_coerces_current decimal_int no_conversion no_conversion
           no_conversion [("cpunumber", VInt 2)] [("cpunumber", VStr "2")]
           VNone [] [] "cpunumber" (VStr "2") KInt (VInt 2) false).
  - apply NoDup_singleton.
  - left; reflexivity.
  - reflexivity.
  - reflexivity.
  - reflexivity.
  - reflexivity.
Defined.

(** C10 as stated fails: the current value of a numeric wanted field that
    [only_keys] leaves out stays as it was. *)
Lemma has_changed_keeps_unselected_key :
  coerce decimal_int no_conversion no_conversion no_conversion KInt (VStr "2")
  = Ok (VInt 2)
  /\ dict_get "cpunumber"
       (hc_current
          (snd (has_changed decimal_int no_conversion no_conversion
                  no_conversion [("cpunumber", VInt 2)]
                  [("cpunumber", VStr "2")] (VList [VStr "memory"]) [] [])))
     = Some (VStr "2").
Proof. split; reflexivity. Qed.

(** A platform with one domain, two accounts of the same name in it, one
    zone and one OS type. *)
Definition small_platform (tr : list call) (c : call) : reply :=
  let api := fst c in
  if String.eqb api "listDomains" then
    Reply (VDict [("domain", VList [VDict [("id", VStr "d1");
                                          ("path", VStr "ROOT")]])])
  else if String.eqb api "listAccounts" then
    Reply (VDict [("account",
                   VList [VDict [("id", VStr "a1"); ("name", VStr "acme");
                                 ("state", VStr "enabled")];
                          VDict [("id", VStr "a2"); ("name", VStr "acme");
                                 ("state", VStr "enabled")]])])
  else if String.eqb api "listZones" then
    Reply (VDict [("zone", VList [VDict [("id", VStr "z1");
                                        ("name", VStr "ch-gva-2")]])])
  else if String.eqb api "listOsTypes" then
    Reply (VDict [("ostype", VList [VDict [("id", VStr "os1");
                                          ("description", VStr "CentOS 7")]])])
  else Reply VNone.

Definition acme_params : gmap string value :=
  {[ "account" := VStr "acme"; "domain" := VStr "ROOT";
     "os_type" := VStr "CentOS 7" ]}.


(** C4 fails for the OS type: once it is resolved, [get_os_type] reads the
    requested key from the cached zone, not from the cached OS type.  With
    no zone resolved the second call ends the run; with a zone resolved it
    answers with the zone's id.  Neither call after the first queries the
    platform. *)
Lemma get_os_type_second_call_reads_zone :
  let first := get_os_type acme_params small_platform (VStr "id") init_state in
  let second := get_os_type acme_params small_platform (VStr "id") (snd first) in
  let zoned := get_zone acme_params ∅ small_platform (VStr "id") (snd first) in
  let third := get_os_type acme_params small_platform (VStr "id") (snd zoned) in
  fst first = Ok (VStr "os1")
  /\ fst second = Failed "Something went wrong: %s not found" [VStr "id"]
  /\ trace (snd second) = trace (snd first)
  /\ fst zoned = Ok (VStr "z1")
  /\ fst third = Ok (VStr "z1")
  /\ trace (snd third) = trace (snd zoned).
Proof. vm_compute. repeat split. Qed.
(** A platform that accepts every tag request as a job, finished at the
    first status query. *)
Definition tag_platform (tr : list call) (c : call) : reply :=
  if String.eqb (fst c) "queryAsyncJobResult" then
    Reply (VDict [("jobstatus", VInt 1); ("jobresult", VDict [("success", VBool true)])])
  else Reply job_response.

Definition env_tag : value :=
  VDict [("key", VStr "env"); ("value", VStr "prod")].

Definition tag_params : gmap string value :=
  {[ "tags" := VList [env_tag] ]}.

Lemma ensure_tags_set_operation_witness :
  snd (ensure_tags tag_params tag_platform 1 false
         (VDict [("id", VStr "vm1"); ("tags", VList [env_tag])])
         (VStr "UserVm") init_state)
  = init_state
  /\ (ensure_tags tag_params tag_platform 1 false
        (VDict [("id", VStr "vm1"); ("tags", VList [env_tag])])
        (VStr "UserVm")
        (snd (ensure_tags tag_params tag_platform 1 false
                (VDict [("id", VStr "vm1"); ("tags", VList [])])
                (VStr "UserVm") init_state))
      = (Ok (VDict [("id", VStr "vm1"); ("tags", VList [env_tag])]),
         snd (ensure_tags tag_params tag_platform 1 false
                (VDict [("id", VStr "vm1"); ("tags", VList [])])
                (VStr "UserVm") init_state))
      /\ item (VDict [("id", VStr "vm1"); ("tags", VList [env_tag])]) "tags"
         = Ok (VList [env_tag]))
  /\ ensure_tags tag_params tag_platform 1 false
       (VDict [("id", VStr "vm2")]) (VStr "UserVm") init_state
     = (Ok (VDict [("id", VStr "vm2")]), init_state).
Proof.
  split; [|split].
  - apply (proj1 (ensure_tags_set_operation tag_params tag_platform 1 false
                    [] (VDict [("id", VStr "vm1"); ("tags", VList [env_tag])])
                    (VStr "UserVm") [env_tag] init_state init_state VNone));
      reflexivity.
  - apply (proj1 (proj2 (ensure_tags_set_operation tag_params tag_platform 1
                    false
                    [("id", VStr "vm1"); ("tags", VList [])] VNone
                    (VStr "UserVm") [env_tag] init_state
                    (snd (ensure_tags tag_params tag_platform 1 false
                            (VDict [("id", VStr "vm1"); ("tags", VList [])])
                            (VStr "UserVm") init_state))
                    (VDict [("id", VStr "vm1"); ("tags", VList [env_tag])]))));
      reflexivity.
  - apply (proj2 (proj2 (ensure_tags_set_operation tag_params tag_platform 1
                    false [] (VDict [("id", VStr "vm2")]) (VStr "UserVm") []
                    init_state init_state VNone)));
      reflexivity.
Defined.

(** C2 as stated fails: a resource without a [tags] field comes back as it
    was, so its tags are not the wanted ones. *)
Lemma ensure_tags_skips_resource_without_tags :
  ensure_tags tag_params tag_platform 1 false (VDict [("id", VStr "vm1")])
    (VStr "UserVm") init_state
  = (Ok (VDict [("id", VStr "vm1")]), init_state)
  /\ get_tags (VDict [("id", VStr "vm1")]) = Ok []
  /\ param tag_params "tags" = VList [env_tag].
Proof. repeat split. Qed.

(** A platform with two pods, one virtual machine and two NICs besides
    what [small_platform] has. *)
Definition nic_platform (tr : list call) (c : call) : reply :=
  let api := fst c in
  if String.eqb api "listPods" then
    Reply (VDict [("pod", VList [VDict [("id", VStr "p1")];
                                 VDict [("id", VStr "p2")]])])
  else if String.eqb api "listVirtualMachines" then
    Reply (VDict [("virtualmachine",
                   VList [VDict [("id", VStr "vm1"); ("name", VStr "web1");
                                 ("displayname", VStr "web1")]])])
  else if String.eqb api "listNics" then
    Reply (VDict [("nic", VList [VDict [("id", VStr "n1")];
                                 VDict [("id", VStr "n2")]])])
  else small_platform tr c.

Definition nic_params : gmap string value :=
  {[ "account" := VStr "acme"; "domain" := VStr "ROOT"; "vm" := VStr "web1";
     "pod" := VStr "pod" ]}.


(** A platform with the account [acme] in state [disabled]; enabling it
    answers with the account in state [enabled], disabling it with a job
    that is finished at the first status query. *)
Definition disabled_account : value :=
  VDict [("id", VStr "a1"); ("name", VStr "acme"); ("state", VStr "disabled")].

Definition enabled_account : value :=
  VDict [("id", VStr "a1"); ("name", VStr "acme"); ("state", VStr "enabled")].

Definition locked_account : value :=
  VDict [("id", VStr "a1"); ("name", VStr "acme"); ("state", VStr "locked")].

Definition lock_platform (tr : list call) (c : call) : reply :=
  let api := fst c in
  if String.eqb api "listDomains" then
    Reply (VDict [("domain", VList [VDict [("id", VStr "d1");
                                          ("path", VStr "ROOT")]])])
  else if String.eqb api "listAccounts" then
    Reply (VDict [("account", VList [disabled_account])])
  else if String.eqb api "enableAccount" then
    Reply (VDict [("account", enabled_account)])
  else if String.eqb api "disableAccount" then
    Reply (VDict [("jobid", VStr "j1")])
  else if String.eqb api "queryAsyncJobResult" then
    Reply (VDict [("jobstatus", VInt 1);
                  ("jobresult", VDict [("account", locked_account)])])
  else Reply VNone.

Definition lock_params : gmap string value :=
  {[ "name" := VStr "acme"; "domain" := VStr "ROOT";
     "state" := VStr "locked"; "poll_async" := VBool true ]}.

Lemma lock_disabled_account_enables_first_witness :
  List.filter is_mutation
    (trace (snd (lock_account lock_params ∅ lock_platform 1 false init_state)))
  = [("enableAccount",
      [("id", VStr "a1"); ("account", VStr "acme"); ("domainid", VStr "d1")]);
     ("disableAccount",
      [("id", VStr "a1"); ("account", VStr "acme"); ("domainid", VStr "d1");
       ("lock", VBool true)])].
Proof.
  apply (lock_disabled_account_enables_first lock_params ∅ lock_platform 1
           disabled_account (VStr "a1") (VStr "d1")
           (VDict [("account", enabled_account)]) enabled_account (VStr "a1")
           init_state
           (snd (Account_get_account lock_params ∅ lock_platform init_state)));
    reflexivity.
Defined.


(** The two runs of the witness: check mode makes the two list queries and
    sets the flag; normal mode makes the same two queries and then the
    two commands and the job poll. *)
Example lock_account_two_modes :
  map fst (trace (snd (lock_account lock_params ∅ lock_platform 1 true
                         init_state)))
  = ["listDomains"; "listAccounts"]
  /\ changed (snd (lock_account lock_params ∅ lock_platform 1 true
                     init_state)) = true
  /\ map fst (trace (snd (lock_account lock_params ∅ lock_platform 1 false
                            init_state)))
     = ["listDomains"; "listAccounts"; "enableAccount"; "disableAccount";
        "queryAsyncJobResult"]
  /\ fst (lock_account lock_params ∅ lock_platform 1 false init_state)
     = Ok locked_account.
Proof. vm_compute. repeat split. Qed.

(** A platform without accounts, on which creating one succeeds. *)
Definition empty_platform (tr : list call) (c : call) : reply :=
  let api := fst c in
  if String.eqb api "listDomains" then
    Reply (VDict [("domain", VList [VDict [("id", VStr "d1");
                                          ("path", VStr "ROOT")]])])
  else if String.eqb api "listAccounts" then Reply (VDict [])
  else if String.eqb api "createAccount" then
    Reply (VDict [("account", enabled_account)])
  else Reply VNone.

Definition new_account_params : gmap string value :=
  {[ "name" := VStr "acme"; "domain" := VStr "ROOT";
     "state" := VStr "enabled"; "account_type" := VStr "user";
     "email" := VStr "a@b.com"; "username" := VStr "acme";
     "password" := VStr "x"; "first_name" := VStr "A";
     "last_name" := VStr "B" ]}.

(** Enabling an account that does not exist: in check mode the flag is
    set and no command is sent, as in C1, but the method then reads the
    state of the account it did not create and the run ends with a
    [TypeError]; in normal mode the account is created. *)
Example enable_missing_account_two_modes :
  let dry := enable_account new_account_params ∅ empty_platform true
               init_state in
  let wet := enable_account new_account_params ∅ empty_platform false
               init_state in
  fst dry = Raised TypeError
  /\ changed (snd dry) = true
  /\ map fst (trace (snd dry))
     = ["listDomains"; "listAccounts"; "listAccounts"]
  /\ fst wet = Ok enabled_account
  /\ changed (snd wet) = true
  /\ map fst (trace (snd wet))
     = ["listDomains"; "listAccounts"; "listAccounts"; "createAccount"].
Proof. vm_compute. repeat split. Qed.

(** A platform without accounts, on which an account is created in state
    [disabled] and is listed from then on. *)
Definition account_created (tr : list call) : bool :=
  existsb (fun c : call => String.eqb (fst c) "createAccount") tr.

Definition late_platform (tr : list call) (c : call) : reply :=
  let api := fst c in
  if String.eqb api "listDomains" then
    Reply (VDict [("domain", VList [VDict [("id", VStr "d1");
                                          ("path", VStr "ROOT")]])])
  else if String.eqb api "listAccounts" then
    if account_created tr
    then Reply (VDict [("account", VList [disabled_account])])
    else Reply (VDict [])
  else if String.eqb api "createAccount" then
    Reply (VDict [("account", disabled_account)])
  else if String.eqb api "enableAccount" then
    Reply (VDict [("account", enabled_account)])
  else if String.eqb api "disableAccount" then
    Reply (VDict [("account", locked_account)])
  else Reply VNone.

Definition locked_account_params : gmap string value :=
  {[ "name" := VStr "acme"; "domain" := VStr "ROOT";
     "state" := VStr "locked"; "account_type" := VStr "user";
     "email" := VStr "a@b.com"; "username" := VStr "acme";
     "password" := VStr "x"; "first_name" := VStr "A";
     "last_name" := VStr "B" ]}.


(** ** Further concrete runs *)

Definition failed_job_result : value :=
  VDict [("jobstatus", VInt 2);
         ("jobresult", VDict [("errortext", VStr "quota exceeded")])].

Definition failing_platform (tr : list call) (c : call) : reply :=
  Reply failed_job_result.

Lemma poll_job_reports_error_witness :
  poll_job failing_platform 1 job_response (VStr "account") init_state
  = (Failed "Failed: '%s'" [VStr "quota exceeded"],
     after_queries (status_query (VStr "j1")) 1 init_state).
Proof.
  apply (poll_job_reports_error failing_platform 1 job_response
           (VStr "account") (VStr "j1") 0 failed_job_result
           (VStr "quota exceeded") init_state).
  - reflexivity.
  - reflexivity.
  - intros i Hi. lia.
  - reflexivity.
  - reflexivity.
  - lia.
Defined.

Definition pending_platform (tr : list call) (c : call) : reply :=
  Reply (VDict [("jobstatus", VInt 0)]).

Lemma poll_job_waits_while_pending_witness :
  poll_job pending_platform 3 job_response VNone init_state
  = (OutOfFuel, after_queries (status_query (VStr "j1")) 3 init_state).
Proof.
  apply (poll_job_waits_while_pending pending_platform 3 job_response VNone
           (VStr "j1") init_state).
  - reflexivity.
  - reflexivity.
  - intros i Hi. eexists. split; reflexivity.
Defined.

Lemma get_domain_resolves_once_witness :
  let st' := snd (get_domain acme_params ∅ small_platform (VStr "id")
                    init_state) in
  get_domain acme_params ∅ small_platform (VStr "id") st'
  = (Ok (VStr "d1"), st')
  /\ forall key', snd (get_domain acme_params ∅ small_platform key' st') = st'.
Proof.
  apply (get_domain_resolves_once acme_params ∅ small_platform (VStr "id")
           (VStr "d1") init_state).
  vm_compute. reflexivity.
Defined.

Lemma get_zone_resolves_once_witness :
  let st' := snd (get_zone acme_params ∅ small_platform (VStr "id")
                    init_state) in
  get_zone acme_params ∅ small_platform (VStr "id") st'
  = (Ok (VStr "z1"), st').
Proof.
  apply (get_zone_resolves_once acme_params ∅ small_platform (VStr "id")
           (VStr "z1") init_state).
  - reflexivity.
  - vm_compute. reflexivity.
Defined.

Definition root_domain : value :=
  VDict [("id", VStr "d0"); ("path", VStr "ROOT")].

Definition sales_domain : value :=
  VDict [("id", VStr "d1"); ("path", VStr "ROOT/Sales")].

Definition sales_copy : value :=
  VDict [("id", VStr "d2"); ("path", VStr "root/sales")].

Definition domains_response : dict :=
  [("count", VInt 3);
   ("domain", VList [root_domain; sales_domain; sales_copy])].

Definition domains_platform (tr : list call) (c : call) : reply :=
  if String.eqb (fst c) "listDomains" then Reply (VDict domains_response)
  else Reply VNone.

Lemma get_domain_takes_first_match_witness :
  get_domain {[ "domain" := VStr "sales" ]} ∅ domains_platform (VStr "id")
    init_state
  = _get_by_key (VStr "id") sales_domain
      (set_attr "domain" sales_domain (log_call list_domains init_state)).
Proof.
  apply (get_domain_takes_first_match {[ "domain" := VStr "sales" ]} ∅
           domains_platform (VStr "id") "sales" "ROOT/Sales"
           domains_response [root_domain] [sales_copy] sales_domain
           init_state).
  - reflexivity.
  - reflexivity.
  - discriminate.
  - reflexivity.
  - reflexivity.
  - constructor; [|constructor]. exists "ROOT". split; reflexivity.
  - reflexivity.
  - reflexivity.
Defined.

Lemma get_domain_not_found_witness :
  get_domain {[ "domain" := VStr "ops" ]} ∅ domains_platform (VStr "id")
    init_state
  = (Failed "Domain '%s' not found" [VStr "ops"],
     log_call list_domains init_state).
Proof.
  apply (get_domain_not_found {[ "domain" := VStr "ops" ]} ∅
           domains_platform (VStr "id") "ops" (VDict domains_response)
           init_state).
  - reflexivity.
  - reflexivity.
  - discriminate.
  - reflexivity.
  - right. exists domains_response, [root_domain; sales_domain; sales_copy].
    split; [reflexivity|]. split; [reflexivity|].
    repeat (constructor; [eexists; split; reflexivity|]). constructor.
Defined.

Definition wanted_cluster : dict :=
  [("id", VStr "C-1"); ("clustername", VStr "Rack1"); ("hypervisor", VNone)].

Definition current_cluster : dict :=
  [("id", VStr "C-1"); ("clustername", VStr "rack1");
   ("podname", VStr "pod1")].

Lemma has_changed_keeps_other_keys_witness :
  let s := mkHc current_cluster [] [] false in
  dict_get "podname" (hc_current s) = dict_get "podname" current_cluster
  /\ dict_get "podname" (hc_before s) = dict_get "podname" []
  /\ dict_get "podname" (hc_after s) = dict_get "podname" [].
Proof.
  apply (has_changed_keeps_other_keys no_conversion no_conversion
           no_conversion no_conversion wanted_cluster current_cluster VNone
           [] [] "podname" (Ok false)).
  - vm_compute. intros [H|[H|[H|[]]]]; discriminate H.
  - reflexivity.
Defined.

Lemma has_changed_false_keeps_diff_witness :
  hc_before (mkHc current_cluster [] [] false) = []
  /\ hc_after (mkHc current_cluster [] [] false) = [].
Proof.
  apply (has_changed_false_keeps_diff no_conversion no_conversion
           no_conversion no_conversion wanted_cluster current_cluster VNone).
  reflexivity.
Defined.

Lemma has_changed_nothing_to_do_witness :
  has_changed no_conversion no_conversion no_conversion no_conversion
    wanted_cluster current_cluster (VList [VStr "id"; VStr "clustername"])
    [] []
  = (Ok false, mkHc current_cluster [] [] false).
Proof.
  apply (has_changed_nothing_to_do no_conversion no_conversion no_conversion
           no_conversion wanted_cluster current_cluster
           (Some [VStr "id"; VStr "clustername"]) [] []).
  constructor; [|constructor; [|constructor; [|constructor]]].
  - right. exists "C-1", "C-1". split; [|split]; reflexivity.
  - right. exists "Rack1", "rack1". split; [|split]; reflexivity.
  - left. reflexivity.
Defined.

Lemma has_changed_reports_text_witness :
  let s := snd (has_changed no_conversion no_conversion no_conversion
                  no_conversion [("id", VStr "c-1")] current_cluster VNone
                  [] []) in
  true = true
  /\ dict_get "id" (hc_before s) = Some (VStr "C-1")
  /\ dict_get "id" (hc_after s) = Some (VStr "c-1").
Proof.
  apply (has_changed_reports_text no_conversion no_conversion no_conversion
           no_conversion [("id", VStr "c-1")] current_cluster VNone [] []
           "id" "c-1" "C-1" true).
  - apply NoDup_singleton.
  - now left.
  - reflexivity.
  - reflexivity.
  - reflexivity.
  - reflexivity.
Defined.

Definition test_tag : value :=
  VDict [("key", VStr "env"); ("value", VStr "test")].

Definition tagged_vm : value :=
  VDict [("id", VStr "vm1");
         ("tags", VList [VDict [("key", VStr "env"); ("value", VStr "test");
                                ("resourceid", VStr "vm1")]])].

Lemma ensure_tags_removes_then_adds_witness :
  let st' := snd (ensure_tags tag_params tag_platform 1 false tagged_vm
                    (VStr "UserVm") init_state) in
  List.filter is_mutation (trace st')
  = (List.filter is_mutation (trace init_state)
     ++ tag_calls "deleteTags" (VStr "vm1") (VStr "UserVm") [test_tag]
     ++ tag_calls "createTags" (VStr "vm1") (VStr "UserVm") [env_tag])%list
  /\ changed st' = changed init_state || nonempty [test_tag]
                   || nonempty [env_tag].
Proof.
  apply (ensure_tags_removes_then_adds tag_params tag_platform 1 tagged_vm
           (VStr "UserVm") (VStr "vm1") [env_tag] [test_tag] [env_tag]
           (VDict [("id", VStr "vm1"); ("tags", VList [env_tag])])
           init_state).
  - reflexivity.
  - reflexivity.
  - reflexivity.
  - reflexivity.
  - reflexivity.
  - vm_compute. reflexivity.
Defined.

Definition named_params : gmap string value :=
  {[ "name" := VStr "acme"; "domain" := VStr "ROOT" ]}.

Lemma account_already_in_state_witness :
  enable_account named_params ∅ small_platform false init_state
  = (Ok (VDict [("id", VStr "a1"); ("name", VStr "acme");
                ("state", VStr "enabled")]),
     snd (Account_get_account named_params ∅ small_platform init_state)).
Proof.
  refine (proj1 (account_already_in_state named_params ∅ small_platform 1
                   false _ "enabled" init_state _ _ _) eq_refl).
  - vm_compute. reflexivity.
  - reflexivity.
Defined.

Lemma present_account_checks_parameters_witness :
  present_account
    {[ "name" := VStr "acme"; "email" := VStr "a@example.org";
       "password" := VStr "" ]} ∅ small_platform false init_state
  = (Failed "missing required arguments: %s"
       [VStr "username,password,first_name,last_name"], init_state).
Proof.
  apply (present_account_checks_parameters
           {[ "name" := VStr "acme"; "email" := VStr "a@example.org";
              "password" := VStr "" ]} ∅ small_platform false "username"
           ["password"; "first_name"; "last_name"] init_state).
  vm_compute. reflexivity.
Defined.

Definition rack_cluster : dict :=
  [("id", VStr "c1"); ("name", VStr "Rack1"); ("hypervisortype", VStr "KVM");
   ("clustertype", VStr "CloudManaged")].

Definition clusters_response : dict :=
  [("count", VInt 1); ("cluster", VList [VDict rack_cluster])].

Definition cluster_platform (tr : list call) (c : call) : reply :=
  if String.eqb (fst c) "listClusters" then Reply (VDict clusters_response)
  else Reply VNone.

Definition cluster_by_name_params : gmap string value :=
  {[ "name" := VStr "rack1"; "hypervisor" := VStr "kvm" ]}.

Lemma cluster_found_by_name_is_kept_witness :
  let run := present_cluster cluster_by_name_params ∅ cluster_platform
               no_conversion no_conversion no_conversion no_conversion
               false init_state in
  fst run
  = Ok (VDict (named_cluster rack_cluster (VStr "KVM") (VStr "Rack1")))
  /\ trace (snd run)
     = (trace init_state ++ [list_clusters_by_name cluster_by_name_params])%list
  /\ changed (snd run) = changed init_state
  /\ diff_before (snd run) = diff_before init_state
  /\ diff_after (snd run) = diff_after init_state.
Proof.
  apply (cluster_found_by_name_is_kept cluster_by_name_params ∅
           cluster_platform no_conversion no_conversion no_conversion
           no_conversion false rack_cluster clusters_response []
           (VStr "KVM") (VStr "Rack1") "c1" init_state).
  - reflexivity.
  - reflexivity.
  - reflexivity.
  - reflexivity.
  - reflexivity.
  - reflexivity.
  - reflexivity.
  - replace (_get_common_cluster_args cluster_by_name_params)
      with [("clustername", VStr "rack1"); ("hypervisor", VStr "kvm");
            ("clustertype", VNone)] by (vm_compute; reflexivity).
    constructor; [|constructor; [|constructor; [|constructor]]].
    + right. exists "rack1", "Rack1". split; [|split]; reflexivity.
    + right. exists "kvm", "KVM". split; [|split]; reflexivity.
    + left. reflexivity.
Defined.

(** A run of [_create_cluster] that sends [addCluster]: the option
    [public_vswitch_name] is not among the arguments. *)
Example create_cluster_sends_no_switch_name :
  trace (snd (_create_cluster
                {[ "name" := VStr "rack2"; "cluster_type" := VStr "CloudManaged";
                   "hypervisor" := VStr "KVM"; "pod" := VStr "pod1";
                   "public_vswitch_name" := VStr "vswitch0" ]}
                ∅ nic_platform false init_state))
  = [("listZones", []);
     ("listPods", [("name", VStr "pod1"); ("zoneid", VStr "z1")]);
     ("addCluster",
      [("clustername", VStr "rack2"); ("hypervisor", VStr "KVM");
       ("clustertype", VStr "CloudManaged"); ("zoneid", VStr "z1");
       ("podid", VStr "p1"); ("url", VNone); ("username", VNone);
       ("password", VNone); ("guestvswitchname", VNone);
       ("guestvswitchtype", VNone); ("publicvswitchtype", VNone);
       ("vsmipaddress", VNone); ("vsmusername", VNone);
       ("vmspassword", VNone); ("ovm3cluster", VNone);
       ("ovm3pool", VNone); ("ovm3vip", VNone)])].
Proof. vm_compute. reflexivity. Qed.

Definition no_nic_platform (tr : list call) (c : call) : reply :=
  if String.eqb (fst c) "listNics" then Reply VNone else nic_platform tr c.

Definition no_nic_state : state :=
  snd (nic_get_vm nic_params ∅ no_nic_platform (VStr "id") init_state).

Lemma get_nic_not_found_raises_witness :
  get_nic nic_params ∅ no_nic_platform init_state
  = (Raised TypeError, log_call (list_nics (VStr "vm1") VNone) no_nic_state).
Proof.
  apply (get_nic_not_found_raises nic_params ∅ no_nic_platform (VStr "vm1")
           VNone VNone (VStr "web1") VNone init_state no_nic_state
           no_nic_state
           (log_call (list_nics (VStr "vm1") VNone) no_nic_state)).
  - reflexivity.
  - vm_compute. reflexivity.
  - vm_compute. reflexivity.
  - reflexivity.
  - reflexivity.
  - vm_compute. reflexivity.
  - vm_compute. reflexivity.
Defined.

Definition second_address : value :=
  VDict [("id", VStr "ip1"); ("ipaddress", VStr "10.0.0.5")].

Definition web_nic : dict :=
  [("id", VStr "n1"); ("secondaryip", VList [second_address])].

Definition refusing_platform (tr : list call) (c : call) : reply :=
  let api := fst c in
  if String.eqb api "listNics" then
    Reply (VDict [("nic", VList [VDict web_nic])])
  else if String.eqb api "removeIpFromNic" then
    Reply (VDict [("errortext", VStr "address in use")])
  else nic_platform tr c.

Definition guest_ip_params : gmap string value :=
  {[ "account" := VStr "acme"; "domain" := VStr "ROOT"; "vm" := VStr "web1";
     "vm_guest_ip" := VStr "10.0.0.5"; "state" := VStr "absent" ]}.

Definition guest_ip_state : state :=
  set_attr "vm_guest_ip" (VStr "10.0.0.5") init_state.

Definition found_nic_state : state :=
  snd (get_nic guest_ip_params ∅ refusing_platform guest_ip_state).

Lemma absent_nic_reads_error_from_nic_witness :
  absent_nic guest_ip_params ∅ refusing_platform 1 false guest_ip_state
  = (Raised (KeyError (VStr "errortext")),
     log_call ("removeIpFromNic", [("id", VStr "ip1")])
       (mark_changed found_nic_state)).
Proof.
  apply (absent_nic_reads_error_from_nic guest_ip_params ∅ refusing_platform
           1 web_nic second_address (VStr "ip1")
           (VDict [("errortext", VStr "address in use")])
           guest_ip_state found_nic_state found_nic_state).
  - vm_compute. reflexivity.
  - vm_compute. reflexivity.
  - reflexivity.
  - reflexivity.
  - reflexivity.
  - reflexivity.
Defined.

Lemma present_nic_without_guest_ip_changes_witness :
  changed (snd (Nic_main nic_params ∅ nic_platform 1 true init_state)) = true.
Proof.
  apply (present_nic_without_guest_ip_changes nic_params ∅ nic_platform 1
           true (VDict [("id", VStr "n1")]) init_state).
  - reflexivity.
  - reflexivity.
  - vm_compute. reflexivity.
Defined.

Definition guest_nic_state : state :=
  set_attr "vm_default_nic" (VDict web_nic) init_state.

Lemma get_vm_guest_ip_is_assigned_witness :
  guest_nic_state = guest_nic_state
  /\ VStr "10.0.0.5" = param guest_ip_params "vm_guest_ip"
  /\ exists ips secondary_ip a,
       obind (item (VDict web_nic) "secondaryip") py_iter = Ok ips
       /\ In secondary_ip ips
       /\ item secondary_ip "ipaddress" = Ok a
       /\ py_eq (param guest_ip_params "vm_guest_ip") a = true.
Proof.
  apply (get_vm_guest_ip_is_assigned guest_ip_params ∅ refusing_platform
           (VDict web_nic) (VStr "10.0.0.5") guest_nic_state guest_nic_state
           guest_nic_state).
  - reflexivity.
  - reflexivity.
  - reflexivity.
Defined.

Definition admin_account : dict :=
  [("id", VStr "a1"); ("name", VStr "acme"); ("state", VStr "enabled");
   ("accounttype", VInt 2); ("networkdomain", VStr "example.org");
   ("user", VList [VDict [("username", VStr "root");
                          ("apikey", VStr "secret")]])].

Definition admin_result : dict :=
  [("changed", VBool false);
   ("diff", VDict [("before", VDict []); ("after", VDict [])]);
   ("id", VStr "a1"); ("name", VStr "acme"); ("state", VStr "enabled");
   ("network_domain", VStr "example.org");
   ("account_type", VStr "domain_admin")].

Lemma account_result_fields_witness :
  (forall s r v, In (s, r) Account_table ->
                 dict_get s admin_account = Some v ->
                 dict_get r admin_result = Some v)
  /\ (forall k, has_key k admin_result = true -> In k Account_result_keys).
Proof.
  apply (account_result_fields no_conversion admin_account init_state
           admin_result).
  reflexivity.
Defined.

Lemma account_type_round_trip_witness :
  dict_get "account_type" admin_result = Some (VStr "domain_admin").
Proof.
  apply (account_type_round_trip no_conversion admin_account "domain_admin"
           (VInt 2) (self_result init_state) admin_result).
  - reflexivity.
  - reflexivity.
  - reflexivity.
Defined.

Definition hypervisor_platform (tr : list call) (c : call) : reply :=
  if String.eqb (fst c) "listHypervisors" then
    Reply (VDict [("hypervisor", VList [VDict [("name", VStr "VMware")];
                                        VDict [("name", VStr "KVM")]])])
  else Reply VNone.


(** A run of the facts module. *)
Example facts_run_finds_instance :
  Facts_run {[ "name" := VStr "WEB1" ]} ∅ nic_platform no_conversion
    init_state
  = (Ok (VDict [("cloudstack_instance",
                 VDict [("changed", VBool false);
                        ("diff", VDict [("before", VDict []);
                                        ("after", VDict [])]);
                        ("id", VStr "vm1"); ("name", VStr "web1");
                        ("display_name", VStr "web1")])]),
     set_attr "instance"
       (VDict [("id", VStr "vm1"); ("name", VStr "web1");
               ("displayname", VStr "web1")])
       (log_call ("listVirtualMachines",
                  [("account", VNone); ("domainid", VNone);
                   ("projectid", VNone)]) init_state)).
Proof. vm_compute. reflexivity. Qed.

Definition first_nic : value :=
  VDict [("id", VStr "n1"); ("isdefault", VBool true);
         ("ipaddress", VStr "10.0.0.1")].

Definition second_nic : value :=
  VDict [("id", VStr "n2"); ("isdefault", VBool true);
         ("ipaddress", VStr "10.0.0.2")].

Definition plain_nic : value :=
  VDict [("id", VStr "n3"); ("isdefault", VBool false);
         ("ipaddress", VStr "10.0.0.3")].

Definition two_default_instance : dict :=
  [("id", VStr "vm1"); ("nic", VList [first_nic; second_nic; plain_nic])].

Lemma facts_default_ip_is_last_witness :
  dict_get "default_ip"
    [("changed", VBool false);
     ("diff", VDict [("before", VDict []); ("after", VDict [])]);
     ("id", VStr "vm1"); ("default_ip", VStr "10.0.0.2")]
  = Some (VStr "10.0.0.2").
Proof.
  apply (facts_default_ip_is_last no_conversion two_default_instance
           (self_result init_state) _ [first_nic] [plain_nic] second_nic
           (VStr "10.0.0.2")).
  - reflexivity.
  - exists (VBool true). repeat split.
  - constructor; [|constructor].
    exists (VBool false). split; [reflexivity|now left].
  - reflexivity.
Defined.

Definition nics_response : dict :=
  [("count", VInt 3); ("nic", VList [plain_nic; first_nic; second_nic])].

Definition nics_platform (tr : list call) (c : call) : reply :=
  if String.eqb (fst c) "listNics" then Reply (VDict nics_response)
  else Reply VNone.

Definition known_vm_state : state :=
  set_attr "vm" (VDict [("id", VStr "vm1")]) init_state.

Lemma get_vm_default_nic_takes_first_witness :
  get_vm_default_nic ∅ ∅ nics_platform known_vm_state
  = (Ok first_nic,
     set_attr "vm_default_nic" first_nic
       (log_call (list_vm_nics (VStr "vm1")) known_vm_state)).
Proof.
  apply (get_vm_default_nic_takes_first ∅ ∅ nics_platform (VStr "vm1")
           nics_response [plain_nic] [second_nic] first_nic (VBool true)
           known_vm_state known_vm_state).
  - reflexivity.
  - reflexivity.
  - reflexivity.
  - reflexivity.
  - constructor; [|constructor].
    exists (VBool false). split; reflexivity.
  - reflexivity.
  - reflexivity.
Defined.
